(** * SoprtVIPbot: the record store gateway and the conversation engine

    A shallow embedding of [bot.py]: the two gateway operations
    ([load_users], [save_users]) and the chat handlers that drive the
    per-operator conversation ([button_handler], [handle_message],
    [handle_offline_callback], [handle_confirm_callback]).

    Conventions.
    - A Python [str] is a [string]; its characters are the bytes of the
      UTF-8 text, so that ASCII text is modelled character by character.
      A lone surrogate, which a [str] can hold and UTF-8 cannot encode, is
      the three bytes that the encoding scheme gives it.
    - A Python value met by the bot is a JSON-like value ([pyval]); a
      [dict] keeps its insertion order and is an association list.
    - A Python call that can raise returns a [result]; code that also reads
      or writes the process state runs in the state-and-exception monad [M].
    - The remote store, [json.loads] and [json.dumps] are collaborators:
      the gateway and the handlers are written over arbitrary ones, and
      concrete models ([Json], [DocStore]) are supplied where a statement
      is about what they compute.
    - The calls into the text library ([str.strip], [str.lower],
      [str.isdigit], [int], [datetime.strptime]) work on every Unicode
      text.  The handlers are written over an arbitrary library
      ([Library]); the models of [Text] and [Datetime] give these calls on
      ASCII text, and are the library of the examples. *)

From Stdlib Require Import ZArith String Ascii List Bool Lia.
From Stdlib Require Import DecimalString DecimalFacts DecimalPos DecimalN DecimalZ.
From stdpp Require Import base option gmap strings list.

Open Scope Z_scope.

(** ** Python values *)

Module Py.

#[warnings="-register-all"]
Inductive pyval : Type :=
| PyNone
| PyBool (b : bool)
| PyInt (n : Z)
| PyStr (s : string)
| PyList (l : list pyval)
| PyDict (d : list (string * pyval)).

(** Exception classes the modelled code can meet.  All of them derive from
    [Exception]; [RequestException] is the root of the HTTP client's
    errors. *)
Inductive exn : Type :=
| RequestException
| JSONDecodeError
| ValueError
| TypeError
| AttributeError
| KeyError
| OtherException.

Inductive result (A : Type) : Type :=
| Ret (a : A)
| Raise (e : exn).
Arguments Ret {A} a.
Arguments Raise {A} e.

Definition rbind {A B} (r : result A) (k : A -> result B) : result B :=
  match r with
  | Ret a => k a
  | Raise e => Raise e
  end.

(** Induction over values, with the hypotheses for the elements of a list
    and for the values of a dict. *)
Section pyval_induction.
Variable P : pyval -> Prop.
Hypothesis HNone : P PyNone.
Hypothesis HBool : forall b, P (PyBool b).
Hypothesis HInt : forall n, P (PyInt n).
Hypothesis HStr : forall s, P (PyStr s).
Hypothesis HList : forall l, Forall P l -> P (PyList l).
Hypothesis HDict : forall d, Forall (fun kv => P (snd kv)) d -> P (PyDict d).

Fixpoint pyval_nested_ind (v : pyval) : P v :=
  match v with
  | PyNone => HNone
  | PyBool b => HBool b
  | PyInt n => HInt n
  | PyStr s => HStr s
  | PyList l =>
      HList l ((fix go (l : list pyval) : Forall P l :=
                  match l with
                  | [] => @List.Forall_nil _ P
                  | x :: l' => @List.Forall_cons _ P x l' (pyval_nested_ind x) (go l')
                  end) l)
  | PyDict d =>
      HDict d ((fix go (d : list (string * pyval))
                  : Forall (fun kv => P (snd kv)) d :=
                  match d with
                  | [] => @List.Forall_nil _ _
                  | kv :: d' =>
                      @List.Forall_cons _ _ kv d' (pyval_nested_ind (snd kv)) (go d')
                  end) d)
  end.
End pyval_induction.

(** [d.get(key)] on the association list of a dict: the value of the first
    (and, in a well-formed dict, only) entry under [key]. *)
Fixpoint dict_lookup (key : string) (d : list (string * pyval)) : option pyval :=
  match d with
  | [] => None
  | (k, v) :: d' => if String.eqb k key then Some v else dict_lookup key d'
  end.

(** [d[key] = v]: an existing key keeps its position, a new one goes last. *)
Fixpoint dict_set (key : string) (v : pyval) (d : list (string * pyval))
  : list (string * pyval) :=
  match d with
  | [] => [(key, v)]
  | (k, x) :: d' =>
      if String.eqb k key then (k, v) :: d' else (k, x) :: dict_set key v d'
  end.

Fixpoint distinct (ks : list string) : bool :=
  match ks with
  | [] => true
  | k :: ks' => negb (existsb (String.eqb k) ks') && distinct ks'
  end.

(** A value is well formed when no dict in it holds a key twice, which is
    what a Python dict guarantees by construction. *)
Fixpoint wf (v : pyval) : bool :=
  match v with
  | PyList l => forallb wf l
  | PyDict d =>
      distinct (map fst d)
      && (fix go (d : list (string * pyval)) : bool :=
            match d with
            | [] => true
            | (_, x) :: d' => wf x && go d'
            end) d
  | _ => true
  end.

(** [u == v].  [bool] is a subclass of [int], so [True == 1]; two lists are
    equal element by element; two dicts are equal when they have the same
    keys with equal values, in whatever order. *)
Fixpoint py_eq (u v : pyval) : bool :=
  match u, v with
  | PyNone, PyNone => true
  | PyBool a, PyBool b => Bool.eqb a b
  | PyBool a, PyInt n => Z.eqb (if a then 1 else 0) n
  | PyInt m, PyBool b => Z.eqb m (if b then 1 else 0)
  | PyInt m, PyInt n => Z.eqb m n
  | PyStr s, PyStr t => String.eqb s t
  | PyList us, PyList vs =>
      (fix go (us vs : list pyval) : bool :=
         match us, vs with
         | [], [] => true
         | x :: us', y :: vs' => py_eq x y && go us' vs'
         | _, _ => false
         end) us vs
  | PyDict d, PyDict e =>
      Nat.eqb (length d) (length e)
      && (fix go (d : list (string * pyval)) : bool :=
            match d with
            | [] => true
            | (k, x) :: d' =>
                match dict_lookup k e with
                | Some y => py_eq x y
                | None => false
                end && go d'
            end) d
  | _, _ => false
  end.

(** [bool(v)], as used by [if not users]. *)
Definition py_truthy (v : pyval) : bool :=
  match v with
  | PyNone => false
  | PyBool b => b
  | PyInt n => negb (Z.eqb n 0)
  | PyStr s => negb (String.eqb s "")
  | PyList l => match l with [] => false | _ => true end
  | PyDict d => match d with [] => false | _ => true end
  end.

(** [len(v)]: defined on strings, lists and dicts. *)
Definition py_len (v : pyval) : result Z :=
  match v with
  | PyStr s => Ret (Z.of_nat (String.length s))
  | PyList l => Ret (Z.of_nat (length l))
  | PyDict d => Ret (Z.of_nat (length d))
  | _ => Raise TypeError
  end.

(** [v.get(key)] and [v.get(key, default)]: only a dict has [get]. *)
Definition py_get_default (v : pyval) (key : string) (default : pyval)
  : result pyval :=
  match v with
  | PyDict d => Ret (match dict_lookup key d with Some x => x | None => default end)
  | _ => Raise AttributeError
  end.

Definition py_get (v : pyval) (key : string) : result pyval :=
  py_get_default v key PyNone.

(** [key in v] for the values [load_users] tests it on. *)
Definition dict_has (key : string) (d : list (string * pyval)) : bool :=
  match dict_lookup key d with Some _ => true | None => false end.

Fixpoint chars (s : string) : list pyval :=
  match s with
  | EmptyString => []
  | String c s' => PyStr (String c EmptyString) :: chars s'
  end.

(** [for x in v]: the elements of a list, the characters of a string, the
    keys of a dict. *)
Definition py_iter (v : pyval) : result (list pyval) :=
  match v with
  | PyList l => Ret l
  | PyStr s => Ret (chars s)
  | PyDict d => Ret (map (fun kv => PyStr (fst kv)) d)
  | _ => Raise TypeError
  end.

(** Whether a value has a length. *)
Definition sized (v : pyval) : bool :=
  match v with
  | PyStr _ | PyList _ | PyDict _ => true
  | _ => false
  end.

(** [v.append(x)]: only a list has [append]. *)
Definition py_append (v x : pyval) : result pyval :=
  match v with
  | PyList l => Ret (PyList (l ++ [x]))
  | _ => Raise AttributeError
  end.

(** [v[:n]] succeeds on the sequence types; the bot only uses it inside a
    log line, so only whether it raises matters. *)
Definition py_sliceable (v : pyval) : result unit :=
  match v with
  | PyStr _ | PyList _ => Ret tt
  | _ => Raise TypeError
  end.

Definition is_dict (v : pyval) : bool :=
  match v with PyDict _ => true | _ => false end.

End Py.
Export Py.

(** ** String methods and date parsing on ASCII text

    What the [str] methods, [int] and [datetime.strptime] do on a text made
    of ASCII characters.  On other texts the calls of Python do more (they
    strip every Unicode white space and read the digits of every script):
    the handlers do not use these models, but the library of [Library]. *)

Module Text.

Definition code (c : ascii) : Z := Z.of_N (N_of_ascii c).

(** The ASCII characters on which [str.isspace] holds: tab to carriage
    return, the four separators 28 to 31, and the space. *)
Definition is_space (c : ascii) : bool :=
  let n := code c in
  ((9 <=? n) && (n <=? 13)) || ((28 <=? n) && (n <=? 32)).

Definition is_digit (c : ascii) : bool :=
  let n := code c in (48 <=? n) && (n <=? 57).

Definition digit_value (c : ascii) : Z := code c - 48.

Fixpoint lstrip (s : string) : string :=
  match s with
  | String c s' => if is_space c then lstrip s' else s
  | EmptyString => EmptyString
  end.

(** Drops the trailing white space: a character is kept when it is not a
    space or when something is kept after it. *)
Fixpoint rstrip (s : string) : string :=
  match s with
  | EmptyString => EmptyString
  | String c s' =>
      match rstrip s' with
      | EmptyString => if is_space c then EmptyString else String c EmptyString
      | t => String c t
      end
  end.

(** [s.strip()] *)
Definition strip (s : string) : string := rstrip (lstrip s).

Definition lower_char (c : ascii) : ascii :=
  let n := code c in
  if (65 <=? n) && (n <=? 90) then ascii_of_N (Z.to_N (n + 32)) else c.

(** [s.lower()] *)
Fixpoint lower (s : string) : string :=
  match s with
  | EmptyString => EmptyString
  | String c s' => String (lower_char c) (lower s')
  end.

Fixpoint all_digits (s : string) : bool :=
  match s with
  | EmptyString => true
  | String c s' => is_digit c && all_digits s'
  end.

(** [s.isdigit()]: a non-empty run of digits. *)
Definition isdigit (s : string) : bool :=
  match s with
  | EmptyString => false
  | _ => all_digits s
  end.

(** The digits that follow a digit in a number, with single underscores
    allowed between two digits; [acc] is the value read so far. *)
Fixpoint int_digits (acc : Z) (s : string) : option Z :=
  match s with
  | EmptyString => Some acc
  | String c s' =>
      if is_digit c then int_digits (10 * acc + digit_value c) s'
      else if code c =? 95 then
        match s' with
        | String d s'' =>
            if is_digit d then int_digits (10 * acc + digit_value d) s'' else None
        | EmptyString => None
        end
      else None
  end.

Definition int_unsigned (s : string) : option Z :=
  match s with
  | String c s' => if is_digit c then int_digits (digit_value c) s' else None
  | EmptyString => None
  end.

(** [int(s)]: white space around the number is dropped, a sign may come
    first.  [None] stands for the [ValueError]. *)
Definition int (s : string) : option Z :=
  match strip s with
  | String c t =>
      if code c =? 45 then option_map Z.opp (int_unsigned t)
      else if code c =? 43 then int_unsigned t
      else int_unsigned (String c t)
  | EmptyString => None
  end.

End Text.

Module Datetime.
Import Text.

(** One alternative of a field of the pattern: a fixed number of
    characters, each in its class, read as a decimal number. *)
Definition two_chars (p1 p2 : ascii -> bool) (s : string) : option (Z * string) :=
  match s with
  | String a (String b rest) =>
      if p1 a && p2 b then Some (10 * digit_value a + digit_value b, rest)
      else None
  | _ => None
  end.

Definition one_char (p : ascii -> bool) (s : string) : option (Z * string) :=
  match s with
  | String a rest => if p a then Some (digit_value a, rest) else None
  | _ => None
  end.

Definition between (lo hi : Z) (c : ascii) : bool :=
  (lo <=? code c) && (code c <=? hi).

Definition is_char (x : ascii) (c : ascii) : bool := Ascii.eqb x c.

(** [%m] is [1[0-2]|0[1-9]|[1-9]]. *)
Definition month_alternatives : list (string -> option (Z * string)) :=
  [ two_chars (is_char "1") (between 48 50);
    two_chars (is_char "0") (between 49 57);
    one_char (between 49 57) ].

(** [%d] is [3[0-1]|[1-2]\d|0[1-9]|[1-9]| [1-9]]. *)
Definition space_digit (s : string) : option (Z * string) :=
  match s with
  | String a (String b rest) =>
      if is_char " " a && between 49 57 b then Some (digit_value b, rest)
      else None
  | _ => None
  end.

Definition day_alternatives : list (string -> option (Z * string)) :=
  [ two_chars (is_char "3") (between 48 49);
    two_chars (between 49 50) is_digit;
    two_chars (is_char "0") (between 49 57);
    one_char (between 49 57);
    space_digit ].

(** [%Y] is [\d\d\d\d]. *)
Definition year_field (s : string) : option (Z * string) :=
  match s with
  | String a (String b (String c (String d rest))) =>
      if is_digit a && is_digit b && is_digit c && is_digit d
      then Some (1000 * digit_value a + 100 * digit_value b
                 + 10 * digit_value c + digit_value d, rest)
      else None
  | _ => None
  end.

Definition dash (s : string) : option string :=
  match s with
  | String c rest => if is_char "-" c then Some rest else None
  | EmptyString => None
  end.

(** The first alternative that matches, as the regular expression engine
    takes it when nothing follows in the pattern. *)
Fixpoint first_match {A} (alts : list (string -> option A)) (s : string)
  : option A :=
  match alts with
  | [] => None
  | f :: alts' =>
      match f s with
      | Some r => Some r
      | None => first_match alts' s
      end
  end.

(** The month alternatives are tried in order, and one is kept only when
    the rest of the pattern ([-] and a day) matches after it. *)
Fixpoint month_then_day (alts : list (string -> option (Z * string)))
    (s : string) : option (Z * Z * string) :=
  match alts with
  | [] => None
  | f :: alts' =>
      let continue :=
        match f s with
        | Some (m, s1) =>
            match dash s1 with
            | Some s2 =>
                match first_match day_alternatives s2 with
                | Some (d, s3) => Some (m, d, s3)
                | None => None
                end
            | None => None
            end
        | None => None
        end in
      match continue with
      | Some r => Some r
      | None => month_then_day alts' s
      end
  end.

Definition is_leap (y : Z) : bool :=
  (y mod 4 =? 0) && (negb (y mod 100 =? 0) || (y mod 400 =? 0)).

Definition days_in_month (y m : Z) : Z :=
  if m =? 2 then (if is_leap y then 29 else 28)
  else if (m =? 4) || (m =? 6) || (m =? 9) || (m =? 11) then 30
  else 31.

(** [datetime.strptime(s, "%Y-%m-%d")]: the pattern must match a prefix,
    nothing may remain after the match, and the three numbers must name a
    day of the calendar (years start at 1).  Every failure is a
    [ValueError]. *)
Definition strptime_ymd (s : string) : result (Z * Z * Z) :=
  match year_field s with
  | Some (y, s1) =>
      match dash s1 with
      | Some s2 =>
          match month_then_day month_alternatives s2 with
          | Some (m, d, rest) =>
              match rest with
              | EmptyString =>
                  if (1 <=? y) && (d <=? days_in_month y m)
                  then Ret (y, m, d)
                  else Raise ValueError
              | _ => Raise ValueError
              end
          | None => Raise ValueError
          end
      | None => Raise ValueError
      end
  | None => Raise ValueError
  end.

End Datetime.

(** ** Dates

    The part of [datetime] that [get_days_left] runs: the ordinal of a
    date. *)

Module Calendar.

(** A date: the year, the month and the day, as [datetime.strptime] returns
    them and [date] holds them. *)
Definition date : Type := (Z * Z * Z)%type.

(** [_days_before_year(year)]: the days before January 1st of [year]. *)
Definition days_before_year (year : Z) : Z :=
  let y := year - 1 in
  y * 365 + y / 4 - y / 100 + y / 400.

(** [_DAYS_BEFORE_MONTH], with its placeholder at index 0. *)
Definition DAYS_BEFORE_MONTH : list Z :=
  [-1; 0; 31; 59; 90; 120; 151; 181; 212; 243; 273; 304; 334].

(** [_days_before_month(year, month)]: the days of [year] before the first
    day of [month]. *)
Definition days_before_month (year month : Z) : Z :=
  nth (Z.to_nat month) DAYS_BEFORE_MONTH 0
  + (if (2 <? month) && Datetime.is_leap year then 1 else 0).

(** [d.toordinal()], which is [_ymd2ord]: January 1st of year 1 is day 1. *)
Definition toordinal (d : date) : Z :=
  let '(year, month, day) := d in
  days_before_year year + days_before_month year month + day.

End Calendar.

(** A day of the calendar, in the years [datetime] has. *)
Definition calendar_day (d : Calendar.date) : bool :=
  let '(year, month, day) := d in
  (1 <=? year) && (year <=? 9999) && (1 <=? month) && (month <=? 12)
  && (1 <=? day) && (day <=? Datetime.days_in_month year month).

(** ** JSON text

    A model of the two calls the gateway makes into the [json] module:
    [json.dumps(v, indent=2, ensure_ascii=False)] and [json.loads(s)], on
    the values of [pyval].  Number literals with a fraction or an exponent,
    [NaN] and [Infinity] denote floats, which [pyval] does not have:
    [loads] rejects a text that holds one. *)

Module Json.
Import Text.

Definition dquote : ascii := "034".
Definition backslash : ascii := "\".
Definition newline : ascii := "010".

Definition hex_digit (n : Z) : ascii :=
  if n <? 10 then ascii_of_N (Z.to_N (48 + n)) else ascii_of_N (Z.to_N (87 + n)).

(** The replacement of one character inside a string literal: the quote,
    the backslash and the control characters are escaped, the short
    escapes where JSON has one and [\u00XX] elsewhere; nothing else is
    (the encoder runs with [ensure_ascii=False]). *)
Definition escape_char (c : ascii) : string :=
  let n := code c in
  if n =? 34 then String backslash (String dquote EmptyString)
  else if n =? 92 then String backslash (String backslash EmptyString)
  else if n =? 10 then String backslash "n"
  else if n =? 13 then String backslash "r"
  else if n =? 9 then String backslash "t"
  else if n =? 12 then String backslash "f"
  else if n =? 8 then String backslash "b"
  else if n <? 32 then
    String backslash
      (String "u" (String "0" (String "0"
         (String (hex_digit (n / 16)) (String (hex_digit (n mod 16)) EmptyString)))))
  else String c EmptyString.

Fixpoint escape (s : string) : string :=
  match s with
  | EmptyString => EmptyString
  | String c s' => escape_char c +:+ escape s'
  end.

Definition encode_basestring (s : string) : string :=
  String dquote (escape s +:+ String dquote EmptyString).

(** [int.__repr__] *)
Definition encode_int (n : Z) : string := NilEmpty.string_of_int (Z.to_int n).

(** [indent * level], with an indent of two spaces *)
Fixpoint indentation (level : nat) : string :=
  match level with
  | O => EmptyString
  | S level' => String " " (String " " (indentation level'))
  end.

Definition newline_indent (level : nat) : string :=
  String newline (indentation level).

(** The elements after the first: each one follows the item separator and
    a fresh line. *)
Fixpoint encode_more (enc : pyval -> string) (sep : string) (l : list pyval)
  : string :=
  match l with
  | [] => EmptyString
  | x :: l' => sep +:+ enc x +:+ encode_more enc sep l'
  end.

Definition encode_member (enc : pyval -> string) (kv : string * pyval) : string :=
  encode_basestring (fst kv) +:+ ": " +:+ enc (snd kv).

Fixpoint encode_more_members (enc : pyval -> string) (sep : string)
    (d : list (string * pyval)) : string :=
  match d with
  | [] => EmptyString
  | kv :: d' => sep +:+ encode_member enc kv +:+ encode_more_members enc sep d'
  end.

(** The encoder at nesting depth [level]. *)
Fixpoint encode (level : nat) (v : pyval) : string :=
  match v with
  | PyNone => "null"
  | PyBool true => "true"
  | PyBool false => "false"
  | PyInt n => encode_int n
  | PyStr s => encode_basestring s
  | PyList [] => "[]"
  | PyList (x :: l) =>
      "[" +:+ newline_indent (S level) +:+ encode (S level) x
      +:+ encode_more (encode (S level)) ("," +:+ newline_indent (S level)) l
      +:+ newline_indent level +:+ "]"
  | PyDict [] => "{}"
  | PyDict (kv :: d) =>
      "{" +:+ newline_indent (S level) +:+ encode_member (encode (S level)) kv
      +:+ encode_more_members (encode (S level))
            ("," +:+ newline_indent (S level)) d
      +:+ newline_indent level +:+ "}"
  end.

(** [json.dumps(v, indent=2, ensure_ascii=False)] *)
Definition dumps (v : pyval) : string := encode 0 v.

(** *** Decoding *)

Definition is_ws (c : ascii) : bool :=
  let n := code c in (n =? 32) || (n =? 9) || (n =? 10) || (n =? 13).

Fixpoint skip_ws (s : string) : string :=
  match s with
  | String c s' => if is_ws c then skip_ws s' else s
  | EmptyString => EmptyString
  end.

Definition hex_value (c : ascii) : option Z :=
  let n := code c in
  if (48 <=? n) && (n <=? 57) then Some (n - 48)
  else if (97 <=? n) && (n <=? 102) then Some (n - 87)
  else if (65 <=? n) && (n <=? 70) then Some (n - 55)
  else None.

Definition hex4 (a b c d : ascii) : option Z :=
  match hex_value a, hex_value b, hex_value c, hex_value d with
  | Some x, Some y, Some z, Some w => Some (4096 * x + 256 * y + 16 * z + w)
  | _, _, _, _ => None
  end.

Definition byte (n : Z) : ascii := ascii_of_N (Z.to_N n).

(** [chr(u)] as UTF-8 text. *)
Definition utf8 (u : Z) : string :=
  if u <? 128 then String (byte u) EmptyString
  else if u <? 2048 then
    String (byte (192 + u / 64)) (String (byte (128 + u mod 64)) EmptyString)
  else if u <? 65536 then
    String (byte (224 + u / 4096))
      (String (byte (128 + (u / 64) mod 64))
         (String (byte (128 + u mod 64)) EmptyString))
  else
    String (byte (240 + u / 262144))
      (String (byte (128 + (u / 4096) mod 64))
         (String (byte (128 + (u / 64) mod 64))
            (String (byte (128 + u mod 64)) EmptyString))).

(** The character a short escape stands for. *)
Definition unescape (c : ascii) : option ascii :=
  let n := code c in
  if n =? 34 then Some dquote
  else if n =? 92 then Some backslash
  else if n =? 47 then Some "/"%char
  else if n =? 98 then Some (byte 8)
  else if n =? 102 then Some (byte 12)
  else if n =? 110 then Some (byte 10)
  else if n =? 114 then Some (byte 13)
  else if n =? 116 then Some (byte 9)
  else None.

Definition prepend (t : string) (r : option (string * string))
  : option (string * string) :=
  match r with
  | Some (s, rest) => Some (t +:+ s, rest)
  | None => None
  end.

(** The scanner of a string literal, from the character after the opening
    quote: the text of the literal and what follows the closing quote.  A
    raw control character, an unknown escape and a missing closing quote
    are errors; a high surrogate followed by a low one is one character. *)
Fixpoint scanstring (s : string) : option (string * string) :=
  match s with
  | EmptyString => None
  | String c s1 =>
      if code c =? 34 then Some (EmptyString, s1)
      else if code c =? 92 then
        match s1 with
        | EmptyString => None
        | String e s2 =>
            if code e =? 117 then
              match s2 with
              | String h1 (String h2 (String h3 (String h4 s3))) =>
                  match hex4 h1 h2 h3 h4 with
                  | None => None
                  | Some u =>
                      let single := prepend (utf8 u) (scanstring s3) in
                      if (55296 <=? u) && (u <=? 56319) then
                        match s3 with
                        | String b (String x s4) =>
                            if (code b =? 92) && (code x =? 117) then
                              match s4 with
                              | String g1 (String g2 (String g3 (String g4 s5))) =>
                                  match hex4 g1 g2 g3 g4 with
                                  | None => None
                                  | Some u2 =>
                                      if (56320 <=? u2) && (u2 <=? 57343) then
                                        prepend
                                          (utf8 (65536 + ((u - 55296) * 1024
                                                          + (u2 - 56320))))
                                          (scanstring s5)
                                      else single
                                  end
                              | _ => None
                              end
                            else single
                        | _ => single
                        end
                      else single
                  end
              | _ => None
              end
            else
              match unescape e with
              | Some ch => prepend (String ch EmptyString) (scanstring s2)
              | None => None
              end
        end
      else if code c <? 32 then None
      else prepend (String c EmptyString) (scanstring s1)
  end.

Definition digit_of (c : ascii) : option (Decimal.uint -> Decimal.uint) :=
  let n := code c in
  if n =? 48 then Some Decimal.D0 else if n =? 49 then Some Decimal.D1
  else if n =? 50 then Some Decimal.D2 else if n =? 51 then Some Decimal.D3
  else if n =? 52 then Some Decimal.D4 else if n =? 53 then Some Decimal.D5
  else if n =? 54 then Some Decimal.D6 else if n =? 55 then Some Decimal.D7
  else if n =? 56 then Some Decimal.D8 else if n =? 57 then Some Decimal.D9
  else None.

(** The longest run of digits at the head of the text. *)
Fixpoint scan_digits (s : string) : Decimal.uint * string :=
  match s with
  | EmptyString => (Decimal.Nil, EmptyString)
  | String c s' =>
      match digit_of c with
      | Some d => let (ds, rest) := scan_digits s' in (d ds, rest)
      | None => (Decimal.Nil, s)
      end
  end.

(** The integer part of a number: [0], or a digit from 1 to 9 and the
    digits after it. *)
Definition scan_natural (s : string) : option (Decimal.uint * string) :=
  match s with
  | String c s' =>
      if code c =? 48 then Some (Decimal.D0 Decimal.Nil, s')
      else if is_digit c then Some (scan_digits s)
      else None
  | EmptyString => None
  end.

Definition starts_with_digit (s : string) : bool :=
  match s with
  | String c _ => is_digit c
  | EmptyString => false
  end.

(** Whether a fraction ([.] and a digit) or an exponent ([e] or [E], an
    optional sign, a digit) follows the integer part, which makes the
    number a float. *)
Definition float_follows (s : string) : bool :=
  match s with
  | String c s' =>
      if code c =? 46 then starts_with_digit s'
      else if (code c =? 101) || (code c =? 69) then
        match s' with
        | String x s'' =>
            if (code x =? 43) || (code x =? 45) then starts_with_digit s''
            else is_digit x
        | EmptyString => false
        end
      else false
  | EmptyString => false
  end.

Definition scan_number (s : string) : option (pyval * string) :=
  let (negative, s1) :=
    match s with
    | String c s' => if code c =? 45 then (true, s') else (false, s)
    | EmptyString => (false, s)
    end in
  match scan_natural s1 with
  | Some (d, rest) =>
      if float_follows rest then None
      else Some (PyInt (if negative then - Z.of_uint d else Z.of_uint d), rest)
  | None => None
  end.

(** [s] starts with the word [w]: what follows it. *)
Fixpoint after_word (w s : string) : option string :=
  match w, s with
  | EmptyString, _ => Some s
  | String a w', String b s' => if Ascii.eqb a b then after_word w' s' else None
  | String _ _, EmptyString => None
  end.

(** [dict(pairs)]: a key met again replaces the value and keeps the place
    of its first occurrence. *)
Definition dict_of_pairs (pairs : list (string * pyval)) : list (string * pyval) :=
  fold_left (fun d kv => dict_set (fst kv) (snd kv) d) pairs [].

Section containers.
(** The scanner of one value, for the elements. *)
Variable scan : string -> option (pyval * string).

(** The elements of a non-empty array, from the first one. *)
Fixpoint array_items (fuel : nat) (s : string) : option (list pyval * string) :=
  match fuel with
  | O => None
  | S fuel' =>
      match scan s with
      | None => None
      | Some (v, s1) =>
          match skip_ws s1 with
          | String c s2 =>
              if code c =? 93 then Some ([v], s2)
              else if code c =? 44 then
                match array_items fuel' (skip_ws s2) with
                | Some (vs, rest) => Some (v :: vs, rest)
                | None => None
                end
              else None
          | EmptyString => None
          end
      end
  end.

(** From the character after the opening bracket. *)
Definition parse_array (fuel : nat) (s : string) : option (pyval * string) :=
  match skip_ws s with
  | String c s1 =>
      if code c =? 93 then Some (PyList [], s1)
      else
        match array_items fuel (skip_ws s) with
        | Some (vs, rest) => Some (PyList vs, rest)
        | None => None
        end
  | EmptyString => None
  end.

(** The members of a non-empty object, from the quote of the first key. *)
Fixpoint object_members (fuel : nat) (s : string)
  : option (list (string * pyval) * string) :=
  match fuel with
  | O => None
  | S fuel' =>
      match s with
      | String q s0 =>
          if code q =? 34 then
            match scanstring s0 with
            | None => None
            | Some (key, s1) =>
                match skip_ws s1 with
                | String c s2 =>
                    if code c =? 58 then
                      match scan (skip_ws s2) with
                      | None => None
                      | Some (v, s3) =>
                          match skip_ws s3 with
                          | String e s4 =>
                              if code e =? 125 then Some ([(key, v)], s4)
                              else if code e =? 44 then
                                match object_members fuel' (skip_ws s4) with
                                | Some (kvs, rest) => Some ((key, v) :: kvs, rest)
                                | None => None
                                end
                              else None
                          | EmptyString => None
                          end
                      end
                    else None
                | EmptyString => None
                end
            end
          else None
      | EmptyString => None
      end
  end.

(** From the character after the opening brace. *)
Definition parse_object (fuel : nat) (s : string) : option (pyval * string) :=
  match skip_ws s with
  | String c s1 =>
      if code c =? 125 then Some (PyDict [], s1)
      else
        match object_members fuel (skip_ws s) with
        | Some (kvs, rest) => Some (PyDict (dict_of_pairs kvs), rest)
        | None => None
        end
  | EmptyString => None
  end.
End containers.

(** The scanner of one value at the head of the text.  [fuel] bounds the
    nesting and the number of elements; a text never needs more than its
    length. *)
Fixpoint scan_once (fuel : nat) (s : string) : option (pyval * string) :=
  match fuel with
  | O => None
  | S fuel' =>
      match s with
      | EmptyString => None
      | String c s' =>
          let n := code c in
          if n =? 34 then
            match scanstring s' with
            | Some (t, rest) => Some (PyStr t, rest)
            | None => None
            end
          else if n =? 123 then parse_object (scan_once fuel') fuel' s'
          else if n =? 91 then parse_array (scan_once fuel') fuel' s'
          else if n =? 110 then
            match after_word "ull" s' with
            | Some rest => Some (PyNone, rest)
            | None => None
            end
          else if n =? 116 then
            match after_word "rue" s' with
            | Some rest => Some (PyBool true, rest)
            | None => None
            end
          else if n =? 102 then
            match after_word "alse" s' with
            | Some rest => Some (PyBool false, rest)
            | None => None
            end
          else scan_number s
      end
  end.

(** [json.loads(s)]: one value, with white space allowed around it and
    nothing else after it. *)
Definition loads (s : string) : result pyval :=
  match scan_once (S (String.length s)) (skip_ws s) with
  | Some (v, rest) =>
      match skip_ws rest with
      | EmptyString => Ret v
      | _ => Raise JSONDecodeError
      end
  | None => Raise JSONDecodeError
  end.

(** *** Shapes of encoded text

    The vocabulary of the statements that decoding inverts encoding. *)

(** The text starts with a character that is not white space. *)
Definition solid (s : string) : bool :=
  match s with
  | String c _ => negb (is_ws c)
  | EmptyString => false
  end.

(** What may follow a value in an encoded document: nothing, a comma, or a
    line break. *)
Definition separator_follows (rest : string) : bool :=
  match rest with
  | EmptyString => true
  | String c _ => (code c =? 44) || (code c =? 10)
  end.

(** A digit or a minus sign: the characters a number starts with. *)
Definition number_start (s : string) : bool :=
  match s with
  | String c _ => is_digit c || (code c =? 45)
  | EmptyString => false
  end.

(** The text starts a value: its first character is neither white space
    nor a closing bracket. *)
Definition opens_value (s : string) : bool :=
  match s with
  | String c _ => negb (is_ws c) && negb (code c =? 93)
  | EmptyString => false
  end.

(** The scanner [scan] reads back what the encoder [enc] wrote for [y]. *)
Definition reads_back (scan : string -> option (pyval * string))
    (enc : pyval -> string) (y : pyval) : Prop :=
  forall rest, separator_follows rest = true ->
               scan (enc y +:+ rest) = Some (y, rest).

(** What the encoder [enc] wrote for [y] starts a value. *)
Definition opens (enc : pyval -> string) (y : pyval) : Prop :=
  forall rest, opens_value (enc y +:+ rest) = true.

End Json.

(** ** Base64

    The transport encoding of the update request ([base64.b64encode]) and
    the decoding the store applies to it. *)

Module Base64.
Import Text.

Definition sextet_char (n : Z) : ascii :=
  if n <? 26 then ascii_of_N (Z.to_N (65 + n))
  else if n <? 52 then ascii_of_N (Z.to_N (71 + n))
  else if n <? 62 then ascii_of_N (Z.to_N (n - 4))
  else if n =? 62 then "+"%char
  else "/"%char.

Definition char_sextet (c : ascii) : option Z :=
  let n := code c in
  if (65 <=? n) && (n <=? 90) then Some (n - 65)
  else if (97 <=? n) && (n <=? 122) then Some (n - 71)
  else if (48 <=? n) && (n <=? 57) then Some (n + 4)
  else if n =? 43 then Some 62
  else if n =? 47 then Some 63
  else None.

Definition pad : ascii := "="%char.

(** Three bytes make four characters; one or two bytes left at the end are
    padded with [=]. *)
Fixpoint b64encode (s : string) : string :=
  match s with
  | EmptyString => EmptyString
  | String a EmptyString =>
      let n := code a in
      String (sextet_char (n / 4))
        (String (sextet_char ((n mod 4) * 16)) (String pad (String pad EmptyString)))
  | String a (String b EmptyString) =>
      let n := 256 * code a + code b in
      String (sextet_char (n / 1024))
        (String (sextet_char ((n / 16) mod 64))
           (String (sextet_char ((n mod 16) * 4)) (String pad EmptyString)))
  | String a (String b (String c rest)) =>
      let n := 65536 * code a + 256 * code b + code c in
      String (sextet_char (n / 262144))
        (String (sextet_char ((n / 4096) mod 64))
           (String (sextet_char ((n / 64) mod 64))
              (String (sextet_char (n mod 64)) (b64encode rest))))
  end.

Definition byte (n : Z) : ascii := ascii_of_N (Z.to_N n).

Fixpoint b64decode (s : string) : option string :=
  match s with
  | EmptyString => Some EmptyString
  | String c1 (String c2 (String c3 (String c4 rest))) =>
      match char_sextet c1, char_sextet c2 with
      | Some x1, Some x2 =>
          match char_sextet c3, char_sextet c4 with
          | Some x3, Some x4 =>
              let n := 262144 * x1 + 4096 * x2 + 64 * x3 + x4 in
              match b64decode rest with
              | Some t =>
                  Some (String (byte (n / 65536))
                          (String (byte ((n / 256) mod 256))
                             (String (byte (n mod 256)) t)))
              | None => None
              end
          | Some x3, None =>
              if Ascii.eqb c4 pad && String.eqb rest EmptyString then
                let n := 1024 * x1 + 16 * x2 + x3 / 4 in
                Some (String (byte (n / 256)) (String (byte (n mod 256)) EmptyString))
              else None
          | None, _ =>
              if Ascii.eqb c3 pad && Ascii.eqb c4 pad && String.eqb rest EmptyString
              then Some (String (byte (4 * x1 + x2 / 16)) EmptyString)
              else None
          end
      | _, _ => None
      end
  | _ => None
  end.

End Base64.

(** ** UTF-8

    [s.encode("utf-8")].  The characters of a [string] are already the
    bytes of the encoding, so that a text that can be encoded is its own
    encoding.  A text that holds a surrogate (a character from U+D800 to
    U+DFFF, which [json.loads] makes of a lone [\ud800] escape) cannot:
    the call raises [UnicodeEncodeError], which is a [ValueError]. *)

Module Utf8.

(** A surrogate in the bytes of a text: the lead byte 237 followed by a
    byte from 160 on.  (Followed by a smaller byte, the lead byte 237
    starts a character from U+D000 to U+D7FF.) *)
Fixpoint has_surrogate (s : string) : bool :=
  match s with
  | String a s' =>
      match s' with
      | String b _ =>
          ((Text.code a =? 237) && (160 <=? Text.code b)) || has_surrogate s'
      | EmptyString => false
      end
  | EmptyString => false
  end.

Definition encode (s : string) : result string :=
  if has_surrogate s then Raise ValueError else Ret s.

End Utf8.

(** ** The collaborators of the bot *)

(** The request the gateway sends: a [GET] of the document, either of its
    raw content or of its metadata, and the [PUT] of a new content. *)
Inductive accept : Type :=
| RawContent      (* application/vnd.github.v3.raw *)
| JsonMetadata.   (* application/vnd.github.v3+json *)

Record commit_data : Type := CommitData {
  message : string;
  content : string;
  sha : pyval;
  branch : string
}.

Inductive request : Type :=
| GET (a : accept)
| PUT (body : commit_data).

Record response : Type := Response {
  status_code : Z;
  text : string
}.

(** What the bot runs against: a remote store with a state of its own that
    answers each request or fails, and the JSON codec. *)
Class Env : Type := {
  remote_state : Type;
  respond : remote_state -> request -> result response * remote_state;
  json_loads : string -> result pyval;
  json_dumps : pyval -> result string
}.

Definition DEFAULT_DATE : string := "2025-12-12".

(** The calls of the handlers into the text library: [s.strip()],
    [s.lower()], [s.isdigit()], [int(s)] and
    [datetime.strptime(s, "%Y-%m-%d")], on every text.  [None] stands for the
    [ValueError], the only exception that [int] and [strptime] raise on a
    string.  Two facts are taken from the library: what [strptime] returns is
    a day of the calendar, and it reads the default date. *)
Class Library : Type := {
  strip : string -> string;
  lower : string -> string;
  isdigit : string -> bool;
  int : string -> option Z;
  strptime : string -> option Calendar.date;
  strptime_day :
    forall (s : string) (d : Calendar.date),
      strptime s = Some d -> calendar_day d = true;
  strptime_default : strptime DEFAULT_DATE = Some (2025, 12, 12)
}.

(** The result of a call that raises [ValueError] on a text it cannot
    read. *)
Definition or_ValueError {A} (o : option A) : result A :=
  match o with
  | Some a => Ret a
  | None => Raise ValueError
  end.

(** The messages the bot sends to the operator, by kind, with the data they
    display.  The wording and the buttons are fixed by the kind. *)
Inductive reply : Type :=
| MenuHint                (* Please use the buttons or commands ... *)
| AskDeviceId             (* Please enter the Device ID *)
| AskDeviceIdCommand      (* Let's add a new user. Please enter the Device ID *)
| AskRemoveUsername       (* Please enter the Username to remove *)
| AskRemoveUsernameCommand
| AskUsername             (* Great! Now enter the Username *)
| AskPassword             (* Now enter the Password *)
| AskExpiration           (* Enter Expiration Date (YYYY-MM-DD) *)
| AskOffline              (* Allow Offline Access?  [offline_yes, offline_no, cancel] *)
| InvalidDate             (* Invalid date format. Please use YYYY-MM-DD. Try again *)
| NoUsersFound            (* No users found in database. *)
| UsernameNotFound (username : string)
| ChooseMatch (username : string) (matching_users : list pyval)
| FoundUser (user : pyval)          (* ... [confirm_remove, cancel] *)
| SelectedUser (user : pyval)       (* ... [confirm_remove, cancel] *)
| ConfirmRemoveAll (username : pyval)   (* ... [confirm_remove_all, cancel] *)
| InvalidChoice           (* Invalid choice. Please try again. *)
| InvalidInput            (* Invalid input. Please enter a number or 'all'. *)
| DuplicateWarning        (* ... already exists.  [add_anyway, cancel] *)
| AccountCreated (new_user : pyval) (total : Z)
| SaveFailed              (* Failed to save user to database. Possible reasons ... *)
| ErrorText (e : exn)     (* Error: ... *)
| UserRemoved             (* User successfully removed! *)
| RemoveFailed            (* Failed to remove user from database. *)
| AllRemoved (username : pyval)
| RemoveAllFailed         (* Failed to remove users from database. *)
| AccountCreatedAnyway (new_user : pyval)
| SaveFailedShort         (* Failed to save user to database. *)
| Cancelled               (* Operation cancelled. Use /start to see menu again. *)
| WelcomeMenu.

Section Bot.
Context {E : Env}.

(** *** Process state *)

(** [user_states] is the module-level table of conversations, from the
    operator's id to a dict of the fields collected so far.  [trace] records
    the requests sent, latest first, [outbox] the replies, in order.
    [clock] is the current time as [save_users] prints it. *)
Record world : Type := World {
  user_states : gmap Z (gmap string pyval);
  remote : remote_state;
  trace : list request;
  clock : string;
  outbox : list reply
}.

Definition M (A : Type) : Type := world -> result A * world.

Definition ret {A} (a : A) : M A := fun w => (Ret a, w).

Definition raise {A} (e : exn) : M A := fun w => (Raise e, w).

Definition bind {A B} (m : M A) (k : A -> M B) : M B :=
  fun w =>
    match m w with
    | (Ret a, w') => k a w'
    | (Raise e, w') => (Raise e, w')
    end.

Definition lift {A} (r : result A) : M A := fun w => (r, w).

(** [try: body except Exception as e: handler e].  What the body did to the
    state before it raised stays done. *)
Definition try_except {A} (body : M A) (handler : exn -> M A) : M A :=
  fun w =>
    match body w with
    | (Ret a, w') => (Ret a, w')
    | (Raise e, w') => handler e w'
    end.

(** [try: body except cls: handler], for one exception class. *)
Definition try_except_only {A} (cls : exn -> bool) (body : M A) (handler : M A)
  : M A :=
  try_except body (fun e => if cls e then handler else raise e).

End Bot.

Declare Scope bot_scope.
Delimit Scope bot_scope with bot.
Notation "x <- m ;; k" := (bind m (fun x => k))
  (at level 100, m at next level, right associativity) : bot_scope.
Notation "m ;;; k" := (bind m (fun _ => k))
  (at level 100, right associativity) : bot_scope.
Open Scope bot_scope.

Section Gateway.
Context {E : Env}.

(** [requests.get] and [requests.put] on the document's address. *)
Definition http (q : request) : M response :=
  fun w =>
    let (r, st) := respond (remote w) q in
    (r, World (user_states w) st (q :: trace w) (clock w) (outbox w)).

Definition is_JSONDecodeError (e : exn) : bool :=
  match e with JSONDecodeError => true | _ => false end.

Definition is_ValueError (e : exn) : bool :=
  match e with ValueError => true | _ => false end.

(** [load_users()].  The log lines are left out, except that the one of the
    [users] branch formats [len(users_list)], which raises on a value
    without a length. *)
Definition load_users : M pyval :=
  try_except
    (response <- http (GET RawContent) ;;
     if status_code response =? 200 then
       try_except_only is_JSONDecodeError
         (data <- lift (json_loads (text response)) ;;
          match data with
          | PyList _ => ret data
          | PyDict d =>
              if dict_has "users" d then
                users_list <- lift (py_get_default data "users" (PyList [])) ;;
                _ <- lift (py_len users_list) ;;
                ret users_list
              else ret (PyList [])
          | _ => ret (PyList [])
          end)
         (ret (PyList []))
     else if status_code response =? 404 then ret (PyList [])
     else ret (PyList []))
    (fun _ => ret (PyList [])).

(** [response.json()]: a decoding error surfaces as an error of the HTTP
    client. *)
Definition response_json (r : response) : result pyval :=
  match json_loads (text r) with
  | Ret v => Ret v
  | Raise JSONDecodeError => Raise RequestException
  | Raise e => Raise e
  end.

Definition commit_message (count : Z) (now : string) : string :=
  "Bot update: " +:+ Json.encode_int count +:+ " users - " +:+ now.

(** [save_users(users)].  [None] in the first step stands for the early
    [return False].  The log line after the metadata fetch formats
    [sha[:20]].  The JSON text is encoded in UTF-8 before it goes through
    base64; whatever is raised on the way is caught and gives [False]. *)
Definition save_users (users : pyval) : M bool :=
  try_except
    (get_response <- http (GET JsonMetadata) ;;
     found <-
       (if status_code get_response =? 200 then
          metadata <- lift (response_json get_response) ;;
          sha <- lift (py_get_default metadata "sha" (PyStr "")) ;;
          _ <- lift (py_sliceable sha) ;;
          ret (Some sha)
        else if status_code get_response =? 404 then ret None
        else ret None) ;;
     match found with
     | None => ret false
     | Some sha =>
         content <- lift (json_dumps users) ;;
         encoded <- lift (Utf8.encode content) ;;
         let encoded_content := Base64.b64encode encoded in
         count <- lift (py_len users) ;;
         let commit :=
           fun now => CommitData (commit_message count now) encoded_content sha "main" in
         put_response <- (fun w => http (PUT (commit (clock w))) w) ;;
         if (status_code put_response =? 200) || (status_code put_response =? 201)
         then ret true
         else ret false
     end)
    (fun _ => ret false).

End Gateway.

(** ** The conversation engine *)

Section Engine.
Context {E : Env} {L : Library}.

(** *** The table of conversations *)

Definition get_states : M (gmap Z (gmap string pyval)) :=
  fun w => (Ret (user_states w), w).

Definition with_states (w : world) (t : gmap Z (gmap string pyval)) : world :=
  World t (remote w) (trace w) (clock w) (outbox w).

Definition with_reply (w : world) (r : reply) : world :=
  World (user_states w) (remote w) (trace w) (clock w) (outbox w ++ [r]).

Definition set_states (t : gmap Z (gmap string pyval)) : M unit :=
  fun w => (Ret tt, with_states w t).

(** [user_states[user_id] = entry] *)
Definition set_entry (user_id : Z) (entry : gmap string pyval) : M unit :=
  t <- get_states ;; set_states (<[user_id := entry]> t).

(** [user_states.pop(user_id, None)] *)
Definition pop_entry (user_id : Z) : M unit :=
  t <- get_states ;; set_states (delete user_id t).

(** [entry[key]] *)
Definition item (entry : gmap string pyval) (key : string) : result pyval :=
  match entry !! key with
  | Some v => Ret v
  | None => Raise KeyError
  end.

(** [entry.get(key)] *)
Definition entry_get (entry : gmap string pyval) (key : string) : pyval :=
  match entry !! key with
  | Some v => v
  | None => PyNone
  end.

(** [user_states[user_id][key] = v] *)
Definition set_item (user_id : Z) (key : string) (v : pyval) : M unit :=
  t <- get_states ;;
  match t !! user_id with
  | Some entry => set_states (<[user_id := <[key := v]> entry]> t)
  | None => raise KeyError
  end.

(** [user_states[user_id][key]] *)
Definition get_item (user_id : Z) (key : string) : M pyval :=
  t <- get_states ;;
  match t !! user_id with
  | Some entry => lift (item entry key)
  | None => raise KeyError
  end.

(** The chat transport is taken to deliver: sending a reply does not fail.
    The acknowledgement of a button press ([query.answer()]) carries
    nothing and is not recorded. *)
Definition send (r : reply) : M unit :=
  fun w => (Ret tt, with_reply w r).

Definition state_is (v : pyval) (label : string) : bool := py_eq v (PyStr label).

(** *** Starting and cancelling *)

(** The payloads on which [button_handler] acts on the table of
    conversations.  On its other payloads it calls a view
    ([list_users_command], [help_command], [debug_command]) that neither
    reads nor writes an entry of the table; the views are modelled on their
    own, below. *)
Inductive menu_button : Type :=
| add_user
| remove_user
| cancel.

Definition button_handler (data : menu_button) (user_id : Z) : M unit :=
  match data with
  | add_user =>
      set_entry user_id {["state" := PyStr "awaiting_device_id"]} ;;;
      send AskDeviceId
  | remove_user =>
      set_entry user_id {["state" := PyStr "awaiting_remove_username"]} ;;;
      send AskRemoveUsername
  | cancel =>
      t <- get_states ;;
      (match t !! user_id with
       | Some _ => pop_entry user_id
       | None => ret tt
       end) ;;;
      send Cancelled
  end.

Definition add_user_command (user_id : Z) : M unit :=
  set_entry user_id {["state" := PyStr "awaiting_device_id"]} ;;;
  send AskDeviceIdCommand.

Definition remove_user_command (user_id : Z) : M unit :=
  set_entry user_id {["state" := PyStr "awaiting_remove_username"]} ;;;
  send AskRemoveUsernameCommand.

(** *** Free text *)

(** [[user for user in users if user.get("username") == username]] and
    its negation: the test runs on every element, in order. *)
Fixpoint select (test : pyval -> result bool) (l : list pyval)
  : result (list pyval) :=
  match l with
  | [] => Ret []
  | user :: l' =>
      rbind (test user) (fun keep =>
      rbind (select test l') (fun rest =>
      Ret (if keep then user :: rest else rest)))
  end.

Definition username_is (username : pyval) (user : pyval) : result bool :=
  rbind (py_get user "username") (fun u => Ret (py_eq u username)).

Definition username_is_not (username : pyval) (user : pyval) : result bool :=
  rbind (py_get user "username") (fun u => Ret (negb (py_eq u username))).

(** [v[idx]] for an index already checked to be in range. *)
Definition py_index (v : pyval) (idx : Z) : result pyval :=
  match v with
  | PyList l =>
      match nth_error l (Z.to_nat idx) with
      | Some x => Ret x
      | None => Raise OtherException
      end
  | PyStr s =>
      match String.get (Z.to_nat idx) s with
      | Some c => Ret (PyStr (String c EmptyString))
      | None => Raise OtherException
      end
  | PyDict _ => Raise KeyError
  | _ => Raise TypeError
  end.

Definition handle_message (user_id : Z) (update_text : string) : M unit :=
  let message_text := strip update_text in
  t <- get_states ;;
  match t !! user_id with
  | None => send MenuHint
  | Some entry =>
      state <- lift (item entry "state") ;;
      if state_is state "awaiting_device_id" then
        set_item user_id "device_id" (PyStr message_text) ;;;
        set_item user_id "state" (PyStr "awaiting_username") ;;;
        send AskUsername
      else if state_is state "awaiting_username" then
        set_item user_id "username" (PyStr message_text) ;;;
        set_item user_id "state" (PyStr "awaiting_password") ;;;
        send AskPassword
      else if state_is state "awaiting_password" then
        set_item user_id "password" (PyStr message_text) ;;;
        set_item user_id "state" (PyStr "awaiting_expiration") ;;;
        send AskExpiration
      else if state_is state "awaiting_expiration" then
        let expiresAt :=
          if String.eqb message_text "" then DEFAULT_DATE else message_text in
        try_except_only is_ValueError
          (_ <- lift (or_ValueError (strptime expiresAt)) ;;
           set_item user_id "expiresAt" (PyStr expiresAt) ;;;
           set_item user_id "state" (PyStr "awaiting_offline") ;;;
           send AskOffline)
          (send InvalidDate)
      else if state_is state "awaiting_remove_username" then
        let username := message_text in
        users <- load_users ;;
        if negb (py_truthy users) then
          send NoUsersFound ;;;
          pop_entry user_id
        else
          all_users <- lift (py_iter users) ;;
          matching_users <- lift (select (username_is (PyStr username)) all_users) ;;
          match matching_users with
          | [] =>
              send (UsernameNotFound username) ;;;
              pop_entry user_id
          | user :: others =>
              if 1 <? Z.of_nat (length matching_users) then
                set_item user_id "remove_username" (PyStr username) ;;;
                set_item user_id "matching_users" (PyList matching_users) ;;;
                set_item user_id "state" (PyStr "awaiting_remove_choice") ;;;
                send (ChooseMatch username matching_users)
              else
                set_item user_id "remove_user" user ;;;
                set_item user_id "state" (PyStr "confirm_remove_single") ;;;
                send (FoundUser user)
          end
      else if state_is state "awaiting_remove_choice" then
        let choice := lower message_text in
        if String.eqb choice "all" then
          set_item user_id "state" (PyStr "confirm_remove_all") ;;;
          username <- get_item user_id "remove_username" ;;
          send (ConfirmRemoveAll username)
        else if isdigit choice then
          number <- lift (or_ValueError (int choice)) ;;
          let idx := number - 1 in
          matching_users <- get_item user_id "matching_users" ;;
          count <- lift (py_len matching_users) ;;
          if (0 <=? idx) && (idx <? count) then
            user <- lift (py_index matching_users idx) ;;
            set_item user_id "remove_user" user ;;;
            set_item user_id "state" (PyStr "confirm_remove_single") ;;;
            _ <- lift (py_get_default user "id" (PyStr "N/A")) ;;
            send (SelectedUser user)
          else send InvalidChoice
        else send InvalidInput
      else ret tt
  end.

(** *** The offline choice and the commit of a new record *)

(** [any(user.get("username") == user_data['username'] and
         user.get("password") == user_data['password'] for user in users)] *)
Fixpoint any_duplicate (user_data : gmap string pyval) (l : list pyval)
  : result bool :=
  match l with
  | [] => Ret false
  | user :: l' =>
      rbind (py_get user "username") (fun u =>
      rbind (item user_data "username") (fun username =>
      rbind (if py_eq u username then
               rbind (py_get user "password") (fun p =>
               rbind (item user_data "password") (fun password =>
               Ret (py_eq p password)))
             else Ret false) (fun same =>
      if same then Ret true else any_duplicate user_data l')))
  end.

(** The record built from the collected fields. *)
Definition new_record (user_data : gmap string pyval) (allowOffline : pyval)
  : result pyval :=
  rbind (item user_data "device_id") (fun device_id =>
  rbind (item user_data "username") (fun username =>
  rbind (item user_data "password") (fun password =>
  rbind (item user_data "expiresAt") (fun expiresAt =>
  Ret (PyDict [("id", device_id); ("username", username);
               ("password", password); ("expiresAt", expiresAt);
               ("allowOffline", allowOffline)]))))).

(** The value of [allowOffline] the button stands for; the handler returns
    at once on any other payload. *)
Definition offline_choice (data : string) : option bool :=
  if String.eqb data "offline_yes" then Some true
  else if String.eqb data "offline_no" then Some false
  else None.

Definition handle_offline_callback (data : string) (user_id : Z) : M unit :=
  t <- get_states ;;
  match t !! user_id with
  | None => ret tt
  | Some user_data =>
      if negb (state_is (entry_get user_data "state") "awaiting_offline") then ret tt
      else
        match offline_choice data with
        | None => ret tt
        | Some allowOffline =>
            try_except
              (users <- load_users ;;
               all_users <- lift (py_iter users) ;;
               duplicate <- lift (any_duplicate user_data all_users) ;;
               if duplicate then
                 set_item user_id "allowOffline" (PyBool allowOffline) ;;;
                 set_item user_id "state" (PyStr "confirm_duplicate") ;;;
                 send DuplicateWarning
               else
                 new_user <- lift (new_record user_data (PyBool allowOffline)) ;;
                 users <- lift (py_append users new_user) ;;
                 saved <- save_users users ;;
                 if saved then
                   total <- lift (py_len users) ;;
                   send (AccountCreated new_user total) ;;;
                   pop_entry user_id
                 else
                   send SaveFailed ;;;
                   pop_entry user_id)
              (fun e =>
                 send (ErrorText e) ;;;
                 pop_entry user_id)
        end
  end.

(** *** The confirmations *)

(** [user_id in user_states and user_states[user_id].get('state') == label] *)
Definition in_state (t : gmap Z (gmap string pyval)) (user_id : Z)
    (label : string) : bool :=
  match t !! user_id with
  | Some entry => state_is (entry_get entry "state") label
  | None => false
  end.

(** In the [add_anyway] branch [users.append] is looked up before the
    record is built, so a value without [append] fails first. *)
Definition handle_confirm_callback (data : string) (user_id : Z) : M unit :=
  t <- get_states ;;
  if String.eqb data "confirm_remove" then
    if in_state t user_id "confirm_remove_single" then
      user_to_remove <- get_item user_id "remove_user" ;;
      users <- load_users ;;
      all_users <- lift (py_iter users) ;;
      let users :=
        PyList (List.filter (fun user => negb (py_eq user user_to_remove)) all_users) in
      saved <- save_users users ;;
      send (if saved then UserRemoved else RemoveFailed) ;;;
      pop_entry user_id
    else ret tt
  else if String.eqb data "confirm_remove_all" then
    if in_state t user_id "confirm_remove_all" then
      username <- get_item user_id "remove_username" ;;
      users <- load_users ;;
      all_users <- lift (py_iter users) ;;
      kept <- lift (select (username_is_not username) all_users) ;;
      saved <- save_users (PyList kept) ;;
      send (if saved then AllRemoved username else RemoveAllFailed) ;;;
      pop_entry user_id
    else ret tt
  else if String.eqb data "add_anyway" then
    if in_state t user_id "confirm_duplicate" then
      user_data <- lift (match t !! user_id with
                         | Some entry => Ret entry
                         | None => Raise KeyError
                         end) ;;
      users <- load_users ;;
      _ <- lift (py_append users PyNone) ;;
      device_id <- lift (item user_data "device_id") ;;
      username <- lift (item user_data "username") ;;
      password <- lift (item user_data "password") ;;
      expiresAt <- lift (item user_data "expiresAt") ;;
      allowOffline <- lift (item user_data "allowOffline") ;;
      users <- lift (py_append users
                       (PyDict [("id", device_id); ("username", username);
                                ("password", password); ("expiresAt", expiresAt);
                                ("allowOffline", allowOffline)])) ;;
      saved <- save_users users ;;
      send (if saved
            then AccountCreatedAnyway
                   (PyDict [("id", device_id); ("username", username);
                            ("password", password); ("expiresAt", expiresAt);
                            ("allowOffline", allowOffline)])
            else SaveFailedShort) ;;;
      pop_entry user_id
    else ret tt
  else if String.eqb data "menu" then
    send WelcomeMenu ;;;
    t <- get_states ;;
    match t !! user_id with
    | Some _ => pop_entry user_id
    | None => ret tt
    end
  else ret tt.

End Engine.

(** ** A remote store

    A store that follows the remote document protocol of the specification
    (section 6): it holds at most one document; a [GET] returns its raw
    content or its metadata with the content-hash token; a [PUT] replaces
    the content when the token it carries is the one of the content held,
    and creates the document when there is none.  It never fails to
    answer.  [hash] is the function that gives the token of a content. *)

Module DocStore.
Section store.
Variable hash : string -> string.

Definition metadata (doc : string) : pyval :=
  PyDict [("type", PyStr "file"); ("sha", PyStr (hash doc))].

Definition respond_to (st : option string) (q : request)
  : result response * option string :=
  match q with
  | GET RawContent =>
      match st with
      | Some doc => (Ret (Response 200 doc), st)
      | None => (Ret (Response 404 "Not Found"), st)
      end
  | GET JsonMetadata =>
      match st with
      | Some doc => (Ret (Response 200 (Json.dumps (metadata doc))), st)
      | None => (Ret (Response 404 "Not Found"), st)
      end
  | PUT body =>
      match Base64.b64decode (content body) with
      | None => (Ret (Response 422 "Invalid request"), st)
      | Some new_doc =>
          match st with
          | None => (Ret (Response 201 "Created"), Some new_doc)
          | Some doc =>
              if py_eq (sha body) (PyStr (hash doc))
              then (Ret (Response 200 "OK"), Some new_doc)
              else (Ret (Response 409 "Conflict"), st)
          end
      end
  end.

(** The bot against this store, with the JSON codec of [Json]. *)
Definition env : Env := {|
  remote_state := option string;
  respond := respond_to;
  json_loads := Json.loads;
  json_dumps := fun v => Ret (Json.dumps v)
|}.

(** A process that has just started, facing the document [doc]. *)
Definition start (doc : option string) : @world env :=
  @World env ∅ doc [] "2025-01-01 00:00:00" [].

End store.
End DocStore.

(** ** Vocabulary of the statements *)

(** The value a record holds under [key], [None] when it has none. *)
Definition field (user : pyval) (key : string) : pyval :=
  match user with
  | PyDict d => match dict_lookup key d with Some x => x | None => PyNone end
  | _ => PyNone
  end.

(** The record's username is exactly [username]. *)
Definition has_username (username : pyval) (user : pyval) : bool :=
  py_eq (field user "username") username.

(** The record's username and password are exactly those given. *)
Definition same_credentials (username password : pyval) (user : pyval) : bool :=
  py_eq (field user "username") username
  && py_eq (field user "password") password.

(** The record made of the five collected fields. *)
Definition record_of (device_id username password expiresAt allowOffline : pyval)
  : pyval :=
  PyDict [("id", device_id); ("username", username); ("password", password);
          ("expiresAt", expiresAt); ("allowOffline", allowOffline)].

(** The state a confirmation button is meant for. *)
Definition expected_state (data : string) : option string :=
  if String.eqb data "offline_yes" then Some "awaiting_offline"
  else if String.eqb data "offline_no" then Some "awaiting_offline"
  else if String.eqb data "confirm_remove" then Some "confirm_remove_single"
  else if String.eqb data "confirm_remove_all" then Some "confirm_remove_all"
  else if String.eqb data "add_anyway" then Some "confirm_duplicate"
  else None.

(** ** Example data, for the instances of the statements *)

Module Example.

(** A token that is the content itself. *)
Definition hash (doc : string) : string := doc.

Definition env : Env := DocStore.env hash.

(** The library on ASCII text: the models of [Text] and [Datetime].  The
    test of [calendar_day] rejects nothing ([strptime_ymd] returns days of
    the calendar only); it is there for the fact that the library states. *)
Definition ascii_strptime (s : string) : option Calendar.date :=
  match Datetime.strptime_ymd s with
  | Ret d => if calendar_day d then Some d else None
  | Raise _ => None
  end.

Definition library : Library := {|
  strip := Text.strip;
  lower := Text.lower;
  isdigit := Text.isdigit;
  int := Text.int;
  strptime := ascii_strptime;
  strptime_day :=
    ltac:(intros s d; unfold ascii_strptime;
          destruct (Datetime.strptime_ymd s) as [d'|]; [|discriminate];
          destruct (calendar_day d') eqn:Hday; [|discriminate];
          intros [= <-]; exact Hday);
  strptime_default := eq_refl
|}.

(** The superscript two (U+00B2), in UTF-8: a character on which
    [str.isdigit] holds and that [int] cannot read. *)
Definition superscript_two : string := String "194" (String "178" EmptyString).

(** The same library, knowing of that text as well. *)
Definition library_with_superscript : Library := {|
  strip := Text.strip;
  lower := Text.lower;
  isdigit := fun s => Text.isdigit s || String.eqb s superscript_two;
  int := Text.int;
  strptime := ascii_strptime;
  strptime_day := @strptime_day library;
  strptime_default := eq_refl
|}.

Definition alice : pyval :=
  record_of (PyStr "dev1") (PyStr "alice") (PyStr "pw") (PyStr "2025-12-12")
    (PyBool true).

Definition alice_again : pyval :=
  record_of (PyStr "dev2") (PyStr "alice") (PyStr "other") (PyStr "2026-01-31")
    (PyBool false).

Definition bob : pyval :=
  record_of (PyStr "dev3") (PyStr "bob") (PyStr "secret") (PyStr "2025-12-12")
    (PyBool false).

(** The operator 7 alone in the table, with the given entry, facing the
    given document. *)
Definition world_with (doc : option string) (entry : gmap string pyval)
  : @world env :=
  @World env {[7 := entry]} doc [] "2025-01-01 00:00:00" [].

Definition entry_in (label : string) : gmap string pyval :=
  {["state" := PyStr label]}.

(** The fields of a record like [alice], all collected. *)
Definition collected : gmap string pyval :=
  <["expiresAt" := PyStr "2025-12-12"]>
    (<["password" := PyStr "pw"]>
       (<["username" := PyStr "alice"]>
          (<["device_id" := PyStr "dev9"]> (entry_in "awaiting_offline")))).

Definition store_of (users : list pyval) : option string :=
  Some (Json.dumps (PyList users)).

(** The operator has finished the collection and a record with the same
    username and password is stored. *)
Definition before_duplicate : @world env := world_with (store_of [alice]) collected.

(** The operator is asked which username to remove. *)
Definition before_removal (users : list pyval) : @world env :=
  world_with (store_of users) (entry_in "awaiting_remove_username").

(** The operator is asked for the expiry date. *)
Definition expiring : gmap string pyval :=
  <["password" := PyStr "pw"]> (entry_in "awaiting_expiration").

(** What the date [date] leaves of [expiring]. *)
Definition expiring_on (date : string) : gmap string pyval :=
  <["state" := PyStr "awaiting_offline"]>
    (<["expiresAt" := PyStr date]> expiring).

(** The operator is asked which of the two records of [alice] to remove. *)
Definition choosing : gmap string pyval :=
  <["matching_users" := PyList [alice; alice_again]]>
    (<["remove_username" := PyStr "alice"]> (entry_in "awaiting_remove_choice")).

(** The operator has chosen to remove every record of [alice] and is asked
    to confirm. *)
Definition removing_all : gmap string pyval :=
  <["remove_username" := PyStr "alice"]> (entry_in "confirm_remove_all").

End Example.

(** The computation [m] returns normally and removes the entry of
    [user_id], leaving the other entries as they were. *)
Definition ends_conversation {E : Env} (m : M unit) (user_id : Z) (w : world)
  : Prop :=
  fst (m w) = Ret tt
  /\ user_states (snd (m w)) = delete user_id (user_states w).

(** ** The helpers

    The functions of [bot.py] beside the gateway and the handlers: the
    random names and the days an account has left. *)

(** [get_days_left(expire_str)], with the date of the clock ([today]) as an
    argument.  [strptime] raises a [TypeError] on a value that is not a
    string and a [ValueError] on a string that is not a date; both are
    caught.  The difference of two dates counts the days between their
    ordinals. *)
Definition get_days_left {L : Library} (today : Calendar.date) (expire_str : pyval)
  : Z :=
  let attempt :=
    rbind (match expire_str with
           | PyStr s => or_ValueError (strptime s)
           | _ => Raise TypeError
           end) (fun expire_date =>
    Ret (Calendar.toordinal expire_date - Calendar.toordinal today)) in
  match attempt with
  | Ret days => days
  | Raise _ => -999
  end.

(** The constants of [string] and the call of [random] the helpers make. *)
Module Random.

Definition ascii_lowercase : string := "abcdefghijklmnopqrstuvwxyz".
Definition ascii_uppercase : string := "ABCDEFGHIJKLMNOPQRSTUVWXYZ".
Definition ascii_letters : string := ascii_lowercase +:+ ascii_uppercase.
Definition digits : string := "0123456789".

(** [random.choice(seq)] is [seq[randbelow(len(seq))]], and fails on an empty
    sequence.  The generator is the sequence of the numbers it draws: the
    call that takes the draw [r] picks the item at [r] reduced to the range
    of the indices. *)
Definition choice (seq : string) (r : nat) : result ascii :=
  match String.get (r mod String.length seq) seq with
  | Some c => Ret c
  | None => Raise OtherException
  end.

(** [''.join(random.choice(seq) for _ in range(n))], from the draw [k] on. *)
Fixpoint choices (seq : string) (draws : nat -> nat) (k n : nat) : result string :=
  match n with
  | O => Ret EmptyString
  | S n' =>
      rbind (choice seq (draws k)) (fun c =>
      rbind (choices seq draws (S k) n') (fun rest =>
      Ret (String c rest)))
  end.

End Random.

(** [generate_random_password(length)]; [range] is empty on a negative
    length. *)
Definition generate_random_password (draws : nat -> nat) (length : Z)
  : result string :=
  let length := if 4 <? length then 4 else length in
  let characters := Random.ascii_letters +:+ Random.digits in
  Random.choices characters draws 0 (Z.to_nat length).

(** [generate_random_username()] *)
Definition generate_random_username (draws : nat -> nat) : result string :=
  let prefix := "wolf_" in
  let max_suffix_length := 8 - Z.of_nat (String.length prefix) in
  if max_suffix_length <=? 0 then Ret (String.substring 0 8 prefix)
  else
    rbind (Random.choices (Random.ascii_lowercase +:+ Random.digits) draws 0
             (Z.to_nat max_suffix_length))
      (fun suffix => Ret (prefix +:+ suffix)).

(** ** The views

    The two commands that display the state of the store.  Each ends by
    sending one message; the model returns what that message displays. *)

(** What a handler is called on: a message (a command or a text), or the
    press of a button.  [update.message] is [None] on the press of a
    button. *)
Inductive update : Type :=
| Message
| CallbackQuery.

(** One entry of the list of users: the number, the mark ([true] for the
    check mark), the fields shown, the days left. *)
Record user_row : Type := UserRow {
  number : Z;
  active : bool;
  shown_id : pyval;
  shown_username : pyval;
  shown_password : pyval;
  shown_expires : pyval;
  days_left : Z;
  shown_offline : pyval
}.

Inductive users_view : Type :=
| NoUsersYet                                   (* No approved users yet. *)
| ApprovedUsers (total : Z) (rows : list user_row).

Inductive debug_view : Type :=
| DebugInfo (file_exists : bool) (file_status : Z) (user_count : Z)
    (test_save : bool) (active_conversations : Z)
| DebugError (e : exn).

Section Views.
Context {E : Env} {L : Library}.

(** [update.message.reply_text(text)], giving what is displayed. *)
Definition reply_text {A} (u : update) (view : A) : M A :=
  match u with
  | Message => ret view
  | CallbackQuery => raise AttributeError
  end.

(** The body of the loop of [list_users_command] for the user numbered
    [i]. *)
Definition user_row_of (today : Calendar.date) (i : Z) (user : pyval)
  : result user_row :=
  rbind (py_get_default user "expiresAt" (PyStr DEFAULT_DATE)) (fun expires =>
  let days_left := get_days_left today expires in
  let status := 0 <? days_left in
  rbind (py_get_default user "id" (PyStr "N/A")) (fun id =>
  rbind (py_get_default user "username" (PyStr "N/A")) (fun username =>
  rbind (py_get_default user "password" (PyStr "N/A")) (fun password =>
  rbind (py_get_default user "expiresAt" (PyStr DEFAULT_DATE)) (fun expiresAt =>
  rbind (py_get_default user "allowOffline" (PyBool false)) (fun allowOffline =>
  Ret (UserRow i status id username password expiresAt days_left allowOffline))))))).

(** [for i, user in enumerate(users, i): ...] *)
Fixpoint user_rows (today : Calendar.date) (i : Z) (users : list pyval)
  : result (list user_row) :=
  match users with
  | [] => Ret []
  | user :: rest =>
      rbind (user_row_of today i user) (fun row =>
      rbind (user_rows today (i + 1) rest) (fun rows =>
      Ret (row :: rows)))
  end.

(** [list_users_command], for the command and for the button: both send
    the same text.  [today] is the date of the clock, taken not to change
    while the list is built. *)
Definition list_users_command (today : Calendar.date) : M users_view :=
  users <- load_users ;;
  if negb (py_truthy users) then ret NoUsersYet
  else
    total <- lift (py_len users) ;;
    all_users <- lift (py_iter users) ;;
    rows <- lift (user_rows today 1 all_users) ;;
    ret (ApprovedUsers total rows).

(** The [try] block of [debug_command], which builds the text. *)
Definition debug_text : M debug_view :=
  try_except
    (response <- http (GET JsonMetadata) ;;
     let file_exists := status_code response =? 200 in
     let file_status := status_code response in
     users <- load_users ;;
     user_count <- lift (py_len users) ;;
     test_save <- (if py_truthy users then save_users users else ret false) ;;
     t <- get_states ;;
     ret (DebugInfo file_exists file_status user_count test_save
            (Z.of_nat (size t))))
    (fun e => ret (DebugError e)).

(** [debug_command], for the command ([/debug], called on a message) and
    for the button ([debug], to which [button_handler] passes its own
    update).  The reply is sent after the [try] block, through
    [update.message]. *)
Definition debug_command (u : update) : M debug_view :=
  text <- debug_text ;;
  reply_text u text.

End Views.

(** ** Vocabulary of the further statements *)

(** [a] is a later day than [b]. *)
Definition later (a b : Calendar.date) : bool :=
  let '(year, month, day) := a in
  let '(year', month', day') := b in
  (year' <? year)
  || ((year' =? year)
      && ((month' <? month) || ((month' =? month) && (day' <? day)))).

(** The day after [d]. *)
Definition next_day (d : Calendar.date) : Calendar.date :=
  let '(year, month, day) := d in
  if day <? Datetime.days_in_month year month then (year, month, day + 1)
  else if month <? 12 then (year, month + 1, 1)
  else (year + 1, 1, 1).

(** The value is a text that [strptime] reads as a day later than
    [today]. *)
Definition expires_after {L : Library} (today : Calendar.date) (v : pyval) : Prop :=
  exists (s : string) (d : Calendar.date),
    v = PyStr s /\ strptime s = Some d /\ later d today = true.

Definition is_lower_or_digit (c : ascii) : bool :=
  Text.is_digit c || ((97 <=? Text.code c) && (Text.code c <=? 122)).

Definition is_alphanumeric (c : ascii) : bool :=
  is_lower_or_digit c || ((65 <=? Text.code c) && (Text.code c <=? 90)).

(** Every character of [s] satisfies [p]. *)
Fixpoint every (p : ascii -> bool) (s : string) : bool :=
  match s with
  | EmptyString => true
  | String c s' => p c && every p s'
  end.

(** The value a record shows under [key]: its own, or [default] when it has
    none. *)
Definition shown (user : pyval) (key : string) (default : pyval) : pyval :=
  match user with
  | PyDict d => match dict_lookup key d with Some x => x | None => default end
  | _ => default
  end.

(** The states in which [handle_message] acts on a text. *)
Definition awaits_text (label : string) : bool :=
  existsb (String.eqb label)
    ["awaiting_device_id"; "awaiting_username"; "awaiting_password";
     "awaiting_expiration"; "awaiting_remove_username"; "awaiting_remove_choice"].

(** The text of a choice that is not [all], that [isdigit] accepts and that
    [int] cannot read (a superscript digit is one). *)
Definition unreadable_choice {L : Library} (update_text : string) : Prop :=
  let choice := lower (strip update_text) in
  choice <> "all" /\ isdigit choice = true /\ int choice = None.

(** The computation [m], run for the operator [user_id], leaves the entries
    of the other operators as they were. *)
Definition keeps_others {E : Env} {A} (user_id : Z) (m : M A) : Prop :=
  forall (w : world) (other : Z),
    other <> user_id ->
    user_states (snd (m w)) !! other = user_states w !! other.

(** The computation [m] sends no request. *)
Definition quiet {E : Env} {A} (m : M A) : Prop :=
  forall w : world,
    trace (snd (m w)) = trace w /\ remote (snd (m w)) = remote w.

(** The computation [m] sends at most the request of a load. *)
Definition reads_at_most {E : Env} {A} (m : M A) : Prop :=
  forall w : world,
    trace (snd (m w)) = trace w
    \/ trace (snd (m w)) = GET RawContent :: trace w.

(** The entry of an operator who has given the device id, the username and
    the password. *)
Definition collected_entry (device_id username password : string)
  : gmap string pyval :=
  <["password" := PyStr password]>
    (<["username" := PyStr username]>
       (<["device_id" := PyStr device_id]>
          {["state" := PyStr "awaiting_expiration"]})).

(** The fields that the handlers read in an entry in the state [label]. *)
Definition required_fields (label : string) : list string :=
  if String.eqb label "awaiting_username" then ["device_id"]
  else if String.eqb label "awaiting_password" then ["device_id"; "username"]
  else if String.eqb label "awaiting_expiration" then
    ["device_id"; "username"; "password"]
  else if String.eqb label "awaiting_offline" then
    ["device_id"; "username"; "password"; "expiresAt"]
  else if String.eqb label "confirm_duplicate" then
    ["device_id"; "username"; "password"; "expiresAt"; "allowOffline"]
  else if String.eqb label "awaiting_remove_choice" then
    ["remove_username"; "matching_users"]
  else if String.eqb label "confirm_remove_single" then ["remove_user"]
  else if String.eqb label "confirm_remove_all" then ["remove_username"]
  else [].

(** An entry is consistent when its state is a label, the fields read in
    that state are there, and the candidates of a removal are a list of
    records. *)
Definition entry_ok (entry : gmap string pyval) : Prop :=
  exists label : string,
    entry !! "state" = Some (PyStr label)
    /\ (forall key, In key (required_fields label) -> is_Some (entry !! key))
    /\ (label = "awaiting_remove_choice" ->
        exists candidates,
          entry !! "matching_users" = Some (PyList candidates)
          /\ forallb is_dict candidates = true).

Definition table_ok (t : gmap Z (gmap string pyval)) : Prop :=
  forall (user_id : Z) (entry : gmap string pyval),
    t !! user_id = Some entry -> entry_ok entry.

(** The handler [h], run in the world [w], keeps the table consistent,
    raises nothing but an [AttributeError], and raises nothing at all when
    the store holds a list of records. *)
Definition safe_step {E : Env} (h : M unit) (w : world) : Prop :=
  table_ok (user_states (snd (h w)))
  /\ (fst (h w) = Ret tt \/ fst (h w) = Raise AttributeError)
  /\ (forall users,
        fst (load_users w) = Ret (PyList users) ->
        forallb is_dict users = true ->
        fst (h w) = Ret tt).

(** * Properties *)

(** ** Equality of values *)

Lemma dict_lookup_distinct (d : list (string * pyval)) (k : string) (x : pyval) :
  distinct (map fst d) = true -> In (k, x) d -> dict_lookup k d = Some x.
Proof.
  induction d as [|[k' x'] d IH]; simpl; [tauto|].
  intros [Hfresh Hd]%andb_prop [Heq|Hin].
  - injection Heq as -> ->. now rewrite String.eqb_refl.
  - destruct (String.eqb k' k) eqn:Hk; [|now apply IH].
    apply String.eqb_eq in Hk. subst k'.
    apply negb_true_iff in Hfresh.
    assert (existsb (String.eqb k) (map fst d) = true); [|congruence].
    apply existsb_exists. exists k. split; [|apply String.eqb_refl].
    apply in_map_iff. now exists (k, x).
Qed.

(** A well-formed value is equal to itself. *)
Lemma py_eq_refl (v : pyval) : wf v = true -> py_eq v v = true.
Proof.
  induction v as [| b | n | s | l IH | d IH] using pyval_nested_ind;
    simpl; intros Hwf; try reflexivity.
  - now destruct b.
  - apply Z.eqb_refl.
  - apply String.eqb_refl.
  - induction l as [|x l IHl]; [reflexivity|].
    simpl in Hwf. apply andb_prop in Hwf as [Hx Hl].
    inversion IH as [|? ? Px Pl]; subst.
    rewrite (Px Hx). simpl. now apply IHl.
  - apply andb_prop in Hwf as [Hkeys Hvals].
    rewrite Nat.eqb_refl. simpl.
    assert (Hall : forall k x, In (k, x) d -> dict_lookup k d = Some x)
      by (intros; now apply dict_lookup_distinct).
    match goal with
    | |- ?values_equal d = true =>
        match type of Hvals with
        | ?values_wf d = true =>
            assert (Hgo : forall d',
                       (forall kv, In kv d' -> In kv d) ->
                       values_wf d' = true ->
                       Forall (fun kv => wf (snd kv) = true ->
                                         py_eq (snd kv) (snd kv) = true) d' ->
                       values_equal d' = true)
        end
    end.
    { induction d' as [|[k x] d' IHd]; [reflexivity|].
      intros Hsub Hwf' IH'. apply andb_prop in Hwf' as [Hx Hrest].
      inversion IH' as [|? ? Px Pl]; subst.
      rewrite (Hall k x) by (apply Hsub; now left).
      simpl in Px. rewrite (Px Hx). simpl.
      apply IHd; auto. intros kv Hkv. apply Hsub. now right. }
    apply Hgo; auto.
Qed.

(** ** The JSON codec: decoding inverts encoding *)

Module JsonFacts.
Import Text Json.

Lemma append_assoc (a b c : string) : (a +:+ b) +:+ c = a +:+ (b +:+ c).
Proof.
  induction a as [|x a IH]; [reflexivity|]. exact (f_equal (String x) IH).
Qed.

Lemma append_empty (a : string) : a +:+ "" = a.
Proof.
  induction a as [|x a IH]; [reflexivity|]. exact (f_equal (String x) IH).
Qed.

Lemma append_cons (c : ascii) (a b : string) :
  String c a +:+ b = String c (a +:+ b).
Proof. reflexivity. Qed.

Lemma append_nil (b : string) : "" +:+ b = b.
Proof. reflexivity. Qed.

(** Moves the characters known at the head of an appended text out of the
    append. *)
Ltac heads := rewrite ?append_cons, ?append_nil.

Lemma length_append (a b : string) :
  String.length (a +:+ b) = (String.length a + String.length b)%nat.
Proof.
  induction a as [|x a IH]; [reflexivity|]. exact (f_equal S IH).
Qed.

(** *** White space *)

Lemma skip_ws_indentation (level : nat) (s : string) :
  skip_ws (indentation level +:+ s) = skip_ws s.
Proof. induction level as [|level IH]; simpl; [reflexivity|exact IH]. Qed.

Lemma skip_ws_newline_indent (level : nat) (s : string) :
  skip_ws (newline_indent level +:+ s) = skip_ws s.
Proof. unfold newline_indent. simpl. apply skip_ws_indentation. Qed.

Lemma skip_ws_solid (s : string) : solid s = true -> skip_ws s = s.
Proof.
  destruct s as [|c s]; [discriminate|]. simpl.
  now intros ->%negb_true_iff.
Qed.

Lemma solid_append (a b : string) : solid a = true -> solid (a +:+ b) = true.
Proof. now destruct a. Qed.

(** *** String literals *)

Lemma scanstring_escape_char (c : ascii) (t : string) :
  scanstring (escape_char c +:+ t) = prepend (String c "") (scanstring t).
Proof.
  destruct c as [[] [] [] [] [] [] [] []]; reflexivity.
Qed.

Lemma scanstring_escape (s rest : string) :
  scanstring (escape s +:+ String dquote rest) = Some (s, rest).
Proof.
  induction s as [|c s IH]; [reflexivity|].
  simpl escape. rewrite append_assoc, scanstring_escape_char, IH. reflexivity.
Qed.

Lemma scanstring_basestring (s rest : string) :
  encode_basestring s +:+ rest = String dquote (escape s +:+ String dquote rest)
  /\ scanstring (escape s +:+ String dquote rest) = Some (s, rest).
Proof.
  split; [|apply scanstring_escape].
  unfold encode_basestring.
  change (String dquote (escape s +:+ String dquote "") +:+ rest)
    with (String dquote ((escape s +:+ String dquote "") +:+ rest)).
  now rewrite append_assoc.
Qed.

(** *** Numbers *)

Lemma separator_not_digit (rest : string) :
  separator_follows rest = true -> starts_with_digit rest = false.
Proof.
  destruct rest as [|c rest]; [reflexivity|]. simpl.
  destruct c as [[] [] [] [] [] [] [] []]; try reflexivity; discriminate.
Qed.

Lemma separator_not_float (rest : string) :
  separator_follows rest = true -> float_follows rest = false.
Proof.
  destruct rest as [|c rest]; [reflexivity|]. simpl.
  destruct c as [[] [] [] [] [] [] [] []]; try reflexivity; discriminate.
Qed.

Lemma digit_of_none (c : ascii) : is_digit c = false -> digit_of c = None.
Proof.
  destruct c as [[] [] [] [] [] [] [] []]; try reflexivity; discriminate.
Qed.

Lemma scan_digits_uint (d : Decimal.uint) (rest : string) :
  starts_with_digit rest = false ->
  scan_digits (NilEmpty.string_of_uint d +:+ rest) = (d, rest).
Proof.
  intros Hrest.
  induction d as [|d IH|d IH|d IH|d IH|d IH|d IH|d IH|d IH|d IH|d IH];
    simpl NilEmpty.string_of_uint; heads;
    try (simpl; now rewrite IH).
  destruct rest as [|c rest]; [reflexivity|].
  simpl in *. now rewrite (digit_of_none _ Hrest).
Qed.

(** The numeral of a positive number does not start with a zero. *)
Lemma to_uint_head (p : positive) :
  match Pos.to_uint p with
  | Decimal.Nil | Decimal.D0 _ => False
  | _ => True
  end.
Proof.
  assert (Hnorm : Pos.to_uint p = Decimal.unorm (Pos.to_uint p)).
  { rewrite <- DecimalPos.Unsigned.to_of, DecimalPos.Unsigned.of_to. reflexivity. }
  pose proof (DecimalPos.Unsigned.to_uint_nonzero p) as Hnz.
  pose proof (DecimalPos.Unsigned.to_uint_nonnil p) as Hnn.
  destruct (Pos.to_uint p) as [|u| | | | | | | | |]; try exact I; [congruence|].
  rewrite DecimalFacts.unorm_D0 in Hnorm.
  destruct (Decimal.uint_eq_dec u Decimal.Nil) as [->|Hu]; [now apply Hnz|].
  pose proof (DecimalFacts.nb_digits_unorm u Hu) as Hlen.
  rewrite <- Hnorm in Hlen. simpl in Hlen. lia.
Qed.

Lemma scan_natural_positive (p : positive) (rest : string) :
  starts_with_digit rest = false ->
  scan_natural (NilEmpty.string_of_uint (Pos.to_uint p) +:+ rest)
  = Some (Pos.to_uint p, rest).
Proof.
  intros Hrest. pose proof (to_uint_head p) as Hhead.
  pose proof (scan_digits_uint (Pos.to_uint p) rest Hrest) as Hscan.
  destruct (Pos.to_uint p) as [|u|u|u|u|u|u|u|u|u|u]; try contradiction;
    simpl NilEmpty.string_of_uint in *; rewrite ?append_cons in *;
    unfold scan_natural; simpl is_digit; simpl (code _ =? 48); cbv iota;
    now rewrite Hscan.
Qed.

Lemma of_uint_to_uint (p : positive) : Z.of_uint (Pos.to_uint p) = Zpos p.
Proof.
  unfold Z.of_uint. now rewrite DecimalPos.Unsigned.of_to.
Qed.

Lemma scan_number_int (n : Z) (rest : string) :
  separator_follows rest = true ->
  scan_number (encode_int n +:+ rest) = Some (PyInt n, rest).
Proof.
  intros Hsep.
  pose proof (separator_not_digit _ Hsep) as Hd.
  pose proof (separator_not_float _ Hsep) as Hf.
  unfold encode_int. destruct n as [|p|p]; simpl Z.to_int;
    simpl NilEmpty.string_of_int.
  - heads. unfold scan_number. simpl. now rewrite Hf.
  - pose proof (to_uint_head p) as Hhead.
    pose proof (scan_natural_positive p rest Hd) as Hscan.
    pose proof (of_uint_to_uint p) as Hval.
    unfold scan_number.
    destruct (Pos.to_uint p) as [|u|u|u|u|u|u|u|u|u|u]; try contradiction;
      simpl NilEmpty.string_of_uint in *; rewrite ?append_cons in *;
      simpl (code _ =? 45); cbv iota; rewrite Hscan, Hf, Hval; reflexivity.
  - heads. unfold scan_number. simpl (code _ =? 45). cbv iota.
    rewrite (scan_natural_positive p rest Hd), Hf, of_uint_to_uint. reflexivity.
Qed.

Lemma encode_int_start (n : Z) (rest : string) :
  number_start (encode_int n +:+ rest) = true.
Proof.
  unfold encode_int. destruct n as [|p|p]; try reflexivity.
  simpl Z.to_int. simpl NilEmpty.string_of_int.
  pose proof (to_uint_head p) as Hhead.
  destruct (Pos.to_uint p); try contradiction; reflexivity.
Qed.

Lemma scan_once_number (fuel : nat) (s : string) :
  number_start s = true -> scan_once (S fuel) s = scan_number s.
Proof.
  destruct s as [|c s]; [discriminate|].
  destruct c as [[] [] [] [] [] [] [] []]; try discriminate; reflexivity.
Qed.

Lemma number_start_solid (s : string) : number_start s = true -> solid s = true.
Proof.
  destruct s as [|c s]; [discriminate|].
  destruct c as [[] [] [] [] [] [] [] []]; try discriminate; reflexivity.
Qed.

(** *** Arrays and objects *)

Lemma opens_value_solid (s : string) : opens_value s = true -> solid s = true.
Proof. destruct s as [|c s]; [discriminate|]. simpl. now intros [? _]%andb_prop. Qed.

Lemma number_start_opens (s : string) :
  number_start s = true -> opens_value s = true.
Proof.
  destruct s as [|c s]; [discriminate|].
  destruct c as [[] [] [] [] [] [] [] []]; try discriminate; reflexivity.
Qed.

Lemma encode_opens (level : nat) (v : pyval) (rest : string) :
  opens_value (encode level v +:+ rest) = true.
Proof.
  destruct v as [|[]|n|s|[|x l]|[|kv d]]; try reflexivity.
  apply number_start_opens, encode_int_start.
Qed.

Lemma encode_member_opens (enc : pyval -> string) (kv : string * pyval)
    (rest : string) :
  solid (encode_member enc kv +:+ rest) = true.
Proof. reflexivity. Qed.

(** Decides the tests on the code of a known character. *)
Ltac eval_codes :=
  repeat match goal with
         | |- context [code ?c =? ?n] =>
             let r := eval vm_compute in (code c =? n) in
             match r with
             | true => change (code c =? n) with true
             | false => change (code c =? n) with false
             end
         end;
  cbv iota.

Lemma skip_ws_cons (c : ascii) (s : string) :
  skip_ws (String c s) = if is_ws c then skip_ws s else String c s.
Proof. reflexivity. Qed.

Ltac eval_ws :=
  repeat match goal with
         | |- context [is_ws ?c] =>
             let r := eval vm_compute in (is_ws c) in
             match r with
             | true => change (is_ws c) with true
             | false => change (is_ws c) with false
             end
         end;
  cbv iota.

(** Runs the scanner over the characters known at the head of the text. *)
Ltac chars := repeat (rewrite skip_ws_cons; eval_ws); eval_codes.

Section items.
Variable scan : string -> option (pyval * string).
Variable enc : pyval -> string.
Variable level : nat.

Lemma array_items_encode (l : list pyval) :
  forall (x : pyval) (rest : string) (fuel : nat),
    Forall (reads_back scan enc) (x :: l) ->
    Forall (opens enc) (x :: l) ->
    (length l < fuel)%nat ->
    array_items scan fuel
      (enc x +:+ encode_more enc (String "," (newline_indent (S level))) l
       +:+ newline_indent level +:+ String "]" rest)
    = Some (x :: l, rest).
Proof.
  induction l as [|y l IH]; intros x rest fuel Hread Hopen Hfuel;
    (destruct fuel as [|fuel]; [simpl in Hfuel; lia|]);
    inversion Hread as [|? ? Hx Hread']; subst;
    inversion Hopen as [|? ? Ox Hopen']; subst;
    simpl array_items; simpl encode_more.
  - rewrite append_nil. rewrite Hx by reflexivity.
    rewrite skip_ws_newline_indent. simpl skip_ws. eval_codes. reflexivity.
  - rewrite !append_assoc. rewrite append_cons. rewrite Hx by reflexivity.
    simpl skip_ws. eval_codes.
    rewrite skip_ws_newline_indent.
    inversion Hopen' as [|? ? Oy _]; subst.
    rewrite (skip_ws_solid _ (opens_value_solid _ (Oy _))).
    rewrite IH by (auto; simpl in Hfuel; lia). reflexivity.
Qed.

Lemma object_members_encode (d : list (string * pyval)) :
  forall (kv : string * pyval) (rest : string) (fuel : nat),
    Forall (fun kv => reads_back scan enc (snd kv)) (kv :: d) ->
    Forall (fun kv => opens enc (snd kv)) (kv :: d) ->
    (length d < fuel)%nat ->
    object_members scan fuel
      (encode_member enc kv
       +:+ encode_more_members enc (String "," (newline_indent (S level))) d
       +:+ newline_indent level +:+ String "}" rest)
    = Some (kv :: d, rest).
Proof.
  induction d as [|kv' d IH]; intros [k x] rest fuel Hread Hopen Hfuel;
    (destruct fuel as [|fuel]; [simpl in Hfuel; lia|]);
    inversion Hread as [|? ? Hx Hread']; subst;
    inversion Hopen as [|? ? Ox Hopen']; subst;
    simpl in Hx, Ox;
    simpl encode_more_members;
    unfold encode_member at 1; simpl fst; simpl snd;
    rewrite !append_assoc, ?append_nil;
    match goal with
    | |- context [encode_basestring k +:+ ?t] =>
        destruct (scanstring_basestring k t) as [Hshape Hkey];
        rewrite Hshape; simpl object_members; eval_codes; rewrite Hkey
    end;
    heads; chars;
    rewrite (skip_ws_solid _ (opens_value_solid _ (Ox _)));
    rewrite Hx by reflexivity.
  - rewrite skip_ws_newline_indent. chars. reflexivity.
  - chars. rewrite skip_ws_newline_indent.
    rewrite (skip_ws_solid _ (encode_member_opens _ _ _)).
    rewrite IH by (auto; simpl in Hfuel; lia). reflexivity.
Qed.

Lemma parse_array_encode (l : list pyval) (x : pyval) (rest : string)
    (fuel : nat) :
  Forall (reads_back scan enc) (x :: l) ->
  Forall (opens enc) (x :: l) ->
  (length l < fuel)%nat ->
  parse_array scan fuel
    (newline_indent (S level) +:+ enc x
     +:+ encode_more enc (String "," (newline_indent (S level))) l
     +:+ newline_indent level +:+ String "]" rest)
  = Some (PyList (x :: l), rest).
Proof.
  intros Hread Hopen Hfuel. unfold parse_array.
  rewrite skip_ws_newline_indent.
  inversion Hopen as [|? ? Ox _]; subst.
  rewrite (skip_ws_solid _ (opens_value_solid _ (Ox _))).
  rewrite (array_items_encode l x rest fuel Hread Hopen Hfuel).
  specialize (Ox (encode_more enc (String "," (newline_indent (S level))) l
                  +:+ newline_indent level +:+ String "]" rest)).
  destruct (enc x +:+ _) as [|c t]; [discriminate|].
  simpl in Ox. apply andb_prop in Ox as [_ Hc].
  apply negb_true_iff in Hc. now rewrite Hc.
Qed.

Lemma parse_object_encode (d : list (string * pyval)) (kv : string * pyval)
    (rest : string) (fuel : nat) :
  Forall (fun kv => reads_back scan enc (snd kv)) (kv :: d) ->
  Forall (fun kv => opens enc (snd kv)) (kv :: d) ->
  (length d < fuel)%nat ->
  parse_object scan fuel
    (newline_indent (S level) +:+ encode_member enc kv
     +:+ encode_more_members enc (String "," (newline_indent (S level))) d
     +:+ newline_indent level +:+ String "}" rest)
  = Some (PyDict (dict_of_pairs (kv :: d)), rest).
Proof.
  intros Hread Hopen Hfuel. unfold parse_object.
  rewrite skip_ws_newline_indent.
  rewrite (skip_ws_solid _ (encode_member_opens _ _ _)).
  rewrite (object_members_encode d kv rest fuel Hread Hopen Hfuel).
  reflexivity.
Qed.

(** The lengths of the pieces of an encoded array or object. *)
Lemma encode_more_length (sep : string) (l : list pyval) :
  (1 <= String.length sep)%nat ->
  (length l <= String.length (encode_more enc sep l))%nat
  /\ Forall (fun y => (String.length (enc y)
                       <= String.length (encode_more enc sep l))%nat) l.
Proof.
  intros Hsep. induction l as [|y l [IHn IHf]]; [split; [simpl; lia|constructor]|].
  simpl encode_more. rewrite !length_append. split; [simpl; lia|].
  constructor; [lia|]. eapply Forall_impl; [exact IHf|]. simpl. intros; lia.
Qed.

Lemma encode_more_members_length (sep : string) (d : list (string * pyval)) :
  (1 <= String.length sep)%nat ->
  (length d <= String.length (encode_more_members enc sep d))%nat
  /\ Forall (fun kv => (String.length (enc (snd kv))
                        <= String.length (encode_more_members enc sep d))%nat) d.
Proof.
  intros Hsep. induction d as [|kv d [IHn IHf]]; [split; [simpl; lia|constructor]|].
  simpl encode_more_members. unfold encode_member.
  rewrite !length_append. split; [simpl; lia|].
  constructor; [lia|]. eapply Forall_impl; [exact IHf|]. simpl. intros; lia.
Qed.

End items.

Lemma dict_set_fresh (key : string) (v : pyval) (d : list (string * pyval)) :
  existsb (String.eqb key) (map fst d) = false ->
  dict_set key v d = d ++ [(key, v)].
Proof.
  induction d as [|[k x] d IH]; [reflexivity|].
  simpl. intros [Hk Hd]%orb_false_elim.
  rewrite String.eqb_sym, Hk. now rewrite IH.
Qed.

(** A list of pairs with distinct keys is the dict it makes. *)
Lemma dict_of_pairs_distinct (d : list (string * pyval)) :
  distinct (map fst d) = true -> dict_of_pairs d = d.
Proof.
  unfold dict_of_pairs.
  assert (H : forall acc,
             distinct (map fst (acc ++ d)) = true ->
             fold_left (fun d kv => dict_set (fst kv) (snd kv) d) d acc = acc ++ d).
  { induction d as [|[k x] d IH]; intros acc Hacc; simpl.
    - now rewrite app_nil_r.
    - replace (acc ++ (k, x) :: d) with ((acc ++ [(k, x)]) ++ d) in *
        by now rewrite <- app_assoc.
      rewrite dict_set_fresh; [now apply IH|].
      clear IH. induction acc as [|[k' x'] acc IHacc]; [reflexivity|].
      simpl in Hacc. apply andb_prop in Hacc as [Hfresh Hrest].
      simpl. rewrite (IHacc Hrest), orb_false_r.
      apply negb_true_iff in Hfresh.
      rewrite !map_app, existsb_app in Hfresh.
      apply orb_false_elim in Hfresh as [Hfresh _].
      rewrite existsb_app in Hfresh.
      apply orb_false_elim in Hfresh as [_ Hfresh].
      simpl in Hfresh. rewrite orb_false_r in Hfresh.
      now rewrite String.eqb_sym. }
  apply (H []).
Qed.

Lemma encode_list_cons (level : nat) (x : pyval) (l : list pyval) :
  encode level (PyList (x :: l)) =
  "[" +:+ newline_indent (S level) +:+ encode (S level) x
  +:+ encode_more (encode (S level)) ("," +:+ newline_indent (S level)) l
  +:+ newline_indent level +:+ "]".
Proof. reflexivity. Qed.

Lemma encode_dict_cons (level : nat) (kv : string * pyval)
    (d : list (string * pyval)) :
  encode level (PyDict (kv :: d)) =
  "{" +:+ newline_indent (S level) +:+ encode_member (encode (S level)) kv
  +:+ encode_more_members (encode (S level)) ("," +:+ newline_indent (S level)) d
  +:+ newline_indent level +:+ "}".
Proof. reflexivity. Qed.

Lemma encode_nonempty (level : nat) (v : pyval) :
  (1 <= String.length (encode level v))%nat.
Proof.
  pose proof (encode_opens level v "") as H. rewrite append_empty in H.
  destruct (encode level v); [discriminate|simpl; lia].
Qed.

Lemma wf_dict_values (d : list (string * pyval)) :
  wf (PyDict d) = true ->
  distinct (map fst d) = true /\ Forall (fun kv => wf (snd kv) = true) d.
Proof.
  simpl. intros [Hk Hv]%andb_prop. split; [exact Hk|].
  induction d as [|[k x] d IH]; [constructor|].
  apply andb_prop in Hv as [Hx Hrest]. simpl in Hk.
  apply andb_prop in Hk as [_ Hk]. constructor; auto.
Qed.

(** The scanner reads back a well-formed value from its encoding, at any
    depth and before any text that starts like a separator, given fuel for
    the length of the encoding. *)
Lemma scan_once_encode (v : pyval) :
  wf v = true ->
  forall (level : nat) (rest : string) (fuel : nat),
    separator_follows rest = true ->
    (String.length (encode level v) <= fuel)%nat ->
    scan_once fuel (encode level v +:+ rest) = Some (v, rest).
Proof.
  induction v as [| b | n | s | l IH | d IH] using pyval_nested_ind;
    intros Hwf level rest fuel Hsep Hfuel;
    pose proof (encode_nonempty level) as Hne;
    (destruct fuel as [|fuel];
     [match type of Hfuel with (String.length (encode level ?v) <= 0)%nat =>
        specialize (Hne v); lia end|]).
  - reflexivity.
  - destruct b; reflexivity.
  - simpl encode. rewrite scan_once_number by apply encode_int_start.
    now apply scan_number_int.
  - simpl encode. destruct (scanstring_basestring s rest) as [Hshape Hkey].
    rewrite Hshape. simpl scan_once. eval_codes. now rewrite Hkey.
  - destruct l as [|x l]; [reflexivity|].
    rewrite encode_list_cons in *.
    change ("," +:+ newline_indent (S level))
      with (String "," (newline_indent (S level))) in *.
    rewrite !append_assoc. heads.
    simpl scan_once. eval_codes.
    rewrite !length_append in Hfuel. simpl String.length in Hfuel.
    destruct (encode_more_length (encode (S level))
                (String "," (newline_indent (S level))) l) as [Hn Hf];
      [simpl; lia|].
    simpl in Hwf. apply andb_prop in Hwf as [Hwx Hwl].
    rewrite forallb_forall in Hwl.
    inversion IH as [|? ? IHx IHl]; subst.
    apply parse_array_encode.
    + constructor.
      * intros r Hr. apply IHx; auto. lia.
      * rewrite List.Forall_forall in *. intros y Hy r Hr.
        apply IHl; auto. specialize (Hf y Hy). simpl in Hf. lia.
    + rewrite List.Forall_forall. intros y _ r. apply encode_opens.
    + lia.
  - destruct d as [|kv d]; [reflexivity|].
    rewrite encode_dict_cons in *.
    change ("," +:+ newline_indent (S level))
      with (String "," (newline_indent (S level))) in *.
    rewrite !append_assoc. heads.
    simpl scan_once. eval_codes.
    rewrite !length_append in Hfuel. simpl String.length in Hfuel.
    destruct (encode_more_members_length (encode (S level))
                (String "," (newline_indent (S level))) d) as [Hn Hf];
      [simpl; lia|].
    destruct (wf_dict_values _ Hwf) as [Hkeys Hvals].
    replace (PyDict (kv :: d)) with (PyDict (dict_of_pairs (kv :: d)))
      by now rewrite dict_of_pairs_distinct.
    inversion IH as [|? ? IHx IHl]; subst.
    inversion Hvals as [|? ? Hwx Hwl]; subst.
    unfold encode_member in Hfuel. rewrite !length_append in Hfuel.
    apply parse_object_encode.
    + constructor.
      * intros r Hr. apply IHx; auto. lia.
      * rewrite List.Forall_forall in *. intros y Hy r Hr.
        apply IHl; auto. specialize (Hf y Hy). simpl in Hf. lia.
    + rewrite List.Forall_forall. intros y _ r. apply encode_opens.
    + lia.
Qed.

(** Decoding inverts encoding on well-formed values. *)
Lemma loads_dumps (v : pyval) : wf v = true -> loads (dumps v) = Ret v.
Proof.
  intros Hwf. unfold loads, dumps.
  pose proof (encode_opens 0 v "") as Hopen. rewrite append_empty in Hopen.
  rewrite (skip_ws_solid _ (opens_value_solid _ Hopen)).
  pose proof (scan_once_encode v Hwf 0 "" (S (String.length (encode 0 v)))
                eq_refl) as Hscan.
  rewrite append_empty in Hscan. rewrite Hscan by lia. reflexivity.
Qed.

End JsonFacts.

(** ** Base64: decoding inverts encoding *)

Module Base64Facts.
Import Text Base64.

Lemma sextet_roundtrip (n : Z) :
  0 <= n < 64 -> char_sextet (sextet_char n) = Some n.
Proof.
  intros Hn. rewrite <- (Z2Nat.id n) by lia.
  assert (Hk : (Z.to_nat n < 64)%nat) by lia.
  generalize dependent (Z.to_nat n). clear. intros k Hk.
  do 64 (destruct k as [|k]; [reflexivity|]). lia.
Qed.

Lemma code_range (a : ascii) : 0 <= code a < 256.
Proof.
  unfold code. pose proof (N_ascii_bounded a). lia.
Qed.

Lemma byte_code (a : ascii) : byte (code a) = a.
Proof.
  unfold byte, code. rewrite N2Z.id. apply ascii_N_embedding.
Qed.

Lemma sextet_not_pad (n : Z) : 0 <= n < 64 -> sextet_char n <> pad.
Proof.
  intros Hn Heq. pose proof (sextet_roundtrip n Hn) as H.
  rewrite Heq in H. discriminate.
Qed.

(** A group of three bytes is read back from its four characters. *)
Lemma group_roundtrip (a b c : Z) :
  0 <= a < 256 -> 0 <= b < 256 -> 0 <= c < 256 ->
  let n := 65536 * a + 256 * b + c in
  let x1 := n / 262144 in
  let x2 := (n / 4096) mod 64 in
  let x3 := (n / 64) mod 64 in
  let x4 := n mod 64 in
  let m := 262144 * x1 + 4096 * x2 + 64 * x3 + x4 in
  (0 <= x1 < 64 /\ 0 <= x2 < 64 /\ 0 <= x3 < 64 /\ 0 <= x4 < 64)
  /\ m / 65536 = a /\ (m / 256) mod 256 = b /\ m mod 256 = c.
Proof.
  intros Ha Hb Hc. cbv zeta. Z.div_mod_to_equations. lia.
Qed.

Lemma pair_roundtrip (a b : Z) :
  0 <= a < 256 -> 0 <= b < 256 ->
  let n := 256 * a + b in
  let x1 := n / 1024 in
  let x2 := (n / 16) mod 64 in
  let x3 := (n mod 16) * 4 in
  let m := 1024 * x1 + 16 * x2 + x3 / 4 in
  (0 <= x1 < 64 /\ 0 <= x2 < 64 /\ 0 <= x3 < 64)
  /\ m / 256 = a /\ m mod 256 = b.
Proof.
  intros Ha Hb. cbv zeta. Z.div_mod_to_equations. lia.
Qed.

Lemma single_roundtrip (a : Z) :
  0 <= a < 256 ->
  let x1 := a / 4 in
  let x2 := (a mod 4) * 16 in
  (0 <= x1 < 64 /\ 0 <= x2 < 64) /\ 4 * x1 + x2 / 16 = a.
Proof.
  intros Ha. cbv zeta. Z.div_mod_to_equations. lia.
Qed.

Lemma b64decode_b64encode (s : string) : b64decode (b64encode s) = Some s.
Proof.
  assert (H : forall (n : nat) (s : string),
             (String.length s <= n)%nat -> b64decode (b64encode s) = Some s).
  { clear s. induction n as [|n IH]; intros s Hlen.
    - destruct s; [reflexivity|simpl in Hlen; lia].
    - destruct s as [|a [|b [|c rest]]].
      + reflexivity.
      + destruct (single_roundtrip (code a) (code_range a)) as ((H1 & H2) & Ha).
        simpl b64encode. simpl b64decode.
        rewrite !sextet_roundtrip by assumption.
        change (char_sextet pad) with (@None Z).
        cbv iota. now rewrite Ha, byte_code.
      + destruct (pair_roundtrip (code a) (code b) (code_range a) (code_range b))
          as ((H1 & H2 & H3) & Ha & Hb).
        simpl b64encode. simpl b64decode.
        rewrite !sextet_roundtrip by assumption.
        change (char_sextet pad) with (@None Z).
        cbv iota. now rewrite Ha, Hb, !byte_code.
      + destruct (group_roundtrip (code a) (code b) (code c)
                    (code_range a) (code_range b) (code_range c))
          as ((H1 & H2 & H3 & H4) & Ha & Hb & Hc).
        simpl b64encode. simpl b64decode.
        rewrite !sextet_roundtrip by assumption.
        rewrite IH by (simpl in Hlen; lia).
        now rewrite Ha, Hb, Hc, !byte_code. }
  now apply (H (String.length s)).
Qed.

End Base64Facts.

(** ** The gateway *)

Section Gateway_facts.
Context {E : Env}.

(** What [load_users] does, by the answer to its request. *)
Lemma load_users_unfold (w : world) :
  load_users w =
  let (answer, st) := respond (remote w) (GET RawContent) in
  let w' := World (user_states w) st (GET RawContent :: trace w) (clock w) (outbox w) in
  match answer with
  | Raise _ => (Ret (PyList []), w')
  | Ret r =>
      if status_code r =? 200 then
        match json_loads (text r) with
        | Raise _ => (Ret (PyList []), w')
        | Ret (PyList l) => (Ret (PyList l), w')
        | Ret (PyDict d) =>
            match dict_lookup "users" d with
            | Some (PyList l) => (Ret (PyList l), w')
            | Some (PyStr s) => (Ret (PyStr s), w')
            | Some (PyDict d') => (Ret (PyDict d'), w')
            | _ => (Ret (PyList []), w')
            end
        | Ret _ => (Ret (PyList []), w')
        end
      else (Ret (PyList []), w')
  end.
Proof.
  unfold load_users, try_except, try_except_only, bind, http, lift, ret, raise.
  destruct (respond (remote w) (GET RawContent)) as [[r|e] st]; [|reflexivity].
  destruct (status_code r =? 200); [|destruct (status_code r =? 404); reflexivity].
  destruct (json_loads (text r)) as [data|e]; [|destruct e; reflexivity].
  destruct data as [| | | |l|d]; try reflexivity.
  unfold dict_has. simpl.
  destruct (dict_lookup "users" d) as [[| | | | |]|]; reflexivity.
Qed.

(** [load_users] touches nothing but the remote store and the trace. *)
Lemma load_users_frame (w : world) :
  let w' := snd (load_users w) in
  user_states w' = user_states w /\ outbox w' = outbox w /\ clock w' = clock w
  /\ trace w' = GET RawContent :: trace w
  /\ remote w' = snd (respond (remote w) (GET RawContent)).
Proof.
  rewrite load_users_unfold.
  destruct (respond (remote w) (GET RawContent)) as [[r|e] st]; simpl; [|tauto].
  destruct (status_code r =? 200); [|simpl; tauto].
  destruct (json_loads (text r)) as [[| | | |l|d]|e]; simpl; try tauto.
  destruct (dict_lookup "users" d) as [[| | | | |]|]; simpl; tauto.
Qed.

(** [load_users] returns a value, whatever happens. *)
Lemma load_users_returns (w : world) : exists v, fst (load_users w) = Ret v.
Proof.
  rewrite load_users_unfold.
  destruct (respond (remote w) (GET RawContent)) as [[r|e] st]; simpl; [|eauto].
  destruct (status_code r =? 200); [|eauto].
  destruct (json_loads (text r)) as [[| | | |l|d]|e]; eauto.
  destruct (dict_lookup "users" d) as [[| | | | |]|]; eauto.
Qed.

(** C1: [load_users] always returns a value, never an exception, and the
    value is the empty collection whenever the request fails in transport,
    is answered with a status other than 200 (404 and every other non-2xx
    status included), or is answered with a text that [json.loads]
    rejects. *)
Theorem load_users_fail_soft (w : world) :
  (exists v, fst (load_users w) = Ret v)
  /\ (forall e,
        fst (respond (remote w) (GET RawContent)) = Raise e ->
        fst (load_users w) = Ret (PyList []))
  /\ (forall r,
        fst (respond (remote w) (GET RawContent)) = Ret r ->
        status_code r <> 200 ->
        fst (load_users w) = Ret (PyList []))
  /\ (forall r e,
        fst (respond (remote w) (GET RawContent)) = Ret r ->
        json_loads (text r) = Raise e ->
        fst (load_users w) = Ret (PyList [])).
Proof.
  split; [apply load_users_returns|].
  rewrite load_users_unfold.
  destruct (respond (remote w) (GET RawContent)) as [[r|e] st]; simpl.
  - repeat split.
    + discriminate.
    + intros r' [= <-] Hs. apply Z.eqb_neq in Hs. now rewrite Hs.
    + intros r' e [= <-] He. rewrite He. now destruct (status_code r =? 200).
  - repeat split; eauto; discriminate.
Qed.

(** C6, as amended: on a document fetched with status 200 and decoded to
    [data], [load_users] returns an array unchanged; for an object with a
    [users] field it returns the value of the field when that value has a
    length (an array, a string or an object) and the empty collection when
    it has none (null, a boolean, a number); an object without the field
    and every other value give the empty collection. *)
Theorem load_users_shape (w : world) (r : response) (data : pyval) :
  fst (respond (remote w) (GET RawContent)) = Ret r ->
  status_code r = 200 ->
  json_loads (text r) = Ret data ->
  (forall l, data = PyList l -> fst (load_users w) = Ret (PyList l))
  /\ (forall d v, data = PyDict d -> dict_lookup "users" d = Some v ->
        fst (load_users w) = Ret (if sized v then v else PyList []))
  /\ (forall d, data = PyDict d -> dict_lookup "users" d = None ->
        fst (load_users w) = Ret (PyList []))
  /\ (match data with PyList _ | PyDict _ => True | _ =>
        fst (load_users w) = Ret (PyList []) end).
Proof.
  intros Hr Hs Hd. rewrite load_users_unfold.
  destruct (respond (remote w) (GET RawContent)) as [a st].
  simpl in Hr. subst a. rewrite Hs, Hd. simpl.
  repeat split.
  - now intros l ->.
  - intros d v -> ->. now destruct v.
  - now intros d -> ->.
  - now destruct data.
Qed.

(** What [save_users] does, by the answers to its two requests. *)
Lemma save_users_unfold (users : pyval) (w : world) :
  save_users users w =
  let (answer, st) := respond (remote w) (GET JsonMetadata) in
  let w1 := World (user_states w) st (GET JsonMetadata :: trace w) (clock w) (outbox w) in
  match answer with
  | Raise _ => (Ret false, w1)
  | Ret r =>
      if status_code r =? 200 then
        match rbind (response_json r) (fun metadata =>
              rbind (py_get_default metadata "sha" (PyStr "")) (fun sha =>
              rbind (py_sliceable sha) (fun _ =>
              rbind (json_dumps users) (fun content =>
              rbind (Utf8.encode content) (fun encoded =>
              rbind (py_len users) (fun count =>
              Ret (CommitData (commit_message count (clock w))
                     (Base64.b64encode encoded) sha "main"))))))) with
        | Raise _ => (Ret false, w1)
        | Ret body =>
            let (put_answer, st') := respond st (PUT body) in
            let w2 := World (user_states w) st' (PUT body :: GET JsonMetadata :: trace w)
                        (clock w) (outbox w) in
            match put_answer with
            | Raise _ => (Ret false, w2)
            | Ret p =>
                (Ret ((status_code p =? 200) || (status_code p =? 201)), w2)
            end
        end
      else (Ret false, w1)
  end.
Proof.
  unfold save_users, try_except, bind, http, lift, ret.
  destruct (respond (remote w) (GET JsonMetadata)) as [[r|e] st]; [|reflexivity].
  destruct (status_code r =? 200); [|destruct (status_code r =? 404); reflexivity].
  destruct (response_json r) as [metadata|e]; [|reflexivity]. simpl.
  destruct (py_get_default metadata "sha" (PyStr "")) as [sha|e]; [|reflexivity]. simpl.
  destruct (py_sliceable sha) as [[]|e]; [|reflexivity]. simpl.
  destruct (json_dumps users) as [content|e]; [|reflexivity]. simpl.
  destruct (Utf8.encode content) as [encoded|e]; [|reflexivity]. simpl.
  destruct (py_len users) as [count|e]; [|reflexivity]. simpl.
  destruct (respond st (PUT _)) as [[p|e] st']; [|reflexivity].
  now destruct ((status_code p =? 200) || (status_code p =? 201)).
Qed.

(** A text that is encoded is its own encoding. *)
Lemma encode_returns (s t : string) : Utf8.encode s = Ret t -> t = s.
Proof.
  unfold Utf8.encode. destruct (Utf8.has_surrogate s); [discriminate|].
  now intros [= <-].
Qed.

Lemma encode_clean (s : string) :
  Utf8.has_surrogate s = false -> Utf8.encode s = Ret s.
Proof. unfold Utf8.encode. now intros ->. Qed.

(** [save_users] touches nothing but the remote store and the trace. *)
Lemma save_users_frame (users : pyval) (w : world) :
  let w' := snd (save_users users w) in
  user_states w' = user_states w /\ outbox w' = outbox w /\ clock w' = clock w.
Proof.
  rewrite save_users_unfold.
  destruct (respond (remote w) (GET JsonMetadata)) as [[r|e] st]; simpl; [|tauto].
  destruct (status_code r =? 200); [|simpl; tauto].
  destruct (rbind _ _) as [body|e]; simpl; [|tauto].
  destruct (respond st (PUT body)) as [[p|e] st']; simpl; tauto.
Qed.

(** [save_users] returns a boolean, whatever happens. *)
Lemma save_users_returns (users : pyval) (w : world) :
  exists b, fst (save_users users w) = Ret b.
Proof.
  rewrite save_users_unfold.
  destruct (respond (remote w) (GET JsonMetadata)) as [[r|e] st]; simpl; [|eauto].
  destruct (status_code r =? 200); [|eauto].
  destruct (rbind _ _) as [body|e]; simpl; [|eauto].
  destruct (respond st (PUT body)) as [[p|e] st']; simpl; eauto.
Qed.

(** C2: [save_users] always returns a boolean, never an exception.  It
    returns [False] when the metadata request fails in transport or is
    answered with a status other than 200 (404 included); when an update
    request is sent, it returns [True] exactly when that request is answered
    with status 200 or 201, and [False] when it is answered otherwise or
    fails in transport; and it returns [True] only after an update request
    was sent. *)
Theorem save_users_boolean (users : pyval) (w : world) :
  let metadata_answer := respond (remote w) (GET JsonMetadata) in
  let after := save_users users w in
  (exists b, fst after = Ret b)
  /\ (forall e, fst metadata_answer = Raise e -> fst after = Ret false)
  /\ (forall r, fst metadata_answer = Ret r -> status_code r <> 200 ->
        fst after = Ret false)
  /\ (forall body,
        trace (snd after) = PUT body :: GET JsonMetadata :: trace w ->
        fst after =
        Ret (match fst (respond (snd metadata_answer) (PUT body)) with
             | Ret p => (status_code p =? 200) || (status_code p =? 201)
             | Raise _ => false
             end))
  /\ (fst after = Ret true ->
        exists body, trace (snd after) = PUT body :: GET JsonMetadata :: trace w).
Proof.
  cbv zeta. rewrite save_users_unfold.
  assert (Hlen : forall (q : request) (t : list request) body,
             q :: t = PUT body :: q :: t -> False).
  { intros q t body H. apply (f_equal (@length _)) in H. simpl in H. lia. }
  destruct (respond (remote w) (GET JsonMetadata)) as [[r|e] st]; simpl.
  - destruct (status_code r =? 200) eqn:Hs.
    + apply Z.eqb_eq in Hs.
      destruct (rbind _ _) as [body|e]; simpl.
      * destruct (respond st (PUT body)) as [[p|e] st'] eqn:Hp; simpl.
        -- split; [eauto|]. split; [discriminate|].
           split; [intros r' [= <-] Hn; contradiction|].
           split; [intros body' [= <-]; now rewrite Hp|]. eauto.
        -- split; [eauto|]. split; [discriminate|].
           split; [intros r' [= <-] Hn; contradiction|].
           split; [intros body' [= <-]; now rewrite Hp|]. eauto.
      * split; [eauto|]. split; [discriminate|].
        split; [intros r' [= <-] Hn; contradiction|].
        split; [intros body H; now apply Hlen in H|]. discriminate.
    + split; [eauto|]. split; [discriminate|]. split; [reflexivity|].
      split; [intros body H; now apply Hlen in H|]. discriminate.
  - split; [eauto|]. split; [reflexivity|]. split; [discriminate|].
    split; [intros body H; now apply Hlen in H|]. discriminate.
Qed.

End Gateway_facts.

(** ** The conversation engine *)

Section Engine_facts.
Context {E : Env} {L : Library}.

Lemma state_is_str (s label : string) :
  state_is (PyStr s) label = String.eqb s label.
Proof. reflexivity. Qed.

(** Comparing with a string is exact: only that very string is equal. *)
Lemma py_eq_str (v : pyval) (s : string) :
  py_eq v (PyStr s) = true <-> v = PyStr s.
Proof.
  destruct v; simpl; try (split; [discriminate|intros [=]]).
  rewrite String.eqb_eq. split; [now intros ->|now intros [= ->]].
Qed.

Lemma state_is_true (v : pyval) (label : string) :
  state_is v label = true <-> v = PyStr label.
Proof. apply py_eq_str. Qed.

(** Decides the comparisons of a known state label with the labels the
    handlers test, and takes the branch. *)
Ltac eval_labels :=
  repeat match goal with
         | |- context [state_is (PyStr ?a) ?b] =>
             let r := eval vm_compute in (String.eqb a b) in
             change (state_is (PyStr a) b) with r
         end;
  cbv iota.

Lemma set_item_run (w : world) (user_id : Z) (entry : gmap string pyval)
    (key : string) (v : pyval) :
  user_states w !! user_id = Some entry ->
  set_item user_id key v w =
  (Ret tt, with_states w (<[user_id := <[key := v]> entry]> (user_states w))).
Proof.
  intros H. unfold set_item, bind, get_states, set_states. now rewrite H.
Qed.

Lemma with_states_states (w : world) t : user_states (with_states w t) = t.
Proof. reflexivity. Qed.

Lemma with_reply_states (w : world) r : user_states (with_reply w r) = user_states w.
Proof. reflexivity. Qed.

Lemma with_states_twice (w : world) t t' :
  with_states (with_states w t) t' = with_states w t'.
Proof. reflexivity. Qed.

Lemma with_states_same (w : world) : with_states w (user_states w) = w.
Proof. now destruct w. Qed.

(** A field written in the entry of [user_id], then the rest of the
    handler. *)
Lemma bind_set_item {A} (w : world) (user_id : Z) (entry : gmap string pyval)
    (key : string) (v : pyval) (rest : unit -> M A) :
  user_states w !! user_id = Some entry ->
  bind (set_item user_id key v) rest w =
  rest tt (with_states w (<[user_id := <[key := v]> entry]> (user_states w))).
Proof.
  intros H. unfold bind. now rewrite (set_item_run _ _ _ _ _ H).
Qed.

Lemma bind_run {A B} (m : M A) (k : A -> M B) (w w' : world) (a : A) :
  m w = (Ret a, w') -> bind m k w = k a w'.
Proof. intros H. unfold bind. now rewrite H. Qed.

Lemma bind_raise {A B} (m : M A) (k : A -> M B) (w w' : world) (e : exn) :
  m w = (Raise e, w') -> bind m k w = (Raise e, w').
Proof. intros H. unfold bind. now rewrite H. Qed.

Lemma bind_ext {A B} (m : M A) (k1 k2 : A -> M B) (w : world) :
  (forall a w', k1 a w' = k2 a w') -> bind m k1 w = bind m k2 w.
Proof. intros H. unfold bind. destruct (m w) as [[a|e] w']; auto. Qed.

(** A field read in the entry of [user_id], then the rest of the handler. *)
Lemma bind_get_item {A} (w : world) (user_id : Z) (entry : gmap string pyval)
    (key : string) (v : pyval) (rest : pyval -> M A) :
  user_states w !! user_id = Some entry ->
  entry !! key = Some v ->
  bind (get_item user_id key) rest w = rest v w.
Proof.
  intros Ht Hk. apply bind_run. unfold get_item, bind, get_states, lift, item.
  now rewrite Ht, Hk.
Qed.

(** The load, then the rest of the handler. *)
Lemma bind_load_users {A} (w : world) (v : pyval) (rest : pyval -> M A) :
  fst (load_users w) = Ret v ->
  bind load_users rest w = rest v (snd (load_users w)).
Proof.
  intros H. apply bind_run. rewrite <- H. now destruct (load_users w).
Qed.

(** Runs the pure steps of a handler. *)
Ltac mpure :=
  cbn [bind lift ret raise send set_states get_states rbind or_ValueError
       fst snd].

Ltac mstep := unfold try_except_only, try_except; mpure.

(** Runs the writes of fields that open the rest of a handler. *)
Ltac set_items :=
  repeat (erewrite bind_set_item
            by first [ eassumption
                     | rewrite with_states_states; apply lookup_insert_eq ]);
  rewrite ?with_states_twice, ?with_states_states, ?insert_insert_eq.

Lemma pop_entry_run (w : world) (user_id : Z) :
  pop_entry user_id w = (Ret tt, with_states w (delete user_id (user_states w))).
Proof. reflexivity. Qed.

(** Decides the comparisons of two string literals. *)
Ltac eval_strings :=
  repeat match goal with
         | |- context [String.eqb ?a ?b] =>
             let r := eval vm_compute in (String.eqb a b) in
             match r with
             | true => change (String.eqb a b) with true
             | false => change (String.eqb a b) with false
             end
         end;
  cbv iota.

Lemma in_state_true (t : gmap Z (gmap string pyval)) (user_id : Z)
    (entry : gmap string pyval) (label : string) :
  t !! user_id = Some entry ->
  entry !! "state" = Some (PyStr label) ->
  in_state t user_id label = true.
Proof.
  intros Ht Hs. unfold in_state, entry_get. rewrite Ht, Hs.
  apply String.eqb_refl.
Qed.

Lemma in_state_false (t : gmap Z (gmap string pyval)) (user_id : Z)
    (label : string) :
  (forall entry, t !! user_id = Some entry ->
                 entry !! "state" <> Some (PyStr label)) ->
  in_state t user_id label = false.
Proof.
  intros H. unfold in_state, entry_get.
  destruct (t !! user_id) as [entry|] eqn:Ht; [|reflexivity].
  specialize (H entry eq_refl).
  destruct (entry !! "state") as [v|] eqn:Hs; [|reflexivity].
  destruct (state_is v label) eqn:Hv; [|reflexivity].
  apply state_is_true in Hv. congruence.
Qed.

(** C10: a confirmation button pressed by an operator who has no
    conversation entry, or whose entry is not in the state the button is
    meant for, changes nothing: the handler returns with the world as it
    was, so the table is unchanged and no request was sent to the store. *)
Theorem stale_confirmation_is_noop (w : world) (user_id : Z)
    (data label : string) :
  expected_state data = Some label ->
  (forall entry, user_states w !! user_id = Some entry ->
                 entry !! "state" <> Some (PyStr label)) ->
  handle_offline_callback data user_id w = (Ret tt, w)
  /\ handle_confirm_callback data user_id w = (Ret tt, w).
Proof.
  intros Hdata Hstale. apply in_state_false in Hstale.
  unfold expected_state in Hdata.
  split.
  - unfold handle_offline_callback. mstep.
    destruct (user_states w !! user_id) as [entry|] eqn:Ht; [|reflexivity].
    unfold offline_choice.
    destruct (String.eqb data "offline_yes") eqn:H1;
      [|destruct (String.eqb data "offline_no") eqn:H2].
    + injection Hdata as <-. unfold in_state in Hstale. rewrite Ht in Hstale.
      now rewrite Hstale.
    + injection Hdata as <-. unfold in_state in Hstale. rewrite Ht in Hstale.
      now rewrite Hstale.
    + now destruct (negb _).
  - unfold handle_confirm_callback. mstep.
    destruct (String.eqb data "offline_yes") eqn:H1.
    { apply String.eqb_eq in H1. subst data. eval_strings. reflexivity. }
    destruct (String.eqb data "offline_no") eqn:H2.
    { apply String.eqb_eq in H2. subst data. eval_strings. reflexivity. }
    destruct (String.eqb data "confirm_remove") eqn:H3.
    { injection Hdata as <-. now rewrite Hstale. }
    destruct (String.eqb data "confirm_remove_all") eqn:H4.
    { injection Hdata as <-. now rewrite Hstale. }
    destruct (String.eqb data "add_anyway") eqn:H5; [|discriminate].
    injection Hdata as <-. now rewrite Hstale.
Qed.

(** The comprehensions and the duplicate test on a list of records. *)
Lemma select_username_is (username : pyval) (users : list pyval) :
  forallb is_dict users = true ->
  select (username_is username) users
  = Ret (List.filter (has_username username) users).
Proof.
  induction users as [|u users IH]; [reflexivity|].
  simpl. intros [Hu Hrest]%andb_prop. rewrite (IH Hrest).
  destruct u; try discriminate. reflexivity.
Qed.

Lemma select_username_is_not (username : pyval) (users : list pyval) :
  forallb is_dict users = true ->
  select (username_is_not username) users
  = Ret (List.filter (fun u => negb (has_username username u)) users).
Proof.
  induction users as [|u users IH]; [reflexivity|].
  simpl. intros [Hu Hrest]%andb_prop. rewrite (IH Hrest).
  destruct u; try discriminate. reflexivity.
Qed.

Lemma any_duplicate_run (user_data : gmap string pyval)
    (username password : pyval) (users : list pyval) :
  forallb is_dict users = true ->
  user_data !! "username" = Some username ->
  user_data !! "password" = Some password ->
  any_duplicate user_data users
  = Ret (existsb (same_credentials username password) users).
Proof.
  intros Hd Hu Hp. induction users as [|u users IH]; [reflexivity|].
  simpl in Hd. apply andb_prop in Hd as [Hdict Hrest].
  destruct u as [| | | | |d]; try discriminate.
  simpl. unfold item. rewrite Hu, Hp. simpl.
  unfold same_credentials, field.
  destruct (py_eq _ username); simpl; [|now apply IH].
  destruct (py_eq _ password); simpl; [reflexivity|now apply IH].
Qed.

(** The end of a commit: the save, the message that reports it, the
    removal of the entry.  It returns normally, and only the store, the
    trace and the outbox differ from what the save left. *)
Lemma commit_end (user_id : Z) (users : pyval) (done failed : reply) (w : world) :
  let after :=
    (saved <- save_users users ;;
     send (if saved then done else failed) ;;; pop_entry user_id) w in
  fst after = Ret tt
  /\ user_states (snd after) = delete user_id (user_states w)
  /\ remote (snd after) = remote (snd (save_users users w))
  /\ trace (snd after) = trace (snd (save_users users w)).
Proof.
  intros after.
  destruct (save_users_returns users w) as [b Hb].
  destruct (save_users_frame users w) as (Hs & _ & _).
  destruct (save_users users w) as [r w1] eqn:Hsave. simpl in *. subst r.
  assert (Hrun : after =
                 (Ret tt,
                  with_states (with_reply w1 (if b then done else failed))
                    (delete user_id (user_states w1)))).
  { unfold after, bind at 1. rewrite Hsave. reflexivity. }
  rewrite Hrun. simpl. rewrite Hs. tauto.
Qed.

(** The confirmation of a single removal: what is handed to the save is the
    collection just loaded without the elements equal to the selected one. *)
Lemma confirm_remove_run (w : world) (user_id : Z) (entry : gmap string pyval)
    (target : pyval) (users : list pyval) :
  user_states w !! user_id = Some entry ->
  entry !! "state" = Some (PyStr "confirm_remove_single") ->
  entry !! "remove_user" = Some target ->
  fst (load_users w) = Ret (PyList users) ->
  handle_confirm_callback "confirm_remove" user_id w =
  (saved <- save_users
              (PyList (List.filter (fun user => negb (py_eq user target)) users)) ;;
   send (if saved then UserRemoved else RemoveFailed) ;;; pop_entry user_id)
    (snd (load_users w)).
Proof.
  intros Ht Hs Hr Hl. unfold handle_confirm_callback. mstep. eval_strings.
  rewrite (in_state_true _ _ _ _ Ht Hs).
  rewrite (bind_get_item _ _ _ _ _ _ Ht Hr), (bind_load_users _ _ _ Hl).
  reflexivity.
Qed.

(** The confirmation of the removal of every match. *)
Lemma confirm_remove_all_run (w : world) (user_id : Z)
    (entry : gmap string pyval) (username : pyval) (users : list pyval) :
  user_states w !! user_id = Some entry ->
  entry !! "state" = Some (PyStr "confirm_remove_all") ->
  entry !! "remove_username" = Some username ->
  fst (load_users w) = Ret (PyList users) ->
  forallb is_dict users = true ->
  handle_confirm_callback "confirm_remove_all" user_id w =
  (saved <- save_users
              (PyList (List.filter (fun u => negb (has_username username u)) users)) ;;
   send (if saved then AllRemoved username else RemoveAllFailed) ;;;
   pop_entry user_id)
    (snd (load_users w)).
Proof.
  intros Ht Hs Hr Hl Hd. unfold handle_confirm_callback. mstep. eval_strings.
  rewrite (in_state_true _ _ _ _ Ht Hs).
  rewrite (bind_get_item _ _ _ _ _ _ Ht Hr), (bind_load_users _ _ _ Hl).
  simpl py_iter. mstep. rewrite (select_username_is_not _ _ Hd). reflexivity.
Qed.

(** The confirmation of a duplicate: the record made of the collected
    fields goes at the end of the collection just loaded. *)
Lemma add_anyway_run (w : world) (user_id : Z) (entry : gmap string pyval)
    (device_id username password expiresAt allowOffline : pyval)
    (users : list pyval) :
  user_states w !! user_id = Some entry ->
  entry !! "state" = Some (PyStr "confirm_duplicate") ->
  entry !! "device_id" = Some device_id ->
  entry !! "username" = Some username ->
  entry !! "password" = Some password ->
  entry !! "expiresAt" = Some expiresAt ->
  entry !! "allowOffline" = Some allowOffline ->
  fst (load_users w) = Ret (PyList users) ->
  let new_user := record_of device_id username password expiresAt allowOffline in
  handle_confirm_callback "add_anyway" user_id w =
  (saved <- save_users (PyList (users ++ [new_user])) ;;
   send (if saved then AccountCreatedAnyway new_user else SaveFailedShort) ;;;
   pop_entry user_id)
    (snd (load_users w)).
Proof.
  intros Ht Hs H1 H2 H3 H4 H5 Hl new_user.
  unfold handle_confirm_callback. mstep. eval_strings.
  rewrite (in_state_true _ _ _ _ Ht Hs). rewrite Ht. mstep.
  rewrite (bind_load_users _ _ _ Hl).
  simpl py_append. mstep. unfold item. rewrite H1, H2, H3, H4, H5. mstep.
  reflexivity.
Qed.

(** A body that returns normally is not affected by its handler. *)
Lemma try_except_returns {A} (body : M A) (handler : exn -> M A)
    (w : world) (a : A) :
  fst (body w) = Ret a -> try_except body handler w = body w.
Proof.
  intros H. unfold try_except. destruct (body w) as [r w']. simpl in H.
  now subst r.
Qed.

(** The offline choice on a duplicate: the choice is kept in the entry, the
    state becomes [confirm_duplicate], the warning is sent; the only request
    is the one of the load. *)
Lemma offline_duplicate_run (w : world) (user_id : Z)
    (entry : gmap string pyval) (data : string) (allowOffline : bool)
    (username password : pyval) (users : list pyval) :
  user_states w !! user_id = Some entry ->
  entry !! "state" = Some (PyStr "awaiting_offline") ->
  offline_choice data = Some allowOffline ->
  entry !! "username" = Some username ->
  entry !! "password" = Some password ->
  fst (load_users w) = Ret (PyList users) ->
  forallb is_dict users = true ->
  existsb (same_credentials username password) users = true ->
  handle_offline_callback data user_id w =
  (Ret tt,
   with_reply
     (with_states (snd (load_users w))
        (<[user_id := <["state" := PyStr "confirm_duplicate"]>
                        (<["allowOffline" := PyBool allowOffline]> entry)]>
           (user_states w)))
     DuplicateWarning).
Proof.
  intros Ht Hs Hc Hu Hp Hl Hd Hdup.
  destruct (load_users_frame w) as (Hst & _).
  unfold handle_offline_callback. mpure. rewrite Ht.
  unfold entry_get. rewrite Hs. eval_labels. change (negb true) with false. cbv iota. rewrite Hc.
  unfold try_except. rewrite (bind_load_users _ _ _ Hl).
  simpl py_iter. mstep. rewrite (any_duplicate_run _ _ _ _ Hd Hu Hp), Hdup.
  mstep. rewrite <- Hst in Ht. set_items. mstep. now rewrite Hst.
Qed.

(** The offline choice without a duplicate: the record made of the
    collected fields goes at the end of the collection just loaded, and the
    commit ends the conversation. *)
Lemma offline_commit_run (w : world) (user_id : Z)
    (entry : gmap string pyval) (data : string) (allowOffline : bool)
    (device_id username password expiresAt : pyval) (users : list pyval) :
  user_states w !! user_id = Some entry ->
  entry !! "state" = Some (PyStr "awaiting_offline") ->
  offline_choice data = Some allowOffline ->
  entry !! "device_id" = Some device_id ->
  entry !! "username" = Some username ->
  entry !! "password" = Some password ->
  entry !! "expiresAt" = Some expiresAt ->
  fst (load_users w) = Ret (PyList users) ->
  forallb is_dict users = true ->
  existsb (same_credentials username password) users = false ->
  let new_user :=
    record_of device_id username password expiresAt (PyBool allowOffline) in
  handle_offline_callback data user_id w =
  (saved <- save_users (PyList (users ++ [new_user])) ;;
   send (if saved
         then AccountCreated new_user (Z.of_nat (length (users ++ [new_user])))
         else SaveFailed) ;;;
   pop_entry user_id)
    (snd (load_users w)).
Proof.
  intros Ht Hs Hc H1 Hu Hp H4 Hl Hd Hdup new_user.
  unfold handle_offline_callback. mpure. rewrite Ht.
  unfold entry_get. rewrite Hs. eval_labels. change (negb true) with false. cbv iota. rewrite Hc.
  pose proof (commit_end user_id (PyList (users ++ [new_user]))
                (AccountCreated new_user (Z.of_nat (length (users ++ [new_user]))))
                SaveFailed (snd (load_users w))) as (Hret & _).
  match goal with
  | |- try_except ?body ?h w = ?rhs =>
      assert (Hbody : body w = rhs)
  end.
  { rewrite (bind_load_users _ _ _ Hl).
    simpl py_iter. mstep. rewrite (any_duplicate_run _ _ _ _ Hd Hu Hp), Hdup.
    mstep. unfold new_record, item. rewrite H1, Hu, Hp, H4. mstep.
    simpl py_append. mstep. fold (record_of device_id username password
                                    expiresAt (PyBool allowOffline)).
    fold new_user. apply bind_ext. intros [] w'; reflexivity. }
  rewrite (try_except_returns _ _ _ tt); [exact Hbody|].
  rewrite Hbody. exact Hret.
Qed.

(** The username to remove: no match ends the conversation, one match is
    selected for confirmation, several are listed for a choice. *)
Lemma remove_username_run (w : world) (user_id : Z)
    (entry : gmap string pyval) (update_text : string) (users : list pyval) :
  user_states w !! user_id = Some entry ->
  entry !! "state" = Some (PyStr "awaiting_remove_username") ->
  fst (load_users w) = Ret (PyList users) ->
  forallb is_dict users = true ->
  let username := strip update_text in
  let matching := List.filter (has_username (PyStr username)) users in
  let w1 := snd (load_users w) in
  handle_message user_id update_text w =
  (Ret tt,
   match matching with
   | [] =>
       with_states
         (with_reply w1 (match users with
                         | [] => NoUsersFound
                         | _ => UsernameNotFound username
                         end))
         (delete user_id (user_states w))
   | [user] =>
       with_reply
         (with_states w1
            (<[user_id := <["state" := PyStr "confirm_remove_single"]>
                            (<["remove_user" := user]> entry)]> (user_states w)))
         (FoundUser user)
   | _ =>
       with_reply
         (with_states w1
            (<[user_id := <["state" := PyStr "awaiting_remove_choice"]>
                            (<["matching_users" := PyList matching]>
                               (<["remove_username" := PyStr username]> entry))]>
               (user_states w)))
         (ChooseMatch username matching)
   end).
Proof.
  intros Ht Hs Hl Hd. cbv zeta.
  set (username := strip update_text). set (w1 := snd (load_users w)).
  destruct (load_users_frame w) as (Hst & _). fold w1 in Hst.
  unfold handle_message. fold username. mpure. rewrite Ht.
  unfold item. rewrite Hs. mpure. eval_labels.
  rewrite (bind_load_users _ _ _ Hl). fold w1.
  destruct users as [|u0 users0].
  { simpl. unfold pop_entry. mpure. unfold set_states.
    now rewrite with_reply_states, Hst. }
  change (py_truthy (PyList (u0 :: users0))) with true.
  change (negb true) with false. cbv iota.
  simpl py_iter. mpure. rewrite (select_username_is _ _ Hd). mpure.
  rewrite <- Hst in Ht.
  destruct (List.filter (has_username (PyStr username)) (u0 :: users0))
    as [|u [|u2 rest]].
  - unfold pop_entry. mpure. unfold set_states.
    now rewrite with_reply_states, Hst.
  - change (1 <? Z.of_nat (length [u])) with false. cbv iota.
    set_items. mpure. now rewrite Hst.
  - replace (1 <? Z.of_nat (length (u :: u2 :: rest))) with true
      by (symmetry; apply Z.ltb_lt; simpl length; lia).
    set_items. mpure. now rewrite Hst.
Qed.

(** The choice of one match by its number, counted from 1. *)
Lemma remove_choice_index_run (w : world) (user_id : Z)
    (entry : gmap string pyval) (update_text : string)
    (matching : list pyval) (user : pyval) :
  user_states w !! user_id = Some entry ->
  entry !! "state" = Some (PyStr "awaiting_remove_choice") ->
  entry !! "matching_users" = Some (PyList matching) ->
  let choice := lower (strip update_text) in
  choice <> "all" ->
  isdigit choice = true ->
  forall number : Z,
  int choice = Some number ->
  1 <= number <= Z.of_nat (length matching) ->
  nth_error matching (Z.to_nat (number - 1)) = Some user ->
  is_dict user = true ->
  handle_message user_id update_text w =
  (Ret tt,
   with_reply
     (with_states w
        (<[user_id := <["state" := PyStr "confirm_remove_single"]>
                        (<["remove_user" := user]> entry)]> (user_states w)))
     (SelectedUser user)).
Proof.
  intros Ht Hs Hm choice Hall Hdigit number Hint Hrange Hnth Hdict.
  apply String.eqb_neq in Hall.
  unfold handle_message. fold choice. mpure. rewrite Ht.
  unfold item. rewrite Hs. mpure. eval_labels. cbv zeta.
  rewrite Hall, Hdigit, Hint. mpure.
  rewrite (bind_get_item _ _ _ _ _ _ Ht Hm). simpl py_len. mpure.
  replace ((0 <=? number - 1)
           && (number - 1 <? Z.of_nat (length matching))) with true
    by (symmetry; apply andb_true_intro; split;
        [apply Z.leb_le|apply Z.ltb_lt]; lia).
  unfold py_index. rewrite Hnth. mpure. set_items.
  destruct user; try discriminate. reflexivity.
Qed.

(** The choice of every match. *)
Lemma remove_choice_all_run (w : world) (user_id : Z)
    (entry : gmap string pyval) (update_text : string) (username : pyval) :
  user_states w !! user_id = Some entry ->
  entry !! "state" = Some (PyStr "awaiting_remove_choice") ->
  entry !! "remove_username" = Some username ->
  lower (strip update_text) = "all" ->
  handle_message user_id update_text w =
  (Ret tt,
   with_reply
     (with_states w
        (<[user_id := <["state" := PyStr "confirm_remove_all"]> entry]>
           (user_states w)))
     (ConfirmRemoveAll username)).
Proof.
  intros Ht Hs Hu Hall.
  unfold handle_message. mpure. rewrite Ht.
  unfold item. rewrite Hs. mpure. eval_labels. cbv zeta. rewrite Hall.
  change (String.eqb "all" "all") with true. cbv iota.
  set_items.
  erewrite bind_get_item;
    [reflexivity | rewrite with_states_states; apply lookup_insert_eq |].
  rewrite lookup_insert_ne by discriminate. exact Hu.
Qed.

(** Whatever the store answers and whatever the entry and the collection
    hold, the offline choice returns normally and either ends the
    conversation or leaves it waiting for the confirmation of a duplicate:
    an exception raised on the way is caught, reported, and ends it. *)
Lemma offline_choice_ends (w : world) (user_id : Z)
    (entry : gmap string pyval) (data : string) (allowOffline : bool) :
  user_states w !! user_id = Some entry ->
  entry !! "state" = Some (PyStr "awaiting_offline") ->
  offline_choice data = Some allowOffline ->
  let after := handle_offline_callback data user_id w in
  fst after = Ret tt
  /\ (user_states (snd after) = delete user_id (user_states w)
      \/ user_states (snd after) =
         <[user_id := <["state" := PyStr "confirm_duplicate"]>
                        (<["allowOffline" := PyBool allowOffline]> entry)]>
           (user_states w)).
Proof.
  intros Ht Hs Hc after. unfold after. clear after.
  unfold handle_offline_callback. mpure. rewrite Ht.
  unfold entry_get. rewrite Hs. eval_labels. change (negb true) with false.
  cbv iota. rewrite Hc.
  destruct (load_users_returns w) as [v Hv].
  destruct (load_users_frame w) as (Hst & _).
  unfold try_except. rewrite (bind_load_users _ _ _ Hv).
  set (w1 := snd (load_users w)) in *.
  assert (Hpop : forall (w' : world) r,
             user_states w' = user_states w ->
             let a := (send r ;;; pop_entry user_id) w' in
             fst a = Ret tt /\ user_states (snd a) = delete user_id (user_states w)).
  { intros w' r Hw'. simpl. now rewrite Hw'. }
  destruct (py_iter v) as [all_users|e]; mpure;
    [|destruct (Hpop w1 (ErrorText e) Hst); split; [|left]; assumption].
  destruct (any_duplicate entry all_users) as [[|]|e]; mpure.
  - rewrite <- Hst in Ht. set_items. mpure. split; [reflexivity|right].
    simpl. now rewrite Hst.
  - destruct (new_record entry (PyBool allowOffline)) as [new_user|e]; mpure;
      [|destruct (Hpop w1 (ErrorText e) Hst); split; [|left]; assumption].
    destruct (py_append v new_user) as [users|e]; mpure;
      [|destruct (Hpop w1 (ErrorText e) Hst); split; [|left]; assumption].
    destruct (save_users_frame users w1) as (Hsv & _).
    destruct (save_users users w1) as [[saved|e] w2] eqn:Hsave; simpl in Hsv.
    + rewrite (bind_run _ _ _ _ _ Hsave). destruct saved.
      * destruct (py_len users) as [total|e]; mpure.
        -- simpl. rewrite Hsv, Hst. auto.
        -- simpl. rewrite Hsv, Hst. auto.
      * simpl. rewrite Hsv, Hst. auto.
    + rewrite (bind_raise _ _ _ _ _ Hsave). simpl. rewrite Hsv, Hst. auto.
  - destruct (Hpop w1 (ErrorText e) Hst); split; [|left]; assumption.
Qed.

(** What a text does in the state [awaiting_expiration]. *)
Lemma expiration_run (w : world) (user_id : Z)
    (entry : gmap string pyval) (update_text : string) :
  user_states w !! user_id = Some entry ->
  entry !! "state" = Some (PyStr "awaiting_expiration") ->
  let expiresAt :=
    if String.eqb (strip update_text) "" then DEFAULT_DATE
    else strip update_text in
  handle_message user_id update_text w =
  match strptime expiresAt with
  | Some _ =>
      (Ret tt,
       with_reply
         (with_states w
            (<[user_id := <["state" := PyStr "awaiting_offline"]>
                            (<["expiresAt" := PyStr expiresAt]> entry)]>
               (user_states w)))
         AskOffline)
  | None => (Ret tt, with_reply w InvalidDate)
  end.
Proof.
  intros Ht Hs expiresAt. unfold handle_message. mstep. rewrite Ht.
  unfold item. rewrite Hs. mstep. eval_labels. cbv zeta. fold expiresAt.
  destruct (strptime expiresAt) as [d|]; mstep; [|reflexivity].
  set_items. reflexivity.
Qed.

(** C7: in the state [awaiting_expiration], a text that is empty once
    stripped stores the default date [2025-12-12] as [expiresAt] and moves
    to [awaiting_offline]; a text that is not empty once stripped and that
    [strptime] rejects is answered with the invalid-date prompt and leaves
    the whole table, the state label and the collected fields included, as
    it was; one that [strptime] accepts is stored, stripped, as [expiresAt]
    and the state moves to [awaiting_offline]. *)
Theorem awaiting_expiration_step (w : world) (user_id : Z)
    (entry : gmap string pyval) (update_text : string) :
  user_states w !! user_id = Some entry ->
  entry !! "state" = Some (PyStr "awaiting_expiration") ->
  let message_text := strip update_text in
  let advance (date : string) :=
    (Ret tt,
     with_reply
       (with_states w
          (<[user_id := <["state" := PyStr "awaiting_offline"]>
                          (<["expiresAt" := PyStr date]> entry)]> (user_states w)))
       AskOffline) in
  (message_text = "" ->
     handle_message user_id update_text w = advance "2025-12-12")
  /\ (message_text <> "" ->
      strptime message_text = None ->
      handle_message user_id update_text w = (Ret tt, with_reply w InvalidDate))
  /\ (message_text <> "" ->
      forall date, strptime message_text = Some date ->
      handle_message user_id update_text w = advance message_text).
Proof.
  intros Hentry Hstate message_text advance.
  rewrite (expiration_run w user_id entry update_text Hentry Hstate).
  fold message_text. cbv zeta. repeat split.
  - intros ->. change (String.eqb "" "") with true. cbv iota.
    now rewrite strptime_default.
  - intros Hne Hd. apply String.eqb_neq in Hne. now rewrite Hne, Hd.
  - intros Hne d Hd. apply String.eqb_neq in Hne. now rewrite Hne, Hd.
Qed.

(** C3: when the offline choice ends the collection of a record whose
    username and password are both those of a stored record, the
    conversation enters [confirm_duplicate] with the choice kept, and
    nothing is appended or saved: the only request sent is the load.  From
    there, [add_anyway] loads the collection, appends the record made of
    exactly the collected device id, username, password, expiry and offline
    choice, and hands the result to the save. *)
Theorem duplicate_needs_confirmation (w : world) (user_id : Z)
    (entry : gmap string pyval) (data : string) (allowOffline : bool)
    (device_id username password expiresAt : pyval) (users : list pyval) :
  user_states w !! user_id = Some entry ->
  entry !! "state" = Some (PyStr "awaiting_offline") ->
  entry !! "device_id" = Some device_id ->
  entry !! "username" = Some username ->
  entry !! "password" = Some password ->
  entry !! "expiresAt" = Some expiresAt ->
  offline_choice data = Some allowOffline ->
  fst (load_users w) = Ret (PyList users) ->
  forallb is_dict users = true ->
  existsb (same_credentials username password) users = true ->
  let w1 := snd (handle_offline_callback data user_id w) in
  let new_user :=
    record_of device_id username password expiresAt (PyBool allowOffline) in
  fst (handle_offline_callback data user_id w) = Ret tt
  /\ user_states w1 =
     <[user_id := <["state" := PyStr "confirm_duplicate"]>
                    (<["allowOffline" := PyBool allowOffline]> entry)]>
       (user_states w)
  /\ trace w1 = GET RawContent :: trace w
  /\ remote w1 = snd (respond (remote w) (GET RawContent))
  /\ (forall users',
        fst (load_users w1) = Ret (PyList users') ->
        handle_confirm_callback "add_anyway" user_id w1 =
        (saved <- save_users (PyList (users' ++ [new_user])) ;;
         send (if saved then AccountCreatedAnyway new_user else SaveFailedShort) ;;;
         pop_entry user_id)
          (snd (load_users w1))).
Proof.
  intros Ht Hs H1 Hu Hp H4 Hc Hl Hd Hdup w1 new_user.
  destruct (load_users_frame w) as (_ & _ & _ & Htrace & Hremote).
  assert (Hrun := offline_duplicate_run _ _ _ _ _ _ _ _ Ht Hs Hc Hu Hp Hl Hd Hdup).
  unfold w1. rewrite Hrun. simpl fst. simpl snd.
  split; [reflexivity|]. split; [reflexivity|].
  split; [exact Htrace|]. split; [exact Hremote|].
  intros users' Hl'.
  apply (add_anyway_run _ user_id
           (<["state" := PyStr "confirm_duplicate"]>
              (<["allowOffline" := PyBool allowOffline]> entry))
           device_id username password expiresAt (PyBool allowOffline) users');
    try exact Hl'.
  - apply lookup_insert_eq.
  - apply lookup_insert_eq.
  - now rewrite !lookup_insert_ne by discriminate.
  - now rewrite !lookup_insert_ne by discriminate.
  - now rewrite !lookup_insert_ne by discriminate.
  - now rewrite !lookup_insert_ne by discriminate.
  - rewrite lookup_insert_ne by discriminate. apply lookup_insert_eq.
Qed.

Lemma filter_all_dicts (test : pyval -> bool) (users : list pyval) :
  forallb is_dict users = true ->
  forallb is_dict (List.filter test users) = true.
Proof.
  induction users as [|u users IH]; [reflexivity|].
  simpl. intros [Hu Hrest]%andb_prop.
  destruct (test u); simpl; [rewrite Hu|]; auto.
Qed.

(** C4: in [awaiting_remove_username], on a loaded collection of records,
    the username being the text stripped: no record with exactly that
    username ends the conversation; one such record is selected and the
    state becomes [confirm_remove_single]; several are kept as candidates
    and the state becomes [awaiting_remove_choice].  There a text that,
    stripped and in lower case, is not [all], that [isdigit] accepts and
    that [int] reads as [k], between 1 and the number of candidates, selects
    the [k]-th of them for [confirm_remove_single]; and [all] leads to
    [confirm_remove_all], whose confirmation hands to the save the
    collection then loaded without any record of that username. *)
Theorem remove_by_username (w : world) (user_id : Z)
    (entry : gmap string pyval) (update_text : string) (users : list pyval) :
  user_states w !! user_id = Some entry ->
  entry !! "state" = Some (PyStr "awaiting_remove_username") ->
  fst (load_users w) = Ret (PyList users) ->
  forallb is_dict users = true ->
  let username := PyStr (strip update_text) in
  let matching := List.filter (has_username username) users in
  let w1 := snd (handle_message user_id update_text w) in
  let candidates :=
    <["state" := PyStr "awaiting_remove_choice"]>
      (<["matching_users" := PyList matching]>
         (<["remove_username" := username]> entry)) in
  fst (handle_message user_id update_text w) = Ret tt
  /\ (matching = [] -> user_states w1 = delete user_id (user_states w))
  /\ (forall user, matching = [user] ->
        user_states w1 =
        <[user_id := <["state" := PyStr "confirm_remove_single"]>
                       (<["remove_user" := user]> entry)]> (user_states w))
  /\ ((1 < length matching)%nat ->
      user_states w1 = <[user_id := candidates]> (user_states w)
      /\ (forall (choice : string) (k : nat) (user : pyval),
            lower (strip choice) <> "all" ->
            isdigit (lower (strip choice)) = true ->
            int (lower (strip choice)) = Some (Z.of_nat k) ->
            (1 <= k <= length matching)%nat ->
            nth_error matching (k - 1) = Some user ->
            handle_message user_id choice w1 =
            (Ret tt,
             with_reply
               (with_states w1
                  (<[user_id := <["state" := PyStr "confirm_remove_single"]>
                                  (<["remove_user" := user]> candidates)]>
                     (user_states w)))
               (SelectedUser user)))
      /\ (forall choice : string,
            lower (strip choice) = "all" ->
            let w2 := snd (handle_message user_id choice w1) in
            handle_message user_id choice w1 =
            (Ret tt,
             with_reply
               (with_states w1
                  (<[user_id := <["state" := PyStr "confirm_remove_all"]> candidates]>
                     (user_states w)))
               (ConfirmRemoveAll username))
            /\ (forall users',
                  fst (load_users w2) = Ret (PyList users') ->
                  forallb is_dict users' = true ->
                  handle_confirm_callback "confirm_remove_all" user_id w2 =
                  (saved <-
                     save_users
                       (PyList (List.filter
                                  (fun u => negb (has_username username u)) users')) ;;
                   send (if saved then AllRemoved username else RemoveAllFailed) ;;;
                   pop_entry user_id)
                    (snd (load_users w2))))).
Proof.
  intros Ht Hs Hl Hd username matching w1 candidates.
  assert (Hrun := remove_username_run _ _ _ update_text _ Ht Hs Hl Hd).
  cbv zeta in Hrun. fold username matching in Hrun.
  assert (Hdm : forallb is_dict matching = true) by now apply filter_all_dicts.
  clearbody matching.
  unfold w1. rewrite Hrun. simpl fst. simpl snd. clear w1 Hrun.
  split; [reflexivity|].
  split; [intros ->; reflexivity|].
  split; [intros user ->; reflexivity|].
  intros Hmany.
  destruct matching as [|u [|u2 rest]]; simpl in Hmany; try lia.
  set (matching := u :: u2 :: rest) in *.
  set (w1 := with_reply _ _).
  assert (Hw1 : user_states w1 !! user_id = Some candidates)
    by (simpl; apply lookup_insert_eq).
  assert (Hst1 : user_states w1 = <[user_id := candidates]> (user_states w))
    by reflexivity.
  split; [reflexivity|]. split.
  - intros choice k user Hnot Hdigit Hint Hk Hnth.
    rewrite (remove_choice_index_run w1 user_id candidates choice matching user
               Hw1 ltac:(apply lookup_insert_eq)
               ltac:(unfold candidates;
                     rewrite lookup_insert_ne by discriminate;
                     apply lookup_insert_eq)
               Hnot Hdigit (Z.of_nat k) Hint).
    + rewrite Hst1, insert_insert_eq. reflexivity.
    + lia.
    + now replace (Z.to_nat (Z.of_nat k - 1)) with (k - 1)%nat by lia.
    + apply nth_error_In in Hnth.
      rewrite forallb_forall in Hdm. now apply Hdm.
  - intros choice Hall.
    assert (Hrun2 : handle_message user_id choice w1 =
                    (Ret tt,
                     with_reply
                       (with_states w1
                          (<[user_id := <["state" := PyStr "confirm_remove_all"]>
                                          candidates]> (user_states w)))
                       (ConfirmRemoveAll username))).
    { rewrite (remove_choice_all_run w1 user_id candidates choice username);
        try assumption.
      - rewrite Hst1, insert_insert_eq. reflexivity.
      - apply lookup_insert_eq.
      - unfold candidates.
        rewrite !lookup_insert_ne by discriminate. apply lookup_insert_eq. }
    rewrite Hrun2. split; [reflexivity|].
    intros users' Hl' Hd'.
    apply (confirm_remove_all_run _ user_id
             (<["state" := PyStr "confirm_remove_all"]> candidates)
             username users'); try assumption.
    + apply lookup_insert_eq.
    + apply lookup_insert_eq.
    + unfold candidates.
      rewrite !lookup_insert_ne by discriminate. apply lookup_insert_eq.
Qed.

(** The confirmation handler has no [try] block of its own: on a
    collection that holds something else than records, the exception of
    [user.get] leaves the handler, and the entry stays. *)
Remark confirm_remove_all_needs_records (w : world) (user_id : Z)
    (entry : gmap string pyval) (username : pyval) (n : Z) :
  user_states w !! user_id = Some entry ->
  entry !! "state" = Some (PyStr "confirm_remove_all") ->
  entry !! "remove_username" = Some username ->
  fst (load_users w) = Ret (PyList [PyInt n]) ->
  handle_confirm_callback "confirm_remove_all" user_id w
  = (Raise AttributeError, snd (load_users w)).
Proof.
  intros Ht Hs Hr Hl. unfold handle_confirm_callback. mpure. eval_strings.
  rewrite (in_state_true _ _ _ _ Ht Hs).
  rewrite (bind_get_item _ _ _ _ _ _ Ht Hr), (bind_load_users _ _ _ Hl).
  reflexivity.
Qed.

(** C5: the confirmation of a single removal hands to the save the
    collection just loaded without every record equal, as a value, to the
    selected one: the records kept are exactly those that differ from it, so
    equal duplicates go together.  In particular, when the collection holds
    one record and the operator removes it by its username and confirms, the
    collection handed to the save is empty. *)
Theorem remove_single_by_value :
  (forall (w : world) (user_id : Z) (entry : gmap string pyval)
          (target : pyval) (users : list pyval),
      user_states w !! user_id = Some entry ->
      entry !! "state" = Some (PyStr "confirm_remove_single") ->
      entry !! "remove_user" = Some target ->
      fst (load_users w) = Ret (PyList users) ->
      let kept := List.filter (fun user => negb (py_eq user target)) users in
      handle_confirm_callback "confirm_remove" user_id w =
      (saved <- save_users (PyList kept) ;;
       send (if saved then UserRemoved else RemoveFailed) ;;; pop_entry user_id)
        (snd (load_users w))
      /\ (forall user, In user kept <-> In user users /\ py_eq user target = false))
  /\ (forall (w : world) (user_id : Z) (entry : gmap string pyval)
             (update_text : string) (record : pyval),
         user_states w !! user_id = Some entry ->
         entry !! "state" = Some (PyStr "awaiting_remove_username") ->
         is_dict record = true ->
         wf record = true ->
         has_username (PyStr (strip update_text)) record = true ->
         fst (load_users w) = Ret (PyList [record]) ->
         let w1 := snd (handle_message user_id update_text w) in
         fst (load_users w1) = Ret (PyList [record]) ->
         handle_confirm_callback "confirm_remove" user_id w1 =
         (saved <- save_users (PyList []) ;;
          send (if saved then UserRemoved else RemoveFailed) ;;; pop_entry user_id)
           (snd (load_users w1))).
Proof.
  split.
  - intros w user_id entry target users Ht Hs Hr Hl kept. split.
    + now apply confirm_remove_run with (entry := entry).
    + intros user. unfold kept. rewrite filter_In, negb_true_iff. tauto.
  - intros w user_id entry update_text record Ht Hs Hd Hwf Hname Hl w1 Hl1.
    assert (Hds : forallb is_dict [record] = true) by (simpl; now rewrite Hd).
    assert (Hrun := remove_username_run _ _ _ update_text _ Ht Hs Hl Hds).
    cbv zeta in Hrun. simpl List.filter in Hrun. rewrite Hname in Hrun.
    assert (Hkept : List.filter (fun user => negb (py_eq user record)) [record] = [])
      by (simpl; now rewrite (py_eq_refl _ Hwf)).
    rewrite <- Hkept.
    apply confirm_remove_run
      with (entry := <["state" := PyStr "confirm_remove_single"]>
                       (<["remove_user" := record]> entry)); try assumption.
    + unfold w1. rewrite Hrun. simpl. apply lookup_insert_eq.
    + apply lookup_insert_eq.
    + rewrite lookup_insert_ne by discriminate. apply lookup_insert_eq.
Qed.

(** X28: the cancel button removes the operator's entry, whatever its
    state.  The offline choice that ends the collection of a record returns
    and removes the entry, whether the save succeeds, fails, or an exception
    is raised on the way, the only other outcome being the wait for the
    confirmation of a duplicate.  On a loaded list of records, each of the
    three confirmations removes the entry, whether the save succeeds or
    fails, and so does a removal that finds no record of the username.  An
    operator without an entry who sends free text gets the use-the-menu
    prompt, and nothing else changes: neither the table nor the store, to
    which no request is sent.  (What a confirmation does on a collection
    that is not a list of records is the matter of
    [confirm_remove_all_needs_records].) *)
Theorem conversation_lifecycle (w : world) (user_id : Z) :
  ends_conversation (button_handler cancel user_id) user_id w
  /\ (user_states w !! user_id = None ->
      forall update_text,
        handle_message user_id update_text w = (Ret tt, with_reply w MenuHint))
  /\ (forall entry, user_states w !! user_id = Some entry ->
      (entry !! "state" = Some (PyStr "awaiting_offline") ->
       forall data allowOffline,
         offline_choice data = Some allowOffline ->
         let after := handle_offline_callback data user_id w in
         fst after = Ret tt
         /\ (user_states (snd after) = delete user_id (user_states w)
             \/ user_states (snd after) =
                <[user_id := <["state" := PyStr "confirm_duplicate"]>
                               (<["allowOffline" := PyBool allowOffline]> entry)]>
                  (user_states w)))
      /\ (forall users,
            fst (load_users w) = Ret (PyList users) ->
            forallb is_dict users = true ->
            (entry !! "state" = Some (PyStr "confirm_remove_single") ->
             forall target, entry !! "remove_user" = Some target ->
               ends_conversation
                 (handle_confirm_callback "confirm_remove" user_id) user_id w)
            /\ (entry !! "state" = Some (PyStr "confirm_remove_all") ->
                forall username, entry !! "remove_username" = Some username ->
                  ends_conversation
                    (handle_confirm_callback "confirm_remove_all" user_id) user_id w)
            /\ (entry !! "state" = Some (PyStr "confirm_duplicate") ->
                forall device_id username password expiresAt allowOffline,
                  entry !! "device_id" = Some device_id ->
                  entry !! "username" = Some username ->
                  entry !! "password" = Some password ->
                  entry !! "expiresAt" = Some expiresAt ->
                  entry !! "allowOffline" = Some allowOffline ->
                  ends_conversation
                    (handle_confirm_callback "add_anyway" user_id) user_id w)
            /\ (entry !! "state" = Some (PyStr "awaiting_remove_username") ->
                forall update_text,
                  List.filter (has_username (PyStr (strip update_text))) users = [] ->
                  ends_conversation (handle_message user_id update_text) user_id w))).
Proof.
  destruct (load_users_frame w) as (Hst & _).
  assert (Hend : forall (run : M unit) users done failed,
             run w =
             (saved <- save_users users ;;
              send (if saved then done else failed) ;;; pop_entry user_id)
               (snd (load_users w)) ->
             ends_conversation run user_id w).
  { intros run users done failed Hrun. unfold ends_conversation. rewrite Hrun.
    destruct (commit_end user_id users done failed (snd (load_users w)))
      as (Hret & Hstates & _).
    split; [exact Hret|]. now rewrite Hstates, Hst. }
  split; [|split].
  - unfold ends_conversation, button_handler. mpure.
    destruct (user_states w !! user_id) eqn:Ht; simpl; [tauto|].
    split; [reflexivity|]. symmetry. now apply delete_id.
  - intros Ht update_text. unfold handle_message. mpure. now rewrite Ht.
  - intros entry Ht. split.
    + intros Hs data allowOffline Hc. now apply offline_choice_ends.
    + intros users Hl Hd. split; [|split; [|split]].
      * intros Hs target Hr.
        eapply Hend. eapply confirm_remove_run; eassumption.
      * intros Hs username Hr.
        eapply Hend. eapply confirm_remove_all_run; eassumption.
      * intros Hs device_id username password expiresAt allowOffline H1 H2 H3 H4 H5.
        eapply Hend. eapply add_anyway_run; eassumption.
      * intros Hs update_text Hnone.
        assert (Hrun := remove_username_run _ _ _ update_text _ Ht Hs Hl Hd).
        cbv zeta in Hrun. rewrite Hnone in Hrun.
        unfold ends_conversation. rewrite Hrun. split; reflexivity.
Qed.

End Engine_facts.

(** ** The gateway against the document store *)

Section Store_facts.
Variable hash : string -> string.

Lemma metadata_wf (doc : string) : wf (DocStore.metadata hash doc) = true.
Proof. reflexivity. Qed.

(** A save on the store: it fails when there is no document or when the
    JSON text of the collection holds a surrogate, and otherwise succeeds and
    leaves the encoded collection as the document. *)
Lemma save_users_on_store (w : @world (DocStore.env hash)) (users : list pyval) :
  save_users (PyList users) w =
  match remote w with
  | None =>
      (Ret false,
       @World (DocStore.env hash) (user_states w) None (GET JsonMetadata :: trace w) (clock w) (outbox w))
  | Some doc =>
      if Utf8.has_surrogate (Json.dumps (PyList users)) then
        (Ret false,
         @World (DocStore.env hash) (user_states w) (Some doc)
           (GET JsonMetadata :: trace w) (clock w) (outbox w))
      else
        (Ret true,
         @World (DocStore.env hash) (user_states w)
           (Some (Json.dumps (PyList users)))
           (PUT (CommitData
                   (commit_message (Z.of_nat (length users)) (clock w))
                   (Base64.b64encode (Json.dumps (PyList users)))
                   (PyStr (hash doc)) "main")
            :: GET JsonMetadata :: trace w)
           (clock w) (outbox w))
  end.
Proof.
  rewrite save_users_unfold.
  change (@respond (DocStore.env hash)) with (DocStore.respond_to hash).
  change (@remote_state (DocStore.env hash)) with (option string) in *.
  destruct (remote w) as [doc|] eqn:Hdoc; [|reflexivity].
  simpl DocStore.respond_to. cbv iota. simpl status_code.
  change (200 =? 200) with true. cbv iota.
  unfold response_json. simpl text.
  change (@json_loads (DocStore.env hash)) with Json.loads.
  rewrite (JsonFacts.loads_dumps _ (metadata_wf doc)).
  simpl rbind. unfold Utf8.encode.
  destruct (Utf8.has_surrogate (Json.dumps (PyList users))); [reflexivity|].
  simpl rbind.
  simpl DocStore.respond_to. cbv beta iota. cbn [content sha].
  rewrite Base64Facts.b64decode_b64encode.
  simpl py_eq. rewrite String.eqb_refl. reflexivity.
Qed.

(** C8: on the document store, when the save of a collection of
    well-formed values succeeds and the document is not modified before the
    next load, the load returns that collection: the same values in the
    same order. *)
Theorem save_then_load (w : @world (DocStore.env hash)) (users : list pyval) :
  wf (PyList users) = true ->
  fst (save_users (PyList users) w) = Ret true ->
  fst (load_users (snd (save_users (PyList users) w))) = Ret (PyList users).
Proof.
  intros Hwf Hsaved. rewrite save_users_on_store in *.
  change (@remote_state (DocStore.env hash)) with (option string) in *.
  destruct (remote w) as [doc|]; [|discriminate].
  destruct (Utf8.has_surrogate (Json.dumps (PyList users))); [discriminate|].
  simpl snd. rewrite load_users_unfold.
  change (@respond (DocStore.env hash)) with (DocStore.respond_to hash).
  simpl remote. simpl DocStore.respond_to. cbv iota. simpl status_code.
  change (200 =? 200) with true. cbv iota. simpl text.
  change (@json_loads (DocStore.env hash)) with Json.loads.
  now rewrite (JsonFacts.loads_dumps _ Hwf).
Qed.

End Store_facts.

(** ** Instances of the statements *)

Section Instances.
Import Example.

#[local] Existing Instance Example.env.
#[local] Existing Instance Example.library.

(** A missing document (status 404) loads as the empty collection. *)
Lemma load_users_fail_soft_witness :
  fst (load_users (DocStore.start hash None)) = Ret (PyList []).
Proof.
  apply (proj1 (proj2 (proj2 (load_users_fail_soft (DocStore.start hash None)))))
    with (r := Response 404 "Not Found"); [reflexivity|discriminate].
Defined.

(** A save on a missing document (status 404) returns [False]. *)
Lemma save_users_boolean_witness :
  fst (save_users (PyList [alice]) (DocStore.start hash None)) = Ret false.
Proof.
  apply (proj1 (proj2 (proj2
           (save_users_boolean (PyList [alice]) (DocStore.start hash None)))))
    with (r := Response 404 "Not Found"); [reflexivity|discriminate].
Defined.

(** A stored array of two records loads as those two records. *)
Lemma load_users_shape_witness :
  fst (load_users (DocStore.start hash (store_of [alice; bob])))
  = Ret (PyList [alice; bob]).
Proof.
  apply (proj1 (load_users_shape
                  (DocStore.start hash (store_of [alice; bob]))
                  (Response 200 (Json.dumps (PyList [alice; bob])))
                  (PyList [alice; bob])
                  eq_refl eq_refl
                  (JsonFacts.loads_dumps (PyList [alice; bob]) eq_refl))).
  reflexivity.
Defined.

(** C6, as stated, fails: the document is an object whose [users] field
    is null, and the load returns the empty collection, not the null. *)
Lemma users_field_not_returned :
  Json.loads (Json.dumps (PyDict [("users", PyNone)]))
  = Ret (PyDict [("users", PyNone)])
  /\ fst (load_users
            (DocStore.start hash (Some (Json.dumps (PyDict [("users", PyNone)])))))
     = Ret (PyList [])
  /\ Ret (PyList []) <> Ret PyNone.
Proof.
  split; [vm_compute; reflexivity|].
  split; [vm_compute; reflexivity|discriminate].
Defined.

(** With white space on both sides: an input of two spaces stores the
    default date and moves on; February 30th is rejected and nothing
    changes; January 31st is stored, stripped, and the conversation moves
    on. *)
Lemma awaiting_expiration_step_witness :
  handle_message 7 "  " (world_with None expiring)
  = (Ret tt,
     with_reply
       (with_states (world_with None expiring)
          (<[7 := expiring_on "2025-12-12"]> {[7 := expiring]}))
       AskOffline)
  /\ handle_message 7 " 2026-02-30 " (world_with None expiring)
     = (Ret tt, with_reply (world_with None expiring) InvalidDate)
  /\ handle_message 7 " 2026-01-31 " (world_with None expiring)
     = (Ret tt,
        with_reply
          (with_states (world_with None expiring)
             (<[7 := expiring_on "2026-01-31"]> {[7 := expiring]}))
          AskOffline).
Proof.
  split; [|split].
  - apply (proj1 (awaiting_expiration_step (world_with None expiring) 7 expiring
                    "  " ltac:(vm_compute; reflexivity)
                    ltac:(vm_compute; reflexivity))).
    reflexivity.
  - apply (proj1 (proj2 (awaiting_expiration_step (world_with None expiring) 7
                           expiring " 2026-02-30 "
                           ltac:(vm_compute; reflexivity)
                           ltac:(vm_compute; reflexivity))));
      [vm_compute; discriminate|vm_compute; reflexivity].
  - apply (proj2 (proj2 (awaiting_expiration_step (world_with None expiring) 7
                           expiring " 2026-01-31 "
                           ltac:(vm_compute; reflexivity)
                           ltac:(vm_compute; reflexivity)))
             ltac:(vm_compute; discriminate) (2026, 1, 31)
             ltac:(vm_compute; reflexivity)).
Defined.

(** [confirm_remove] pressed while the username is awaited does nothing. *)
Lemma stale_confirmation_is_noop_witness :
  handle_confirm_callback "confirm_remove" 7
    (world_with (store_of [alice]) (entry_in "awaiting_username"))
  = (Ret tt, world_with (store_of [alice]) (entry_in "awaiting_username")).
Proof.
  apply (proj2 (stale_confirmation_is_noop
                  (world_with (store_of [alice]) (entry_in "awaiting_username"))
                  7 "confirm_remove" "confirm_remove_single" eq_refl
                  ltac:(intros entry [= <-]; vm_compute; discriminate))).
Defined.

(** On a duplicate, the offline choice sends the load request and no
    other. *)
Lemma duplicate_needs_confirmation_witness :
  trace (snd (handle_offline_callback "offline_no" 7 before_duplicate))
  = [GET RawContent].
Proof.
  apply (proj1 (proj2 (proj2
           (duplicate_needs_confirmation before_duplicate 7 collected
              "offline_no" false
              (PyStr "dev9") (PyStr "alice") (PyStr "pw") (PyStr "2025-12-12")
              [alice]
              ltac:(vm_compute; reflexivity) ltac:(vm_compute; reflexivity)
              ltac:(vm_compute; reflexivity) ltac:(vm_compute; reflexivity)
              ltac:(vm_compute; reflexivity) ltac:(vm_compute; reflexivity)
              ltac:(vm_compute; reflexivity) ltac:(vm_compute; reflexivity)
              ltac:(vm_compute; reflexivity) ltac:(vm_compute; reflexivity))))).
Defined.

(** No record of [carol]: the entry goes.  One record of [bob]: it is
    selected.  Two of three records match [alice]: the choice [2] selects
    the second of them, and the choice [all] asks for the confirmation of
    the removal of both. *)
Lemma remove_by_username_witness :
  user_states
    (snd (handle_message 7 " carol " (before_removal [alice; bob]))) !! 7
  = None
  /\ (user_states
        (snd (handle_message 7 " bob " (before_removal [alice; bob]))) !! 7)
       ≫= (fun entry => entry !! "remove_user")
     = Some bob
  /\ (exists w2,
        handle_message 7 "2"
          (snd (handle_message 7 " alice "
                  (before_removal [alice; bob; alice_again])))
        = (Ret tt, w2)
        /\ (user_states w2 !! 7) ≫= (fun entry => entry !! "remove_user")
           = Some alice_again)
  /\ (user_states
        (snd (handle_message 7 " ALL "
                (snd (handle_message 7 " alice "
                        (before_removal [alice; bob; alice_again]))))) !! 7)
       ≫= (fun entry => entry !! "state")
     = Some (PyStr "confirm_remove_all").
Proof.
  pose proof (remove_by_username (before_removal [alice; bob]) 7
                (entry_in "awaiting_remove_username") " carol " [alice; bob]
                ltac:(vm_compute; reflexivity) ltac:(vm_compute; reflexivity)
                ltac:(vm_compute; reflexivity) ltac:(vm_compute; reflexivity))
    as (_ & Hnone & _).
  pose proof (remove_by_username (before_removal [alice; bob]) 7
                (entry_in "awaiting_remove_username") " bob " [alice; bob]
                ltac:(vm_compute; reflexivity) ltac:(vm_compute; reflexivity)
                ltac:(vm_compute; reflexivity) ltac:(vm_compute; reflexivity))
    as (_ & _ & Hone & _).
  pose proof (remove_by_username (before_removal [alice; bob; alice_again]) 7
                (entry_in "awaiting_remove_username") " alice "
                [alice; bob; alice_again]
                ltac:(vm_compute; reflexivity) ltac:(vm_compute; reflexivity)
                ltac:(vm_compute; reflexivity) ltac:(vm_compute; reflexivity))
    as (_ & _ & _ & Hmany).
  destruct (Hmany ltac:(vm_compute; lia)) as (_ & Hindex & Hall).
  split; [|split; [|split]].
  - rewrite (Hnone ltac:(vm_compute; reflexivity)). apply lookup_delete_eq.
  - rewrite (Hone bob ltac:(vm_compute; reflexivity)).
    rewrite lookup_insert_eq. vm_compute. reflexivity.
  - rewrite (Hindex "2" 2%nat alice_again
               ltac:(vm_compute; discriminate)
               ltac:(vm_compute; reflexivity) ltac:(vm_compute; reflexivity)
               ltac:(vm_compute; lia) ltac:(vm_compute; reflexivity)).
    eexists. split; [reflexivity|]. vm_compute. reflexivity.
  - destruct (Hall " ALL " ltac:(vm_compute; reflexivity)) as [Hrun _].
    rewrite Hrun. vm_compute. reflexivity.
Defined.

(** The only record is removed by its username: the document becomes the
    empty array. *)
Lemma remove_single_by_value_witness :
  remote (snd (handle_confirm_callback "confirm_remove" 7
                 (snd (handle_message 7 "alice" (before_removal [alice])))))
  = Some (Json.dumps (PyList [])).
Proof.
  rewrite (proj2 remove_single_by_value (before_removal [alice]) 7
             (entry_in "awaiting_remove_username") "alice" alice
             ltac:(vm_compute; reflexivity) ltac:(vm_compute; reflexivity)
             ltac:(vm_compute; reflexivity) ltac:(vm_compute; reflexivity)
             ltac:(vm_compute; reflexivity) ltac:(vm_compute; reflexivity)
             ltac:(vm_compute; reflexivity)).
  vm_compute. reflexivity.
Defined.

(** Two records saved over an empty array are loaded back. *)
Lemma save_then_load_witness :
  fst (load_users
         (snd (save_users (PyList [alice; bob]) (DocStore.start hash (store_of [])))))
  = Ret (PyList [alice; bob]).
Proof.
  apply (save_then_load hash (DocStore.start hash (store_of []))
           [alice; bob] ltac:(vm_compute; reflexivity)
           ltac:(vm_compute; reflexivity)).
Defined.

(** C9: an internal error during the commit of a confirmation does not
    remove the entry.  The operator has chosen to remove every record of
    [alice] and confirms, while the document is the array [[1]]: the load
    returns it, [user.get] fails on the number, and the [AttributeError]
    leaves [handle_confirm_callback], which has no [try] block: the
    operator's entry stays in the table as it was.  On the same document the
    offline choice, whose commit runs inside [try ... except Exception],
    reports the error and removes the entry. *)
Theorem confirmation_error_keeps_entry :
  fst (load_users (world_with (Some "[1]") removing_all))
  = Ret (PyList [PyInt 1])
  /\ fst (handle_confirm_callback "confirm_remove_all" 7
            (world_with (Some "[1]") removing_all))
     = Raise AttributeError
  /\ user_states
       (snd (handle_confirm_callback "confirm_remove_all" 7
               (world_with (Some "[1]") removing_all))) !! 7
     = Some removing_all
  /\ ends_conversation (handle_offline_callback "offline_yes" 7) 7
       (world_with (Some "[1]") collected)
  /\ outbox (snd (handle_offline_callback "offline_yes" 7
                    (world_with (Some "[1]") collected)))
     = [ErrorText AttributeError].
Proof.
  split; [vm_compute; reflexivity|].
  split; [vm_compute; reflexivity|].
  split; [vm_compute; reflexivity|].
  split; [split; vm_compute; reflexivity|].
  vm_compute. reflexivity.
Qed.

(** Cancelling after the collection of the fields removes the entry. *)
Lemma conversation_lifecycle_witness :
  user_states (snd (button_handler cancel 7 (world_with None collected))) !! 7
  = None.
Proof.
  destruct (conversation_lifecycle (world_with None collected) 7)
    as ((_ & Hgone) & _).
  rewrite Hgone. apply lookup_delete_eq.
Defined.

End Instances.

(** * Further properties *)

(** The tactics that run a handler. *)

Ltac eval_labels :=
  repeat match goal with
         | |- context [state_is (PyStr ?a) ?b] =>
             let r := eval vm_compute in (String.eqb a b) in
             change (state_is (PyStr a) b) with r
         end;
  cbv iota.

Ltac mpure :=
  cbn [bind lift ret raise send set_states get_states rbind or_ValueError
       fst snd].

Ltac mstep := unfold try_except_only, try_except; mpure.

Ltac set_items :=
  repeat (erewrite bind_set_item
            by first [ eassumption
                     | rewrite with_states_states; apply lookup_insert_eq ]);
  rewrite ?with_states_twice, ?with_states_states, ?insert_insert_eq.

Ltac eval_strings :=
  repeat match goal with
         | |- context [String.eqb ?a ?b] =>
             let r := eval vm_compute in (String.eqb a b) in
             match r with
             | true => change (String.eqb a b) with true
             | false => change (String.eqb a b) with false
             end
         end;
  cbv iota.

(** ** Dates *)

Section Calendar_facts.
Import Text Datetime Calendar.

Lemma is_digit_value (c : ascii) :
  is_digit c = true -> 0 <= digit_value c <= 9.
Proof. unfold is_digit, digit_value. lia. Qed.

Lemma between_value (lo hi : Z) (c : ascii) :
  between lo hi c = true -> lo - 48 <= digit_value c <= hi - 48.
Proof. unfold between, digit_value. lia. Qed.

Lemma is_char_value (x c : ascii) :
  is_char x c = true -> digit_value c = digit_value x.
Proof. unfold is_char. now intros ->%Ascii.eqb_eq. Qed.

Lemma year_field_range (s rest : string) (y : Z) :
  year_field s = Some (y, rest) -> 0 <= y <= 9999.
Proof.
  unfold year_field.
  destruct s as [|a [|b [|c [|d s]]]]; try discriminate.
  destruct (is_digit a) eqn:Ha; [|discriminate].
  destruct (is_digit b) eqn:Hb; [|discriminate].
  destruct (is_digit c) eqn:Hc; [|discriminate].
  destruct (is_digit d) eqn:Hd; [|discriminate].
  apply is_digit_value in Ha, Hb, Hc, Hd. intros [= <- _]. lia.
Qed.

Lemma first_match_day_range (s rest : string) (d : Z) :
  first_match day_alternatives s = Some (d, rest) -> 1 <= d <= 31.
Proof.
  unfold day_alternatives, first_match, two_chars, one_char, space_digit.
  destruct s as [|a [|b s]]; try discriminate.
  - destruct (between 49 57 a) eqn:H; [|discriminate].
    apply between_value in H. intros [= <- _]. lia.
  - destruct (is_char "3" a && between 48 49 b) eqn:H1.
    { apply andb_prop in H1 as [Ha%is_char_value Hb%between_value].
      intros [= <- _]. rewrite Ha. change (digit_value "3") with 3. lia. }
    destruct (between 49 50 a && is_digit b) eqn:H2.
    { apply andb_prop in H2 as [Ha%between_value Hb%is_digit_value].
      intros [= <- _]. lia. }
    destruct (is_char "0" a && between 49 57 b) eqn:H3.
    { apply andb_prop in H3 as [Ha%is_char_value Hb%between_value].
      intros [= <- _]. rewrite Ha. change (digit_value "0") with 0. lia. }
    destruct (between 49 57 a) eqn:H4.
    { apply between_value in H4. intros [= <- _]. lia. }
    destruct (is_char " " a && between 49 57 b) eqn:H5; [|discriminate].
    apply andb_prop in H5 as [_ Hb%between_value]. intros [= <- _]. lia.
Qed.

Lemma month_then_day_range (s rest : string) (m d : Z) :
  month_then_day month_alternatives s = Some (m, d, rest) ->
  1 <= m <= 12 /\ 1 <= d <= 31.
Proof.
  assert (Hstep : forall (f : string -> option (Z * string)),
             (forall v r, f s = Some (v, r) -> 1 <= v <= 12) ->
             forall (tail : option (Z * Z * string)),
               (tail = Some (m, d, rest) -> 1 <= m <= 12 /\ 1 <= d <= 31) ->
               match match f s with
                     | Some (m0, s1) =>
                         match dash s1 with
                         | Some s2 =>
                             match first_match day_alternatives s2 with
                             | Some (day0, s3) => Some (m0, day0, s3)
                             | None => None
                             end
                         | None => None
                         end
                     | None => None
                     end with
               | Some r => Some r
               | None => tail
               end = Some (m, d, rest) ->
               1 <= m <= 12 /\ 1 <= d <= 31).
  { intros f Hf tail Htail.
    destruct (f s) as [[m0 s1]|] eqn:Hfs; [|exact Htail].
    destruct (dash s1) as [s2|]; [|exact Htail].
    destruct (first_match day_alternatives s2) as [[day0 s3]|] eqn:Hday;
      [|exact Htail].
    intros [= <- <- <-]. split; [now apply (Hf m0 s1)|].
    now apply first_match_day_range in Hday. }
  unfold month_alternatives, month_then_day.
  apply Hstep.
  { intros v r. unfold two_chars. destruct s as [|a [|b s']]; try discriminate.
    destruct (is_char "1" a && between 48 50 b) eqn:H; [|discriminate].
    apply andb_prop in H as [Ha%is_char_value Hb%between_value].
    intros [= <- _]. rewrite Ha. change (digit_value "1") with 1. lia. }
  apply Hstep.
  { intros v r. unfold two_chars. destruct s as [|a [|b s']]; try discriminate.
    destruct (is_char "0" a && between 49 57 b) eqn:H; [|discriminate].
    apply andb_prop in H as [Ha%is_char_value Hb%between_value].
    intros [= <- _]. rewrite Ha. change (digit_value "0") with 0. lia. }
  apply Hstep; [|discriminate].
  intros v r. unfold one_char. destruct s as [|a s']; try discriminate.
  destruct (between 49 57 a) eqn:H; [|discriminate].
  apply between_value in H. intros [= <- _]. lia.
Qed.

Lemma strptime_ymd_day (s : string) (d : date) :
  strptime_ymd s = Ret d -> calendar_day d = true.
Proof.
  unfold strptime_ymd.
  destruct (year_field s) as [[y s1]|] eqn:Hy; [|discriminate].
  destruct (dash s1) as [s2|]; [|discriminate].
  destruct (month_then_day month_alternatives s2) as [[[m dd] rest]|] eqn:Hm;
    [|discriminate].
  destruct rest; [|discriminate].
  destruct ((1 <=? y) && (dd <=? days_in_month y m)) eqn:Hc; [|discriminate].
  intros [= <-]. apply year_field_range in Hy.
  apply month_then_day_range in Hm. unfold calendar_day.
  apply andb_prop in Hc as [H1 H2]. rewrite H2.
  repeat (apply andb_true_intro; split); lia.
Qed.

(** *** Ordinals *)

Lemma days_before_year_next (y : Z) :
  days_before_year (y + 1)
  = days_before_year y + 365 + (if is_leap y then 1 else 0).
Proof.
  unfold days_before_year, is_leap. cbv zeta.
  replace (y + 1 - 1) with y by lia.
  destruct (y mod 4 =? 0) eqn:H4; destruct (y mod 100 =? 0) eqn:H100;
    destruct (y mod 400 =? 0) eqn:H400; simpl;
    rewrite ?Z.eqb_eq, ?Z.eqb_neq in *;
    Z.div_mod_to_equations; lia.
Qed.

Lemma days_before_year_mono (y y' : Z) :
  y <= y' -> days_before_year y <= days_before_year y'.
Proof.
  unfold days_before_year. cbv zeta. intros H.
  Z.div_mod_to_equations. lia.
Qed.

Lemma month_cases (m : Z) :
  1 <= m <= 12 ->
  m = 1 \/ m = 2 \/ m = 3 \/ m = 4 \/ m = 5 \/ m = 6 \/ m = 7 \/ m = 8
  \/ m = 9 \/ m = 10 \/ m = 11 \/ m = 12.
Proof. lia. Qed.

Ltac months m H :=
  destruct (month_cases m H) as
    [->|[->|[->|[->|[->|[->|[->|[->|[->|[->|[->| ->]]]]]]]]]]].

Lemma days_before_month_next (y m : Z) :
  1 <= m <= 11 ->
  days_before_month y (m + 1) = days_before_month y m + days_in_month y m.
Proof.
  intros H. assert (H' : 1 <= m <= 12) by lia.
  months m H'; try lia; unfold days_before_month, days_in_month;
    destruct (is_leap y); reflexivity.
Qed.

Lemma days_before_month_end (y : Z) :
  days_before_month y 12 + days_in_month y 12
  = 365 + (if is_leap y then 1 else 0).
Proof.
  unfold days_before_month, days_in_month. destruct (is_leap y); reflexivity.
Qed.

Lemma days_before_month_mono (y m m' : Z) :
  1 <= m -> m < m' -> m' <= 12 ->
  days_before_month y m + days_in_month y m <= days_before_month y m'.
Proof.
  intros H1 H2 H3.
  assert (Hm : 1 <= m <= 12) by lia. assert (Hm' : 1 <= m' <= 12) by lia.
  months m Hm; months m' Hm'; try lia;
    unfold days_before_month, days_in_month; destruct (is_leap y); simpl; lia.
Qed.

Lemma days_before_month_first (y : Z) : days_before_month y 1 = 0.
Proof. reflexivity. Qed.

Lemma calendar_day_bounds (y m d : Z) :
  calendar_day (y, m, d) = true ->
  1 <= y <= 9999 /\ 1 <= m <= 12 /\ 1 <= d <= days_in_month y m.
Proof. unfold calendar_day. lia. Qed.

Lemma toordinal_next_day (d : date) :
  calendar_day d = true -> toordinal (next_day d) = toordinal d + 1.
Proof.
  destruct d as [[y m] d]. intros (Hy & Hm & Hd)%calendar_day_bounds.
  unfold next_day, toordinal.
  destruct (d <? days_in_month y m) eqn:Hlast; [lia|].
  apply Z.ltb_ge in Hlast.
  destruct (m <? 12) eqn:Hdec.
  - apply Z.ltb_lt in Hdec. rewrite days_before_month_next by lia. lia.
  - apply Z.ltb_ge in Hdec. assert (m = 12) as -> by lia.
    rewrite days_before_year_next, days_before_month_first.
    pose proof (days_before_month_end y). lia.
Qed.

Lemma toordinal_later (a b : date) :
  calendar_day a = true -> calendar_day b = true ->
  later a b = true -> toordinal b < toordinal a.
Proof.
  destruct a as [[y1 m1] day1], b as [[y2 m2] day2].
  intros (Hy1 & Hm1 & Hd1)%calendar_day_bounds
         (Hy2 & Hm2 & Hd2)%calendar_day_bounds.
  unfold later, toordinal. intros H.
  assert (Hyear : forall y m d, 1 <= m <= 12 -> 1 <= d <= days_in_month y m ->
            days_before_year y < days_before_year y + days_before_month y m + d
            <= days_before_year (y + 1)).
  { intros y m d Hm Hd. rewrite days_before_year_next.
    pose proof (days_before_month_end y).
    assert (days_before_month y m + days_in_month y m
            <= days_before_month y 12 + days_in_month y 12).
    { destruct (Z.eq_dec m 12) as [->|]; [lia|].
      pose proof (days_before_month_mono y m 12).
      assert (0 <= days_in_month y 12) by (unfold days_in_month; simpl; lia).
      lia. }
    assert (0 <= days_before_month y m).
    { destruct (Z.eq_dec m 1) as [->|]; [rewrite days_before_month_first; lia|].
      pose proof (days_before_month_mono y 1 m).
      rewrite days_before_month_first in *.
      assert (0 <= days_in_month y 1) by (unfold days_in_month; simpl; lia).
      lia. }
    lia. }
  destruct (y2 <? y1) eqn:Hy.
  - apply Z.ltb_lt in Hy.
    pose proof (Hyear y2 m2 day2 Hm2 Hd2). pose proof (Hyear y1 m1 day1 Hm1 Hd1).
    pose proof (days_before_year_mono (y2 + 1) y1). lia.
  - simpl in H. apply andb_prop in H as [->%Z.eqb_eq H].
    destruct (m2 <? m1) eqn:Hm.
    + apply Z.ltb_lt in Hm.
      pose proof (days_before_month_mono y1 m2 m1). lia.
    + simpl in H. apply andb_prop in H as [->%Z.eqb_eq H]. lia.
Qed.

Lemma later_total (a b : date) :
  later a b = true \/ a = b \/ later b a = true.
Proof.
  destruct a as [[y1 m1] day1], b as [[y2 m2] day2]. unfold later.
  destruct (Z.lt_total y1 y2) as [H|[->|H]].
  - right. right. apply Z.ltb_lt in H. now rewrite H.
  - rewrite Z.ltb_irrefl, Z.eqb_refl. simpl.
    destruct (Z.lt_total m1 m2) as [H|[->|H]].
    + right. right. apply Z.ltb_lt in H. now rewrite H.
    + rewrite Z.ltb_irrefl, Z.eqb_refl. simpl.
      destruct (Z.lt_total day1 day2) as [H|[->|H]].
      * right. right. now apply Z.ltb_lt.
      * right. now left.
      * left. now apply Z.ltb_lt.
    + left. apply Z.ltb_lt in H. now rewrite H.
  - left. apply Z.ltb_lt in H. now rewrite H.
Qed.

End Calendar_facts.

Section Strptime_theorems.
Import Datetime Calendar.

(** X13: on ASCII text, the dates that [strptime] accepts with the pattern
    [%Y-%m-%d] are days of the calendar: a year from 1 to 9999, a month
    from 1 to 12, a day of that month, leap years included. *)
Theorem strptime_accepts_calendar_days (s : string) (year month day : Z) :
  strptime_ymd s = Ret (year, month, day) ->
  1 <= year <= 9999 /\ 1 <= month <= 12
  /\ 1 <= day <= days_in_month year month.
Proof. intros H%strptime_ymd_day. now apply calendar_day_bounds. Qed.

(** The library of the examples reads the dates that [strptime_ymd] reads:
    its test of the day rejects nothing. *)
Lemma ascii_strptime_ymd (s : string) :
  Example.ascii_strptime s =
  match strptime_ymd s with
  | Ret d => Some d
  | Raise _ => None
  end.
Proof.
  unfold Example.ascii_strptime.
  destruct (strptime_ymd s) as [d|e] eqn:Hs; [|reflexivity].
  now rewrite (strptime_ymd_day _ _ Hs).
Qed.

End Strptime_theorems.

Section Days_left_facts.
Import Calendar.
Context {L : Library}.

Lemma get_days_left_positive (today : date) (v : pyval) :
  calendar_day today = true ->
  0 < get_days_left today v <-> expires_after today v.
Proof.
  intros Htoday. unfold get_days_left, expires_after. split.
  - destruct v as [| | |s| |]; simpl; try lia.
    destruct (strptime s) as [d|] eqn:Hs; simpl; [|lia].
    intros Hpos. exists s, d. split; [reflexivity|]. split; [exact Hs|].
    pose proof (strptime_day _ _ Hs) as Hd.
    destruct (later_total d today) as [H|[H|H]]; [exact H|subst; lia|].
    pose proof (toordinal_later today d Htoday Hd H). lia.
  - intros (s & d & -> & Hs & Hl). rewrite Hs. simpl.
    pose proof (strptime_day _ _ Hs) as Hd.
    pose proof (toordinal_later d today Hd Htoday Hl). lia.
Qed.

(** X14: for a text that [strptime] accepts, [get_days_left] is positive
    exactly when the date is later than today, and zero exactly on the day
    itself: the list marks an account as active until the day before its
    expiry date. *)
Theorem days_left_sign (today : date) (s : string) (expire_date : date) :
  calendar_day today = true ->
  strptime s = Some expire_date ->
  (0 < get_days_left today (PyStr s) <-> later expire_date today = true)
  /\ (get_days_left today (PyStr s) = 0 <-> expire_date = today).
Proof.
  intros Htoday Hs. pose proof (strptime_day _ _ Hs) as Hd.
  unfold get_days_left. rewrite Hs. simpl.
  pose proof (toordinal_later expire_date today Hd Htoday) as Hafter.
  pose proof (toordinal_later today expire_date Htoday Hd) as Hbefore.
  assert (Hirrefl : later today today = false).
  { destruct (later today today) eqn:Hl; [|reflexivity].
    pose proof (toordinal_later today today Htoday Htoday Hl). lia. }
  destruct (later_total expire_date today) as [H|[H|H]].
  - specialize (Hafter H). split; split.
    + intros _. exact H.
    + lia.
    + lia.
    + intros Heq. subst. congruence.
  - subst. split; split.
    + lia.
    + congruence.
    + reflexivity.
    + lia.
  - specialize (Hbefore H). split; split.
    + lia.
    + intros Hl. specialize (Hafter Hl). lia.
    + lia.
    + intros Heq. subst. congruence.
Qed.

(** X15: [get_days_left] counts days of the calendar: an expiry one day
    later gives one day more, across the ends of months and years. *)
Theorem days_left_counts_days (today : date) (s s' : string) (d : date) :
  strptime s = Some d ->
  strptime s' = Some (next_day d) ->
  get_days_left today (PyStr s') = get_days_left today (PyStr s) + 1.
Proof.
  intros Hs Hs'. pose proof (strptime_day _ _ Hs) as Hd.
  unfold get_days_left. rewrite Hs, Hs'. simpl.
  rewrite (toordinal_next_day _ Hd). lia.
Qed.

End Days_left_facts.

(** ** Random names *)

Section Random_facts.
Import Random.

Lemma get_every (p : ascii -> bool) (seq : string) (i : nat) (c : ascii) :
  every p seq = true -> String.get i seq = Some c -> p c = true.
Proof.
  revert i. induction seq as [|a seq IH]; intros i; [discriminate|].
  simpl. intros [Ha Hrest]%andb_prop. destruct i; [now intros [= <-]|].
  now apply IH.
Qed.

Lemma get_in_range (seq : string) (i : nat) :
  (i < String.length seq)%nat -> exists c, String.get i seq = Some c.
Proof.
  revert i. induction seq as [|a seq IH]; intros i; simpl; [lia|].
  destruct i; [eauto|]. intros H. apply IH. lia.
Qed.

Lemma choice_returns (p : ascii -> bool) (seq : string) (r : nat) :
  every p seq = true -> seq <> EmptyString ->
  exists c, choice seq r = Ret c /\ p c = true.
Proof.
  intros Hp Hne. unfold choice.
  destruct (get_in_range seq (r mod String.length seq)) as [c Hc].
  { apply Nat.mod_upper_bound. destruct seq; [congruence|simpl; lia]. }
  rewrite Hc. eauto using get_every.
Qed.

Lemma choices_returns (p : ascii -> bool) (seq : string) (draws : nat -> nat)
    (k n : nat) :
  every p seq = true -> seq <> EmptyString ->
  exists s, choices seq draws k n = Ret s
            /\ String.length s = n /\ every p s = true.
Proof.
  intros Hp Hne. revert k. induction n as [|n IH]; intros k; simpl.
  - exists EmptyString. auto.
  - destruct (choice_returns p seq (draws k) Hp Hne) as (c & -> & Hc).
    destruct (IH (S k)) as (s & -> & Hlen & Hs). simpl.
    exists (String c s). simpl. rewrite Hc, Hs, Hlen. auto.
Qed.

(** X16: [generate_random_password] always returns; the password has the
    length asked for, capped at 4 and empty for a negative length, and is
    made of ASCII letters and digits only. *)
Theorem random_password_shape (draws : nat -> nat) (length : Z) :
  exists password,
    generate_random_password draws length = Ret password
    /\ String.length password = Z.to_nat (Z.min length 4)
    /\ every is_alphanumeric password = true.
Proof.
  unfold generate_random_password.
  destruct (choices_returns is_alphanumeric (ascii_letters +:+ digits) draws 0
              (Z.to_nat (if 4 <? length then 4 else length)))
    as (s & Hs & Hlen & Hp); [reflexivity|discriminate|].
  exists s. split; [exact Hs|]. split; [|exact Hp].
  rewrite Hlen. destruct (4 <? length) eqn:H; lia.
Qed.

(** X17: [generate_random_username] always returns [wolf_] followed by
    three characters, each a lower-case ASCII letter or a digit. *)
Theorem random_username_shape (draws : nat -> nat) :
  exists suffix,
    generate_random_username draws = Ret ("wolf_" +:+ suffix)
    /\ String.length suffix = 3%nat
    /\ every is_lower_or_digit suffix = true.
Proof.
  unfold generate_random_username. simpl Z.leb. cbv iota.
  destruct (choices_returns is_lower_or_digit (ascii_lowercase +:+ digits) draws 0
              (Z.to_nat (8 - Z.of_nat (String.length "wolf_"))))
    as (s & Hs & Hlen & Hp); [reflexivity|discriminate|].
  exists s. rewrite Hs. auto.
Qed.

End Random_facts.

(** ** The gateway, further *)

Section Gateway_requests.
Context {E : Env}.

(** X1: whatever the store answers, [load_users] sends one request, the
    [GET] of the raw content, and nothing else: it writes nothing to the
    store and leaves the table of conversations and the replies as they
    were. *)
Theorem load_users_only_reads (w : world) :
  let after := snd (load_users w) in
  trace after = GET RawContent :: trace w
  /\ remote after = snd (respond (remote w) (GET RawContent))
  /\ user_states after = user_states w
  /\ outbox after = outbox w.
Proof. cbv zeta. destruct (load_users_frame w) as (? & ? & ? & ? & ?). auto. Qed.

(** What [load_users] returns has a length. *)
Lemma load_users_sized (w : world) (v : pyval) :
  fst (load_users w) = Ret v -> sized v = true.
Proof.
  rewrite load_users_unfold.
  destruct (respond (remote w) (GET RawContent)) as [[r|e] st]; simpl;
    [|now intros [= <-]].
  destruct (status_code r =? 200); [|now intros [= <-]].
  destruct (json_loads (text r)) as [[| | | |l|d]|e]; simpl;
    try (now intros [= <-]).
  destruct (dict_lookup "users" d) as [[| | | | |]|]; simpl; now intros [= <-].
Qed.


(** X3: with the JSON text of [json.dumps(indent=2)], the content of the
    [PUT] that [save_users] sends decodes from base64 to that text, which
    [json.loads] reads back as the collection saved. *)
Theorem saved_content_decodes (users : pyval) (w : world)
    (body : commit_data) (earlier : list request) :
  json_dumps users = Ret (Json.dumps users) ->
  wf users = true ->
  trace (snd (save_users users w)) = PUT body :: earlier ->
  Base64.b64decode (content body) = Some (Json.dumps users)
  /\ Json.loads (Json.dumps users) = Ret users.
Proof.
  intros Hd Hwf. rewrite save_users_unfold.
  intros H. split; [|now apply JsonFacts.loads_dumps].
  revert H.
  destruct (respond (remote w) (GET JsonMetadata)) as [[r|e] st]; simpl;
    [|discriminate].
  destruct (status_code r =? 200); [|discriminate].
  destruct (response_json r) as [metadata|e]; simpl; [|discriminate].
  destruct (py_get_default metadata "sha" (PyStr "")) as [sha|e];
    simpl; [|discriminate].
  destruct (py_sliceable sha) as [[]|e]; simpl; [|discriminate].
  rewrite Hd. simpl.
  destruct (Utf8.encode (Json.dumps users)) as [encoded|e] eqn:He; simpl;
    [|discriminate].
  apply encode_returns in He. subst encoded.
  destruct (py_len users) as [count|e]; simpl; [|discriminate].
  destruct (respond st (PUT _)) as [[p|e] st']; simpl;
    intros [= <- _]; apply Base64Facts.b64decode_b64encode.
Qed.

End Gateway_requests.

(** ** The handlers, further *)

Section Handler_facts.
Context {E : Env} {L : Library}.

(** *** The steps that collect a field *)

Lemma collect_step_run (w : world) (user_id : Z) (entry : gmap string pyval)
    (update_text : string) :
  user_states w !! user_id = Some entry ->
  (entry !! "state" = Some (PyStr "awaiting_device_id") ->
   handle_message user_id update_text w =
   (Ret tt,
    with_reply
      (with_states w
         (<[user_id := <["state" := PyStr "awaiting_username"]>
                         (<["device_id" := PyStr (strip update_text)]> entry)]>
            (user_states w)))
      AskUsername))
  /\ (entry !! "state" = Some (PyStr "awaiting_username") ->
      handle_message user_id update_text w =
      (Ret tt,
       with_reply
         (with_states w
            (<[user_id := <["state" := PyStr "awaiting_password"]>
                            (<["username" := PyStr (strip update_text)]> entry)]>
               (user_states w)))
         AskPassword))
  /\ (entry !! "state" = Some (PyStr "awaiting_password") ->
      handle_message user_id update_text w =
      (Ret tt,
       with_reply
         (with_states w
            (<[user_id := <["state" := PyStr "awaiting_expiration"]>
                            (<["password" := PyStr (strip update_text)]> entry)]>
               (user_states w)))
         AskExpiration)).
Proof.
  intros Ht. repeat split; intros Hs; unfold handle_message; mpure; rewrite Ht;
    unfold item; rewrite Hs; mpure; eval_labels; set_items; reflexivity.
Qed.

Lemma collected_entry_eq (d u p : string) :
  <["state" := PyStr "awaiting_expiration"]>
    (<["password" := PyStr p]>
       (<["state" := PyStr "awaiting_password"]>
          (<["username" := PyStr u]>
             (<["state" := PyStr "awaiting_username"]>
                (<["device_id" := PyStr d]>
                   ({["state" := PyStr "awaiting_device_id"]}
                      : gmap string pyval))))))
  = collected_entry d u p.
Proof.
  unfold collected_entry. apply map_eq. intros k.
  destruct (decide (k = "state")) as [->|Hs].
  { rewrite lookup_insert_eq. rewrite !lookup_insert_ne by discriminate.
    now rewrite lookup_singleton_eq. }
  rewrite (lookup_insert_ne _ "state" k) by congruence.
  destruct (decide (k = "password")) as [->|Hp].
  { now rewrite !lookup_insert_eq. }
  rewrite !(lookup_insert_ne _ "password" k) by congruence.
  rewrite (lookup_insert_ne _ "state" k) by congruence.
  destruct (decide (k = "username")) as [->|Hu].
  { now rewrite !lookup_insert_eq. }
  rewrite !(lookup_insert_ne _ "username" k) by congruence.
  rewrite (lookup_insert_ne _ "state" k) by congruence.
  destruct (decide (k = "device_id")) as [->|Hd].
  { now rewrite !lookup_insert_eq. }
  rewrite !(lookup_insert_ne _ "device_id" k) by congruence.
  now rewrite !lookup_singleton_ne by congruence.
Qed.

(** The three answers after a start. *)
Lemma collect_three_run (w : world) (user_id : Z) (d u p : string) :
  user_states w !! user_id = Some {["state" := PyStr "awaiting_device_id"]} ->
  (handle_message user_id d ;;; handle_message user_id u ;;;
   handle_message user_id p) w
  = (Ret tt,
     World (<[user_id := collected_entry (strip d) (strip u) (strip p)]>
              (user_states w))
       (remote w) (trace w) (clock w)
       (outbox w ++ [AskUsername; AskPassword; AskExpiration])).
Proof.
  intros Ht.
  destruct (collect_step_run w user_id _ d Ht) as (H1 & _ & _).
  rewrite (bind_run _ _ _ _ _ (H1 ltac:(apply lookup_singleton_eq))).
  set (w1 := with_reply _ _).
  assert (Ht1 : user_states w1 !! user_id =
                Some (<["state" := PyStr "awaiting_username"]>
                        (<["device_id" := PyStr (strip d)]>
                           {["state" := PyStr "awaiting_device_id"]})))
    by (simpl; apply lookup_insert_eq).
  destruct (collect_step_run w1 user_id _ u Ht1) as (_ & H2 & _).
  rewrite (bind_run _ _ _ _ _ (H2 ltac:(apply lookup_insert_eq))).
  set (w2 := with_reply _ _).
  assert (Ht2 : user_states w2 !! user_id =
                Some (<["state" := PyStr "awaiting_password"]>
                        (<["username" := PyStr (strip u)]>
                           (<["state" := PyStr "awaiting_username"]>
                              (<["device_id" := PyStr (strip d)]>
                                 {["state" := PyStr "awaiting_device_id"]})))))
    by (simpl; apply lookup_insert_eq).
  destruct (collect_step_run w2 user_id _ p Ht2) as (_ & _ & H3).
  rewrite (H3 ltac:(apply lookup_insert_eq)).
  f_equal. unfold with_reply, with_states. simpl.
  rewrite !insert_insert_eq, collected_entry_eq, <- !app_assoc. reflexivity.
Qed.

(** X5: started by the command or by the button, the add conversation
    followed by three texts holds exactly the three texts, stripped, as
    device id, username and password, and waits for the expiry date; the
    entry replaces whatever entry the operator had, and no request is sent
    to the store. *)
Theorem add_flow_collects (w : world) (user_id : Z) (d u p : string) :
  let answers :=
    handle_message user_id d ;;; handle_message user_id u ;;;
    handle_message user_id p in
  let entry := collected_entry (strip d) (strip u) (strip p) in
  let collected (after : result unit * world) :=
    fst after = Ret tt
    /\ user_states (snd after) = <[user_id := entry]> (user_states w)
    /\ trace (snd after) = trace w
    /\ remote (snd after) = remote w in
  collected ((add_user_command user_id ;;; answers) w)
  /\ collected ((button_handler add_user user_id ;;; answers) w).
Proof.
  cbv zeta. split.
  - unfold add_user_command, set_entry. mpure.
    rewrite collect_three_run by (simpl; apply lookup_insert_eq).
    simpl. rewrite insert_insert_eq. auto.
  - unfold button_handler, set_entry. mpure.
    rewrite collect_three_run by (simpl; apply lookup_insert_eq).
    simpl. rewrite insert_insert_eq. auto.
Qed.

(** *** Text that is not awaited *)

(** A text in a state that awaits none. *)
Lemma ignored_text_run (w : world) (user_id : Z)
    (entry : gmap string pyval) (label update_text : string) :
  user_states w !! user_id = Some entry ->
  entry !! "state" = Some (PyStr label) ->
  awaits_text label = false ->
  handle_message user_id update_text w = (Ret tt, w).
Proof.
  intros Ht Hs Hl. unfold handle_message. mpure. rewrite Ht.
  unfold item. rewrite Hs. mpure. rewrite !state_is_str.
  unfold awaits_text in Hl. simpl in Hl.
  repeat match type of Hl with
         | (_ || _) = false => apply orb_false_elim in Hl as [? Hl]
         end.
  repeat match goal with
         | H : String.eqb label ?x = false |- _ => rewrite H; clear H
         end.
  reflexivity.
Qed.

(** X6: a text sent while the conversation waits for a button (the offline
    choice or a confirmation), or in any state that is not one of the six
    that await a text, is ignored without a reply: the world is unchanged,
    and so it is after any further text. *)
Theorem text_ignored_while_button_awaited (w : world) (user_id : Z)
    (entry : gmap string pyval) (label update_text : string) :
  user_states w !! user_id = Some entry ->
  entry !! "state" = Some (PyStr label) ->
  awaits_text label = false ->
  handle_message user_id update_text w = (Ret tt, w)
  /\ (forall again, handle_message user_id again
                      (snd (handle_message user_id update_text w)) = (Ret tt, w)).
Proof.
  intros Ht Hs Hl.
  rewrite (ignored_text_run _ _ _ _ update_text Ht Hs Hl).
  split; [reflexivity|]. intros again. simpl snd.
  eapply ignored_text_run; eassumption.
Qed.

(** *** The choice among several matches *)

(** A number that names no candidate. *)
Lemma invalid_choice_run (w : world) (user_id : Z)
    (entry : gmap string pyval) (update_text : string) (matching : list pyval)
    (number : Z) :
  user_states w !! user_id = Some entry ->
  entry !! "state" = Some (PyStr "awaiting_remove_choice") ->
  entry !! "matching_users" = Some (PyList matching) ->
  let choice := lower (strip update_text) in
  choice <> "all" ->
  isdigit choice = true ->
  int choice = Some number ->
  number < 1 \/ Z.of_nat (length matching) < number ->
  handle_message user_id update_text w = (Ret tt, with_reply w InvalidChoice).
Proof.
  intros Ht Hs Hm choice Hall Hdigit Hint Hrange. apply String.eqb_neq in Hall.
  unfold handle_message. fold choice. mpure. rewrite Ht.
  unfold item. rewrite Hs. mpure. eval_labels. cbv zeta.
  rewrite Hall, Hdigit, Hint. mpure.
  rewrite (bind_get_item _ _ _ _ _ _ Ht Hm). simpl py_len. mpure.
  replace ((0 <=? number - 1)
           && (number - 1 <? Z.of_nat (length matching))) with false
    by (symmetry; apply andb_false_iff; rewrite Z.leb_gt, Z.ltb_ge; lia).
  reflexivity.
Qed.

(** A text that is neither a number nor [all]. *)
Lemma invalid_input_run (w : world) (user_id : Z)
    (entry : gmap string pyval) (update_text : string) :
  user_states w !! user_id = Some entry ->
  entry !! "state" = Some (PyStr "awaiting_remove_choice") ->
  let choice := lower (strip update_text) in
  isdigit choice = false -> choice <> "all" ->
  handle_message user_id update_text w = (Ret tt, with_reply w InvalidInput).
Proof.
  intros Ht Hs choice Hdigit Hall. apply String.eqb_neq in Hall.
  unfold handle_message. fold choice. mpure. rewrite Ht.
  unfold item. rewrite Hs. mpure. eval_labels. cbv zeta.
  now rewrite Hall, Hdigit.
Qed.

(** A text that [isdigit] accepts and [int] cannot read: the [ValueError]
    of [int] leaves the handler, before anything is read or written. *)
Lemma unreadable_choice_run (w : world) (user_id : Z)
    (entry : gmap string pyval) (update_text : string) :
  user_states w !! user_id = Some entry ->
  entry !! "state" = Some (PyStr "awaiting_remove_choice") ->
  unreadable_choice update_text ->
  handle_message user_id update_text w = (Raise ValueError, w).
Proof.
  intros Ht Hs (Hall & Hdigit & Hint). apply String.eqb_neq in Hall.
  unfold handle_message. mpure. rewrite Ht.
  unfold item. rewrite Hs. mpure. eval_labels. cbv zeta.
  now rewrite Hall, Hdigit, Hint.
Qed.

(** X7: in [awaiting_remove_choice], for a text that, stripped and in lower
    case, is not [all]: when [isdigit] accepts it and [int] reads a number
    below 1 or above the number of candidates, the answer is the
    invalid-choice message; when [isdigit] rejects it, the answer is the
    invalid-input message; in both cases the conversation stays as it was
    and no request is sent.  When [isdigit] accepts it and [int] cannot
    read it, the handler raises the [ValueError] of [int] and the world is
    as it was: no message is sent. *)
Theorem remove_choice_rejects (w : world) (user_id : Z)
    (entry : gmap string pyval) (update_text : string) (matching : list pyval) :
  user_states w !! user_id = Some entry ->
  entry !! "state" = Some (PyStr "awaiting_remove_choice") ->
  entry !! "matching_users" = Some (PyList matching) ->
  let choice := lower (strip update_text) in
  choice <> "all" ->
  (isdigit choice = true ->
   forall number, int choice = Some number ->
   number < 1 \/ Z.of_nat (length matching) < number ->
   handle_message user_id update_text w = (Ret tt, with_reply w InvalidChoice))
  /\ (isdigit choice = false ->
      handle_message user_id update_text w = (Ret tt, with_reply w InvalidInput))
  /\ (isdigit choice = true -> int choice = None ->
      handle_message user_id update_text w = (Raise ValueError, w)).
Proof.
  intros Ht Hs Hm choice Hall. split; [|split].
  - intros Hdigit number Hint Hrange. eapply invalid_choice_run; eassumption.
  - intros Hdigit. eapply invalid_input_run; eassumption.
  - intros Hdigit Hint. eapply unreadable_choice_run; try eassumption.
    now split.
Qed.

(** *** Back to the menu *)

Lemma menu_run (w : world) (user_id : Z) :
  handle_confirm_callback "menu" user_id w
  = (Ret tt,
     World (delete user_id (user_states w)) (remote w) (trace w) (clock w)
       (outbox w ++ [WelcomeMenu])).
Proof.
  unfold handle_confirm_callback. mpure. eval_strings. mpure.
  rewrite with_reply_states.
  destruct (user_states w !! user_id) eqn:Ht; [reflexivity|]. simpl.
  unfold with_reply. now rewrite (delete_id _ _ Ht).
Qed.

(** X8: the [menu] button sends the welcome menu and removes the operator's
    entry, whatever its state, without a request to the store; a text sent
    after it gets the use-the-menu prompt. *)
Theorem menu_ends_conversation (w : world) (user_id : Z) :
  let after := snd (handle_confirm_callback "menu" user_id w) in
  ends_conversation (handle_confirm_callback "menu" user_id) user_id w
  /\ outbox after = outbox w ++ [WelcomeMenu]
  /\ trace after = trace w
  /\ remote after = remote w
  /\ (forall update_text,
        handle_message user_id update_text after
        = (Ret tt, with_reply after MenuHint)).
Proof.
  cbv zeta. unfold ends_conversation. rewrite menu_run. simpl.
  split; [split; reflexivity|]. repeat (split; [reflexivity|]).
  intros update_text.
  unfold handle_message. mpure. cbn [user_states]. now rewrite lookup_delete_eq.
Qed.

End Handler_facts.

Section Frame_facts.
Context {E : Env} {L : Library}.

(** *** The entries of the other operators *)

Lemma keeps_ret {A} (u : Z) (a : A) : keeps_others u (ret a).
Proof. now intros w other _. Qed.

Lemma keeps_raise {A} (u : Z) (e : exn) : keeps_others u (@raise E A e).
Proof. now intros w other _. Qed.

Lemma keeps_lift {A} (u : Z) (r : result A) : keeps_others u (lift r).
Proof. now intros w other _. Qed.

Lemma keeps_get_states (u : Z) : keeps_others u get_states.
Proof. now intros w other _. Qed.

Lemma keeps_send (u : Z) (r : reply) : keeps_others u (send r).
Proof. now intros w other _. Qed.

Lemma keeps_bind {A B} (u : Z) (m : M A) (k : A -> M B) :
  keeps_others u m -> (forall a, keeps_others u (k a)) ->
  keeps_others u (bind m k).
Proof.
  intros Hm Hk w other Ho. unfold bind. specialize (Hm w other Ho).
  destruct (m w) as [[a|e] w']; simpl in *; [|exact Hm].
  now rewrite (Hk a w' other Ho).
Qed.

Lemma keeps_try_except {A} (u : Z) (body : M A) (handler : exn -> M A) :
  keeps_others u body -> (forall e, keeps_others u (handler e)) ->
  keeps_others u (try_except body handler).
Proof.
  intros Hm Hk w other Ho. unfold try_except. specialize (Hm w other Ho).
  destruct (body w) as [[a|e] w']; simpl in *; [exact Hm|].
  now rewrite (Hk e w' other Ho).
Qed.

Lemma keeps_try_except_only {A} (u : Z) (cls : exn -> bool) (body handler : M A) :
  keeps_others u body -> keeps_others u handler ->
  keeps_others u (try_except_only cls body handler).
Proof.
  intros Hb Hh. apply keeps_try_except; [exact Hb|].
  intros e. destruct (cls e); [exact Hh|apply keeps_raise].
Qed.

Lemma keeps_set_entry (u : Z) (entry : gmap string pyval) :
  keeps_others u (set_entry u entry).
Proof. intros w other Ho. simpl. now apply lookup_insert_ne. Qed.

Lemma keeps_pop_entry (u : Z) : keeps_others u (pop_entry u).
Proof. intros w other Ho. simpl. now apply lookup_delete_ne. Qed.

Lemma keeps_set_item (u : Z) (key : string) (v : pyval) :
  keeps_others u (set_item u key v).
Proof.
  intros w other Ho. unfold set_item, bind, get_states.
  destruct (user_states w !! u); simpl; [|reflexivity].
  now apply lookup_insert_ne.
Qed.

Lemma keeps_get_item (u : Z) (key : string) : keeps_others u (get_item u key).
Proof.
  intros w other Ho. unfold get_item, bind, get_states.
  now destruct (user_states w !! u).
Qed.

Lemma keeps_load_users (u : Z) : keeps_others u load_users.
Proof.
  intros w other _. destruct (load_users_frame w) as (H & _). now rewrite H.
Qed.

Lemma keeps_save_users (u : Z) (users : pyval) : keeps_others u (save_users users).
Proof.
  intros w other _. destruct (save_users_frame users w) as (H & _).
  now rewrite H.
Qed.

Ltac keeps :=
  repeat first
    [ apply keeps_ret | apply keeps_raise | apply keeps_lift | apply keeps_send
    | apply keeps_get_states | apply keeps_set_entry | apply keeps_pop_entry
    | apply keeps_set_item | apply keeps_get_item
    | apply keeps_load_users | apply keeps_save_users
    | apply keeps_try_except_only
    | apply keeps_try_except; [|intros ?]
    | apply keeps_bind; [|intros ?]
    | match goal with
      | |- keeps_others _ (if ?b then _ else _) => destruct b
      | |- keeps_others _ (match ?x with _ => _ end) => destruct x
      end ].

(** X9: a handler run for one operator never touches the entry of another
    one, whatever the store answers and whether it returns or raises. *)
Theorem handlers_keep_other_entries (user_id : Z) :
  (forall data, keeps_others user_id (button_handler data user_id))
  /\ keeps_others user_id (add_user_command user_id)
  /\ keeps_others user_id (remove_user_command user_id)
  /\ (forall update_text, keeps_others user_id (handle_message user_id update_text))
  /\ (forall data, keeps_others user_id (handle_offline_callback data user_id))
  /\ (forall data, keeps_others user_id (handle_confirm_callback data user_id)).
Proof.
  split; [|split; [|split; [|split; [|split]]]].
  - intros data. unfold button_handler. destruct data; keeps.
  - unfold add_user_command. keeps.
  - unfold remove_user_command. keeps.
  - intros update_text. unfold handle_message. cbv zeta. keeps.
  - intros data. unfold handle_offline_callback. keeps.
  - intros data. unfold handle_confirm_callback. keeps.
Qed.

(** *** The requests *)

Lemma quiet_ret {A} (a : A) : quiet (ret a).
Proof. now intros w. Qed.

Lemma quiet_raise {A} (e : exn) : quiet (@raise E A e).
Proof. now intros w. Qed.

Lemma quiet_lift {A} (r : result A) : quiet (lift r).
Proof. now intros w. Qed.

Lemma quiet_get_states : quiet get_states.
Proof. now intros w. Qed.

Lemma quiet_send (r : reply) : quiet (send r).
Proof. now intros w. Qed.

Lemma quiet_bind {A B} (m : M A) (k : A -> M B) :
  quiet m -> (forall a, quiet (k a)) -> quiet (bind m k).
Proof.
  intros Hm Hk w. unfold bind. specialize (Hm w).
  destruct (m w) as [[a|e] w']; simpl in *; [|exact Hm].
  destruct (Hk a w') as [H1 H2]. destruct Hm as [H3 H4]. split; congruence.
Qed.

Lemma quiet_try_except {A} (body : M A) (handler : exn -> M A) :
  quiet body -> (forall e, quiet (handler e)) -> quiet (try_except body handler).
Proof.
  intros Hm Hk w. unfold try_except. specialize (Hm w).
  destruct (body w) as [[a|e] w']; simpl in *; [exact Hm|].
  destruct (Hk e w') as [H1 H2]. destruct Hm as [H3 H4]. split; congruence.
Qed.

Lemma quiet_try_except_only {A} (cls : exn -> bool) (body handler : M A) :
  quiet body -> quiet handler -> quiet (try_except_only cls body handler).
Proof.
  intros Hb Hh. apply quiet_try_except; [exact Hb|].
  intros e. destruct (cls e); [exact Hh|apply quiet_raise].
Qed.

Lemma quiet_set_entry (u : Z) (entry : gmap string pyval) : quiet (set_entry u entry).
Proof. now intros w. Qed.

Lemma quiet_pop_entry (u : Z) : quiet (pop_entry u).
Proof. now intros w. Qed.

Lemma quiet_set_item (u : Z) (key : string) (v : pyval) : quiet (set_item u key v).
Proof.
  intros w. unfold set_item, bind, get_states. now destruct (user_states w !! u).
Qed.

Lemma quiet_get_item (u : Z) (key : string) : quiet (get_item u key).
Proof.
  intros w. unfold get_item, bind, get_states. now destruct (user_states w !! u).
Qed.

Ltac quiets :=
  repeat first
    [ apply quiet_ret | apply quiet_raise | apply quiet_lift | apply quiet_send
    | apply quiet_get_states | apply quiet_set_entry | apply quiet_pop_entry
    | apply quiet_set_item | apply quiet_get_item
    | apply quiet_try_except_only
    | apply quiet_try_except; [|intros ?]
    | apply quiet_bind; [|intros ?]
    | match goal with
      | |- quiet (if ?b then _ else _) => destruct b
      | |- quiet (match ?x with _ => _ end) => destruct x
      end ].

Lemma reads_of_quiet {A} (m : M A) : quiet m -> reads_at_most m.
Proof. intros H w. left. apply H. Qed.

Lemma reads_after_quiet {A B} (m : M A) (k : A -> M B) :
  quiet m -> (forall a, reads_at_most (k a)) -> reads_at_most (bind m k).
Proof.
  intros Hm Hk w. unfold bind. destruct (Hm w) as [Ht _].
  destruct (m w) as [[a|e] w']; simpl in *; [|now left].
  rewrite <- Ht. apply Hk.
Qed.

Lemma reads_load_users {B} (k : pyval -> M B) :
  (forall a, quiet (k a)) -> reads_at_most (bind load_users k).
Proof.
  intros Hk w. right. unfold bind.
  destruct (load_users_frame w) as (_ & _ & _ & Ht & _).
  destruct (load_users w) as [[a|e] w']; simpl in *; [|exact Ht].
  destruct (Hk a w') as [H _]. congruence.
Qed.

(** X10: a text message never writes to the store: the only request
    [handle_message] can send is the [GET] of a load, and at most one. *)
Theorem text_never_writes (user_id : Z) (update_text : string) (w : world) :
  let after := snd (handle_message user_id update_text w) in
  trace after = trace w \/ trace after = GET RawContent :: trace w.
Proof.
  cbv zeta. revert w. change (reads_at_most (handle_message user_id update_text)).
  unfold handle_message. cbv zeta.
  apply reads_after_quiet; [quiets|]. intros t.
  destruct (t !! user_id) as [entry|]; [|apply reads_of_quiet; quiets].
  apply reads_after_quiet; [quiets|]. intros state.
  repeat match goal with
         | |- reads_at_most (if state_is state ?l then _ else _) =>
             destruct (state_is state l)
         end;
    try (apply reads_of_quiet; solve [quiets]).
  apply reads_load_users. intros users. quiets.
Qed.

End Frame_facts.

(** ** The views *)

Section View_facts.
Context {E : Env} {L : Library}.

(** The list is built from the loaded collection alone. *)
Lemma list_users_command_run (today : Calendar.date) (w : world) (users : pyval) :
  fst (load_users w) = Ret users ->
  list_users_command today w =
  (if negb (py_truthy users) then Ret NoUsersYet
   else
     rbind (py_len users) (fun total =>
     rbind (py_iter users) (fun all_users =>
     rbind (user_rows today 1 all_users) (fun rows =>
     Ret (ApprovedUsers total rows)))),
   snd (load_users w)).
Proof.
  intros Hl. unfold list_users_command. rewrite (bind_load_users _ _ _ Hl).
  destruct (negb (py_truthy users)); [reflexivity|].
  destruct (py_len users) as [total|e]; mpure; [|reflexivity].
  destruct (py_iter users) as [all_users|e]; mpure; [|reflexivity].
  destruct (user_rows today 1 all_users) as [rows|e]; reflexivity.
Qed.

(** X18: [list_users_command] sends one request, the [GET] of the raw
    content, and leaves the table of conversations as it was, whether it
    returns or raises. *)
Theorem list_users_only_reads (today : Calendar.date) (w : world) :
  let after := snd (list_users_command today w) in
  trace after = GET RawContent :: trace w
  /\ remote after = snd (respond (remote w) (GET RawContent))
  /\ user_states after = user_states w
  /\ outbox after = outbox w.
Proof.
  cbv zeta. destruct (load_users_returns w) as [users Hl].
  rewrite (list_users_command_run _ _ _ Hl). simpl snd.
  destruct (load_users_frame w) as (? & ? & ? & ? & ?). auto.
Qed.

Lemma user_row_of_record (today : Calendar.date) (i : Z) (user : pyval) :
  is_dict user = true ->
  user_row_of today i user =
  Ret (UserRow i
         (0 <? get_days_left today (shown user "expiresAt" (PyStr DEFAULT_DATE)))
         (shown user "id" (PyStr "N/A"))
         (shown user "username" (PyStr "N/A"))
         (shown user "password" (PyStr "N/A"))
         (shown user "expiresAt" (PyStr DEFAULT_DATE))
         (get_days_left today (shown user "expiresAt" (PyStr DEFAULT_DATE)))
         (shown user "allowOffline" (PyBool false))).
Proof. destruct user; try discriminate. reflexivity. Qed.

Lemma user_rows_records (today : Calendar.date) (users : list pyval) :
  forallb is_dict users = true ->
  forall i, exists rows,
    user_rows today i users = Ret rows
    /\ length rows = length users
    /\ forall (k : nat) (user : pyval),
         nth_error users k = Some user ->
         exists row, nth_error rows k = Some row
                     /\ user_row_of today (i + Z.of_nat k) user = Ret row.
Proof.
  induction users as [|u users IH]; intros Hd i.
  - exists []. repeat split. intros [|k] user; discriminate.
  - simpl in Hd. apply andb_prop in Hd as [Hu Hrest].
    destruct (IH Hrest (i + 1)) as (rows & Hrows & Hlen & Hnth).
    simpl user_rows. rewrite (user_row_of_record _ _ _ Hu), Hrows. simpl.
    eexists. split; [reflexivity|]. split; [simpl; now rewrite Hlen|].
    intros [|k] user; simpl nth_error.
    + intros [= <-]. eexists. split; [reflexivity|].
      rewrite Z.add_0_r. apply (user_row_of_record _ _ _ Hu).
    + intros Hk. destruct (Hnth k user Hk) as (row & Hrow & Hof).
      exists row. split; [exact Hrow|].
      replace (i + Z.of_nat (S k)) with (i + 1 + Z.of_nat k) by lia.
      exact Hof.
Qed.

(** X19: on a loaded collection of records, [list_users_command] shows
    [No approved users yet] when the collection is empty, and otherwise the
    total and one row per record, in the order of the collection and
    numbered from 1; each row shows the fields of its record, with [N/A] for
    a missing id, username or password, the default date for a missing
    expiry and [False] for a missing offline flag, and is marked active
    exactly when its expiry is the text of a date later than today. *)
Theorem list_users_rows (today : Calendar.date) (w : world) (users : list pyval) :
  calendar_day today = true ->
  fst (load_users w) = Ret (PyList users) ->
  forallb is_dict users = true ->
  match users with
  | [] => fst (list_users_command today w) = Ret NoUsersYet
  | _ =>
      exists rows,
        fst (list_users_command today w)
        = Ret (ApprovedUsers (Z.of_nat (length users)) rows)
        /\ length rows = length users
        /\ forall (k : nat) (user : pyval),
             nth_error users k = Some user ->
             exists row,
               nth_error rows k = Some row
               /\ number row = Z.of_nat k + 1
               /\ shown_id row = shown user "id" (PyStr "N/A")
               /\ shown_username row = shown user "username" (PyStr "N/A")
               /\ shown_password row = shown user "password" (PyStr "N/A")
               /\ shown_expires row = shown user "expiresAt" (PyStr "2025-12-12")
               /\ shown_offline row = shown user "allowOffline" (PyBool false)
               /\ days_left row
                  = get_days_left today
                      (shown user "expiresAt" (PyStr "2025-12-12"))
               /\ (active row = true <->
                   expires_after today (shown user "expiresAt" (PyStr "2025-12-12")))
  end.
Proof.
  intros Htoday Hl Hd. rewrite (list_users_command_run _ _ _ Hl). simpl fst.
  destruct (user_rows_records today users Hd 1) as (rows & Hrows & Hlen & Hnth).
  destruct users as [|u0 users0]; [reflexivity|].
  change (negb (py_truthy (PyList (u0 :: users0)))) with false. cbv iota.
  cbn [py_len py_iter rbind]. rewrite Hrows. cbn [rbind].
  exists rows. split; [reflexivity|]. split; [exact Hlen|].
  intros k user Hk. destruct (Hnth k user Hk) as (row & Hrow & Hof).
  exists row. split; [exact Hrow|].
  assert (Hu : is_dict user = true).
  { apply nth_error_In in Hk. rewrite forallb_forall in Hd. now apply Hd. }
  rewrite (user_row_of_record _ _ _ Hu) in Hof. injection Hof as <-.
  simpl. repeat (split; [first [reflexivity|lia]|]).
  rewrite Z.ltb_lt. now apply get_days_left_positive.
Qed.

Lemma user_rows_not_records (today : Calendar.date) (users : list pyval) :
  forallb is_dict users = false ->
  forall i, user_rows today i users = Raise AttributeError.
Proof.
  induction users as [|u users IH]; intros Hd i; [discriminate|].
  simpl in Hd. simpl user_rows.
  destruct (is_dict u) eqn:Hu.
  - rewrite (user_row_of_record _ _ _ Hu). simpl in *. now rewrite IH.
  - destruct u; try discriminate; reflexivity.
Qed.

(** X20: on a loaded list that holds something else than records,
    [list_users_command] raises [AttributeError]: nothing in it catches the
    failure of [user.get]. *)
Theorem list_users_needs_records (today : Calendar.date) (w : world)
    (users : list pyval) :
  fst (load_users w) = Ret (PyList users) ->
  forallb is_dict users = false ->
  fst (list_users_command today w) = Raise AttributeError.
Proof.
  intros Hl Hd. rewrite (list_users_command_run _ _ _ Hl). simpl fst.
  destruct users as [|u0 users0]; [discriminate|].
  change (negb (py_truthy (PyList (u0 :: users0)))) with false. cbv iota.
  cbn [py_len py_iter rbind].
  now rewrite (user_rows_not_records _ _ Hd).
Qed.

(** *** The debug view *)

Lemma http_run (q : request) (w : world) :
  http q w =
  (fst (respond (remote w) q),
   World (user_states w) (snd (respond (remote w) q)) (q :: trace w)
     (clock w) (outbox w)).
Proof. unfold http. now destruct (respond (remote w) q). Qed.

Lemma debug_text_run (w : world) :
  let w1 := snd (http (GET JsonMetadata) w) in
  debug_text w =
  match fst (respond (remote w) (GET JsonMetadata)) with
  | Raise e => (Ret (DebugError e), w1)
  | Ret r =>
      match fst (load_users w1) with
      | Ret users =>
          match py_len users with
          | Ret user_count =>
              let saved :=
                if py_truthy users then save_users users (snd (load_users w1))
                else (Ret false, snd (load_users w1)) in
              match fst saved with
              | Ret test_save =>
                  (Ret (DebugInfo (status_code r =? 200) (status_code r)
                          user_count test_save
                          (Z.of_nat (size (user_states w)))),
                   snd saved)
              | Raise e => (Ret (DebugError e), snd saved)
              end
          | Raise e => (Ret (DebugError e), snd (load_users w1))
          end
      | Raise e => (Ret (DebugError e), snd (load_users w1))
      end
  end.
Proof.
  cbv zeta. unfold debug_text, try_except. unfold bind at 1.
  rewrite http_run. simpl snd.
  destruct (fst (respond (remote w) (GET JsonMetadata))) as [r|e]; [|reflexivity].
  set (w1 := World _ _ _ _ _).
  pose proof (load_users_frame w1) as (Hst & _).
  unfold bind at 1. destruct (load_users w1) as [[users|e] w2]; [|reflexivity].
  simpl fst. simpl snd. simpl in Hst. mpure.
  destruct (py_len users) as [n|e]; [|reflexivity].
  destruct (py_truthy users).
  - pose proof (save_users_frame users w2) as (Hsv & _).
    unfold bind at 1.
    destruct (save_users users w2) as [[b|e] w3]; [|reflexivity].
    simpl in *. now rewrite Hsv, Hst.
  - mpure. simpl. now rewrite Hst.
Qed.

(** The text is always built: what is raised in the [try] block is caught
    and shown. *)
Lemma debug_text_returns (w : world) : exists view, fst (debug_text w) = Ret view.
Proof.
  rewrite debug_text_run. cbv zeta.
  destruct (fst (respond (remote w) (GET JsonMetadata))) as [r|e]; [|eauto].
  destruct (fst (load_users _)) as [users|e]; [|eauto].
  destruct (py_len users) as [n|e]; [|eauto].
  destruct (fst (if py_truthy users then _ else _)) as [b|e]; eauto.
Qed.

(** The command shows the text; the button fails at the reply, after the
    requests of the [try] block. *)
Lemma debug_command_run (u : update) (w : world) :
  debug_command u w =
  (match u with
   | Message => fst (debug_text w)
   | CallbackQuery => Raise AttributeError
   end,
   snd (debug_text w)).
Proof.
  destruct (debug_text_returns w) as [view Hv].
  unfold debug_command, bind. destruct (debug_text w) as [r w']. simpl in *.
  subst r. now destruct u.
Qed.


End View_facts.

(** ** Whole conversations on the document store *)

Section Conversation_steps.
Context {E : Env} {L : Library}.

(** The expiry date, accepted. *)
Lemma expiration_accepted_run (w : world) (user_id : Z)
    (entry : gmap string pyval) (update_text : string) (date : Calendar.date) :
  user_states w !! user_id = Some entry ->
  entry !! "state" = Some (PyStr "awaiting_expiration") ->
  let expiresAt :=
    if String.eqb (strip update_text) "" then DEFAULT_DATE
    else strip update_text in
  strptime expiresAt = Some date ->
  handle_message user_id update_text w =
  (Ret tt,
   with_reply
     (with_states w
        (<[user_id := <["state" := PyStr "awaiting_offline"]>
                        (<["expiresAt" := PyStr expiresAt]> entry)]> (user_states w)))
     AskOffline).
Proof.
  intros Ht Hs expiresAt Hd.
  rewrite (expiration_run w user_id entry update_text Ht Hs). cbv zeta.
  fold expiresAt. now rewrite Hd.
Qed.

(** The three answers after a start, then the rest of the conversation. *)
Lemma collect_three_then {A} (w : world) (user_id : Z) (d u p : string)
    (rest : M A) :
  user_states w !! user_id = Some {["state" := PyStr "awaiting_device_id"]} ->
  (handle_message user_id d ;;; handle_message user_id u ;;;
   handle_message user_id p ;;; rest) w
  = rest
      (World (<[user_id := collected_entry (strip d) (strip u) (strip p)]>
                (user_states w))
         (remote w) (trace w) (clock w)
         (outbox w ++ [AskUsername; AskPassword; AskExpiration])).
Proof.
  intros Ht.
  pose proof (collect_three_run w user_id d u p Ht) as Hrun.
  unfold bind in *.
  destruct (handle_message user_id d w) as [[[]|e] w1]; [|discriminate].
  destruct (handle_message user_id u w1) as [[[]|e] w2]; [|discriminate].
  destruct (handle_message user_id p w2) as [[[]|e] w3]; [|discriminate].
  now injection Hrun as ->.
Qed.

End Conversation_steps.

Section Add_on_store.
Variable hash : string -> string.
Context {L : Library}.

Lemma load_users_on_store (w : @world (DocStore.env hash)) (doc : string)
    (users : list pyval) :
  remote w = Some doc ->
  Json.loads doc = Ret (PyList users) ->
  load_users w =
  (Ret (PyList users),
   @World (DocStore.env hash) (user_states w) (Some doc)
     (GET RawContent :: trace w) (clock w) (outbox w)).
Proof.
  intros Hr Hd. rewrite load_users_unfold.
  change (@respond (DocStore.env hash)) with (DocStore.respond_to hash).
  change (@remote_state (DocStore.env hash)) with (option string) in *.
  rewrite Hr. simpl DocStore.respond_to. cbv iota. simpl status_code.
  change (200 =? 200) with true. cbv iota. simpl text.
  change (@json_loads (DocStore.env hash)) with Json.loads.
  now rewrite Hd.
Qed.

(** The end of a commit on the store, for a collection whose JSON text can
    be encoded: the save succeeds, the collection becomes the document, the
    entry is removed. *)
Lemma commit_on_store (w : @world (DocStore.env hash)) (user_id : Z)
    (doc : string) (users : list pyval) (done failed : reply) :
  remote w = Some doc ->
  Utf8.has_surrogate (Json.dumps (PyList users)) = false ->
  exists requests,
    (saved <- save_users (PyList users) ;;
     send (if saved then done else failed) ;;; pop_entry user_id) w
    = (Ret tt,
       @World (DocStore.env hash) (delete user_id (user_states w))
         (Some (Json.dumps (PyList users))) (requests ++ trace w) (clock w)
         (outbox w ++ [done])).
Proof.
  intros Hr Henc. pose proof (save_users_on_store hash w users) as Hsave.
  change (@remote_state (DocStore.env hash)) with (option string) in *.
  rewrite Hr, Henc in Hsave.
  eexists [_; _]. rewrite (bind_run _ _ _ _ _ Hsave). reflexivity.
Qed.

Lemma new_record_wf (a b c d : string) (o : bool) :
  wf (record_of (PyStr a) (PyStr b) (PyStr c) (PyStr d) (PyBool o)) = true.
Proof. reflexivity. Qed.

Lemma wf_app (l : list pyval) (x : pyval) :
  wf (PyList l) = true -> wf x = true -> wf (PyList (l ++ [x])) = true.
Proof.
  simpl. intros Hl Hx. rewrite forallb_app, Hl. simpl. now rewrite Hx.
Qed.

Lemma wf_filter (test : pyval -> bool) (l : list pyval) :
  wf (PyList l) = true -> wf (PyList (List.filter test l)) = true.
Proof.
  simpl. induction l as [|x l IH]; [reflexivity|].
  simpl. intros [Hx Hl]%andb_prop.
  destruct (test x); simpl; [rewrite Hx|]; auto.
Qed.

(** X23: on the document store holding a collection of records, a whole
    add conversation (the command, the device id, the username, the
    password, the expiry date or an empty text for the default, the offline
    choice) with a username and password that no stored record has both,
    when the JSON text of the collection with the new record can be encoded
    in UTF-8, ends the conversation, reports the creation with the new
    total, and leaves a document that loads as the collection followed by
    the record of the stripped texts. *)
Theorem add_conversation_appends (w : @world (DocStore.env hash)) (user_id : Z)
    (doc : string) (users : list pyval)
    (device_id username password expires data : string)
    (allowOffline : bool) (date : Calendar.date) :
  remote w = Some doc ->
  Json.loads doc = Ret (PyList users) ->
  forallb is_dict users = true ->
  wf (PyList users) = true ->
  let expiresAt :=
    if String.eqb (strip expires) "" then "2025-12-12"
    else strip expires in
  strptime expiresAt = Some date ->
  offline_choice data = Some allowOffline ->
  existsb (same_credentials (PyStr (strip username))
             (PyStr (strip password))) users = false ->
  let conversation :=
    add_user_command user_id ;;;
    handle_message user_id device_id ;;;
    handle_message user_id username ;;;
    handle_message user_id password ;;;
    handle_message user_id expires ;;;
    handle_offline_callback data user_id in
  let new_user :=
    record_of (PyStr (strip device_id)) (PyStr (strip username))
      (PyStr (strip password)) (PyStr expiresAt) (PyBool allowOffline) in
  Utf8.has_surrogate (Json.dumps (PyList (users ++ [new_user]))) = false ->
  let after := snd (conversation w) in
  fst (conversation w) = Ret tt
  /\ user_states after = delete user_id (user_states w)
  /\ remote after = Some (Json.dumps (PyList (users ++ [new_user])))
  /\ outbox after =
     outbox w ++ [AskDeviceIdCommand; AskUsername; AskPassword; AskExpiration;
                  AskOffline;
                  AccountCreated new_user (Z.of_nat (length users) + 1)]
  /\ fst (load_users after) = Ret (PyList (users ++ [new_user])).
Proof.
  intros Hr Hdoc Hd Hwf expiresAt Hdate Hc Hdup conversation new_user Henc after.
  assert (Hrun : exists requests,
             conversation w =
             (Ret tt,
              @World (DocStore.env hash) (delete user_id (user_states w))
                (Some (Json.dumps (PyList (users ++ [new_user]))))
                (requests ++ trace w) (clock w)
                (outbox w ++ [AskDeviceIdCommand; AskUsername; AskPassword;
                              AskExpiration; AskOffline;
                              AccountCreated new_user (Z.of_nat (length users) + 1)]))).
  { unfold conversation, add_user_command, set_entry. mpure.
    rewrite collect_three_then by (simpl; apply lookup_insert_eq).
    set (w3 := World _ _ _ _ _).
    set (entry := collected_entry (strip device_id) (strip username)
                    (strip password)).
    assert (Ht3 : @user_states (DocStore.env hash) w3 !! user_id = Some entry)
      by (simpl; rewrite insert_insert_eq; apply lookup_insert_eq).
    assert (Hs3 : entry !! "state" = Some (PyStr "awaiting_expiration"))
      by reflexivity.
    rewrite (bind_run _ _ _ _ _
               (expiration_accepted_run w3 user_id entry expires date Ht3
                  Hs3 Hdate)).
    fold expiresAt. set (w4 := with_reply _ _).
    set (entry4 := <["state" := PyStr "awaiting_offline"]>
                     (<["expiresAt" := PyStr expiresAt]> entry)).
    assert (Ht4 : @user_states (DocStore.env hash) w4 !! user_id = Some entry4)
      by (simpl; apply lookup_insert_eq).
    assert (Hl4 : load_users w4 =
                  (Ret (PyList users),
                   @World (DocStore.env hash) (user_states w4) (Some doc)
                     (GET RawContent :: trace w4) (clock w4) (outbox w4)))
      by (now apply load_users_on_store).
    rewrite (offline_commit_run w4 user_id entry4 data allowOffline
               (PyStr (strip device_id)) (PyStr (strip username))
               (PyStr (strip password)) (PyStr expiresAt) users Ht4);
      try reflexivity; try assumption; [|now rewrite Hl4].
    rewrite Hl4. simpl snd.
    edestruct (commit_on_store
                 (@World (DocStore.env hash) (user_states w4) (Some doc)
                    (GET RawContent :: trace w4) (clock w4) (outbox w4))
                 user_id doc (users ++ [new_user])) as [requests Hcommit];
      [reflexivity|exact Henc|].
    fold new_user. rewrite Hcommit. exists (requests ++ [GET RawContent]).
    f_equal. simpl. f_equal.
    - now rewrite !insert_insert_eq, delete_insert_eq.
    - now rewrite <- app_assoc.
    - rewrite <- !app_assoc. simpl. rewrite length_app. simpl length.
      now replace (Z.of_nat (length users + 1)) with (Z.of_nat (length users) + 1)
        by lia. }
  destruct Hrun as [requests Hrun]. unfold after. rewrite Hrun. simpl.
  repeat (split; [reflexivity|]).
  erewrite load_users_on_store; [reflexivity|reflexivity|].
  apply JsonFacts.loads_dumps. apply wf_app; [exact Hwf|apply new_record_wf].
Qed.

End Add_on_store.

Section Remove_on_store.
Variable hash : string -> string.
Context {L : Library}.

(** The records of a username, once the only one of them is removed. *)
Lemma no_match_left (username target : pyval) (users : list pyval) :
  wf (PyList users) = true ->
  List.filter (has_username username) users = [target] ->
  List.filter (has_username username)
    (List.filter (fun user => negb (py_eq user target)) users) = [].
Proof.
  intros Hwf Hm.
  assert (Hall : forall x, In x users -> has_username username x = true ->
                           py_eq x target = true).
  { intros x Hx Hu.
    assert (Hin : In x (List.filter (has_username username) users))
      by (apply filter_In; auto).
    rewrite Hm in Hin. destruct Hin as [<-|[]].
    apply py_eq_refl. simpl in Hwf. rewrite forallb_forall in Hwf. auto. }
  clear Hm. induction users as [|x users IH]; [reflexivity|].
  simpl in Hwf. apply andb_prop in Hwf as [Hx Hrest].
  simpl. destruct (py_eq x target) eqn:Heq; simpl.
  - apply IH; [exact Hrest|]. intros y Hy. apply Hall. now right.
  - destruct (has_username username x) eqn:Hu.
    + rewrite (Hall x (or_introl eq_refl) Hu) in Heq. discriminate.
    + apply IH; [exact Hrest|]. intros y Hy. apply Hall. now right.
Qed.

(** X25: on the document store holding a collection of records one of
    which has the given username, stripped, a whole remove conversation (the
    command, the username, the confirmation), when the JSON text of the
    records kept can be encoded in UTF-8, ends the conversation, reports the
    removal, and leaves a document that loads as the collection without the
    records equal to that one; no record of that username is left. *)
Theorem remove_conversation_removes (w : @world (DocStore.env hash))
    (user_id : Z) (doc : string) (users : list pyval) (username : string)
    (target : pyval) :
  remote w = Some doc ->
  Json.loads doc = Ret (PyList users) ->
  forallb is_dict users = true ->
  wf (PyList users) = true ->
  List.filter (has_username (PyStr (strip username))) users = [target] ->
  let conversation :=
    remove_user_command user_id ;;;
    handle_message user_id username ;;;
    handle_confirm_callback "confirm_remove" user_id in
  let kept := List.filter (fun user => negb (py_eq user target)) users in
  Utf8.has_surrogate (Json.dumps (PyList kept)) = false ->
  let after := snd (conversation w) in
  fst (conversation w) = Ret tt
  /\ user_states after = delete user_id (user_states w)
  /\ remote after = Some (Json.dumps (PyList kept))
  /\ outbox after =
     outbox w ++ [AskRemoveUsernameCommand; FoundUser target; UserRemoved]
  /\ fst (load_users after) = Ret (PyList kept)
  /\ List.filter (has_username (PyStr (strip username))) kept = [].
Proof.
  intros Hr Hdoc Hd Hwf Hm conversation kept Henc after.
  assert (Hrun : exists requests,
             conversation w =
             (Ret tt,
              @World (DocStore.env hash) (delete user_id (user_states w))
                (Some (Json.dumps (PyList kept)))
                (requests ++ trace w) (clock w)
                (outbox w ++ [AskRemoveUsernameCommand; FoundUser target;
                              UserRemoved]))).
  { unfold conversation, remove_user_command, set_entry. mpure.
    set (w1 := with_reply _ _).
    set (entry := {["state" := PyStr "awaiting_remove_username"]}
                  : gmap string pyval).
    assert (Ht1 : @user_states (DocStore.env hash) w1 !! user_id = Some entry)
      by (simpl; apply lookup_insert_eq).
    assert (Hs1 : entry !! "state" = Some (PyStr "awaiting_remove_username"))
      by reflexivity.
    assert (Hl1 : load_users w1 =
                  (Ret (PyList users),
                   @World (DocStore.env hash) (user_states w1) (Some doc)
                     (GET RawContent :: trace w1) (clock w1) (outbox w1)))
      by (now apply load_users_on_store).
    assert (Hl1' : fst (load_users w1) = Ret (PyList users)) by now rewrite Hl1.
    pose proof (remove_username_run w1 user_id entry username users
                  Ht1 Hs1 Hl1' Hd) as Hstep.
    cbv zeta in Hstep. rewrite Hm, Hl1 in Hstep. simpl snd in Hstep.
    rewrite (bind_run _ _ _ _ _ Hstep). clear Hstep.
    set (w2 := with_reply _ _).
    set (entry2 := <["state" := PyStr "confirm_remove_single"]>
                     (<["remove_user" := target]> entry)).
    assert (Ht2 : @user_states (DocStore.env hash) w2 !! user_id = Some entry2)
      by (simpl; apply lookup_insert_eq).
    assert (Hs2 : entry2 !! "state" = Some (PyStr "confirm_remove_single"))
      by reflexivity.
    assert (Hr2 : entry2 !! "remove_user" = Some target) by reflexivity.
    assert (Hl2 : load_users w2 =
                  (Ret (PyList users),
                   @World (DocStore.env hash) (user_states w2) (Some doc)
                     (GET RawContent :: trace w2) (clock w2) (outbox w2)))
      by (now apply load_users_on_store).
    assert (Hl2' : fst (load_users w2) = Ret (PyList users)) by now rewrite Hl2.
    rewrite (confirm_remove_run w2 user_id entry2 target users Ht2 Hs2 Hr2 Hl2').
    rewrite Hl2. simpl snd.
    edestruct (commit_on_store hash
                 (@World (DocStore.env hash) (user_states w2) (Some doc)
                    (GET RawContent :: trace w2) (clock w2) (outbox w2))
                 user_id doc kept) as [requests Hcommit];
      [reflexivity|exact Henc|].
    fold kept. rewrite Hcommit.
    exists (requests ++ [GET RawContent; GET RawContent]).
    f_equal. simpl. f_equal.
    - now rewrite !insert_insert_eq, delete_insert_eq.
    - now rewrite <- app_assoc.
    - now rewrite <- !app_assoc. }
  destruct Hrun as [requests Hrun]. unfold after. rewrite Hrun. simpl.
  repeat (split; [reflexivity|]). split.
  - erewrite load_users_on_store; [reflexivity|reflexivity|].
    apply JsonFacts.loads_dumps. now apply wf_filter.
  - now apply no_match_left.
Qed.

End Remove_on_store.

Section More_on_store.
Variable hash : string -> string.
Context {L : Library}.

Lemma filter_has_username_none (username : pyval) (users : list pyval) :
  List.filter (has_username username)
    (List.filter (fun u => negb (has_username username u)) users) = [].
Proof.
  induction users as [|x users IH]; [reflexivity|]. simpl.
  destruct (has_username username x) eqn:Hu; simpl; [exact IH|].
  now rewrite Hu.
Qed.

(** X26: on the document store holding several records of the given
    username, stripped, the remove conversation with the choice [all] and
    its confirmation, when the JSON text of the records kept can be encoded
    in UTF-8, ends the conversation and leaves a document that loads as the
    collection without any record of that username. *)
Theorem remove_all_conversation_removes (w : @world (DocStore.env hash))
    (user_id : Z) (doc : string) (users : list pyval)
    (username choice : string) :
  remote w = Some doc ->
  Json.loads doc = Ret (PyList users) ->
  forallb is_dict users = true ->
  wf (PyList users) = true ->
  let name := PyStr (strip username) in
  let matching := List.filter (has_username name) users in
  (1 < length matching)%nat ->
  lower (strip choice) = "all" ->
  let conversation :=
    remove_user_command user_id ;;;
    handle_message user_id username ;;;
    handle_message user_id choice ;;;
    handle_confirm_callback "confirm_remove_all" user_id in
  let kept := List.filter (fun user => negb (has_username name user)) users in
  Utf8.has_surrogate (Json.dumps (PyList kept)) = false ->
  let after := snd (conversation w) in
  fst (conversation w) = Ret tt
  /\ user_states after = delete user_id (user_states w)
  /\ remote after = Some (Json.dumps (PyList kept))
  /\ outbox after =
     outbox w ++ [AskRemoveUsernameCommand;
                  ChooseMatch (strip username) matching;
                  ConfirmRemoveAll name; AllRemoved name]
  /\ fst (load_users after) = Ret (PyList kept)
  /\ List.filter (has_username name) kept = [].
Proof.
  intros Hr Hdoc Hd Hwf name matching Hmany Hall conversation kept Henc after.
  assert (Hrun : exists requests,
             conversation w =
             (Ret tt,
              @World (DocStore.env hash) (delete user_id (user_states w))
                (Some (Json.dumps (PyList kept)))
                (requests ++ trace w) (clock w)
                (outbox w ++ [AskRemoveUsernameCommand;
                              ChooseMatch (strip username) matching;
                              ConfirmRemoveAll name; AllRemoved name]))).
  { unfold conversation, remove_user_command, set_entry. mpure.
    set (w1 := with_reply _ _).
    set (entry := {["state" := PyStr "awaiting_remove_username"]}
                  : gmap string pyval).
    assert (Ht1 : @user_states (DocStore.env hash) w1 !! user_id = Some entry)
      by (simpl; apply lookup_insert_eq).
    assert (Hs1 : entry !! "state" = Some (PyStr "awaiting_remove_username"))
      by reflexivity.
    assert (Hl1 : load_users w1 =
                  (Ret (PyList users),
                   @World (DocStore.env hash) (user_states w1) (Some doc)
                     (GET RawContent :: trace w1) (clock w1) (outbox w1)))
      by (now apply load_users_on_store).
    assert (Hl1' : fst (load_users w1) = Ret (PyList users)) by now rewrite Hl1.
    pose proof (remove_username_run w1 user_id entry username users
                  Ht1 Hs1 Hl1' Hd) as Hstep.
    cbv zeta in Hstep. fold name matching in Hstep.
    destruct matching as [|u [|u2 rest]] eqn:Hmatching; simpl in Hmany; try lia.
    rewrite <- Hmatching in *. rewrite Hl1 in Hstep. simpl snd in Hstep.
    assert (Hstep' :
              handle_message user_id username w1 =
              (Ret tt,
               with_reply
                 (with_states
                    (@World (DocStore.env hash) (user_states w1) (Some doc)
                       (GET RawContent :: trace w1) (clock w1) (outbox w1))
                    (<[user_id := <["state" := PyStr "awaiting_remove_choice"]>
                                    (<["matching_users" := PyList matching]>
                                       (<["remove_username" := name]> entry))]>
                       (user_states w1)))
                 (ChooseMatch (strip username) matching))).
    { rewrite Hstep. rewrite Hmatching. reflexivity. }
    clear Hstep. rewrite (bind_run _ _ _ _ _ Hstep'). clear Hstep'.
    set (w2 := with_reply _ _).
    set (entry2 := <["state" := PyStr "awaiting_remove_choice"]>
                     (<["matching_users" := PyList matching]>
                        (<["remove_username" := name]> entry))).
    assert (Ht2 : @user_states (DocStore.env hash) w2 !! user_id = Some entry2)
      by (simpl; apply lookup_insert_eq).
    assert (Hs2 : entry2 !! "state" = Some (PyStr "awaiting_remove_choice"))
      by reflexivity.
    assert (Hu2 : entry2 !! "remove_username" = Some name) by reflexivity.
    rewrite (bind_run _ _ _ _ _
               (remove_choice_all_run w2 user_id entry2 choice name
                  Ht2 Hs2 Hu2 Hall)).
    set (w3 := with_reply _ _).
    set (entry3 := <["state" := PyStr "confirm_remove_all"]> entry2).
    assert (Ht3 : @user_states (DocStore.env hash) w3 !! user_id = Some entry3)
      by (simpl; apply lookup_insert_eq).
    assert (Hs3 : entry3 !! "state" = Some (PyStr "confirm_remove_all"))
      by reflexivity.
    assert (Hu3 : entry3 !! "remove_username" = Some name) by reflexivity.
    assert (Hl3 : load_users w3 =
                  (Ret (PyList users),
                   @World (DocStore.env hash) (user_states w3) (Some doc)
                     (GET RawContent :: trace w3) (clock w3) (outbox w3)))
      by (now apply load_users_on_store).
    assert (Hl3' : fst (load_users w3) = Ret (PyList users)) by now rewrite Hl3.
    rewrite (confirm_remove_all_run w3 user_id entry3 name users
               Ht3 Hs3 Hu3 Hl3' Hd).
    rewrite Hl3. simpl snd.
    edestruct (commit_on_store hash
                 (@World (DocStore.env hash) (user_states w3) (Some doc)
                    (GET RawContent :: trace w3) (clock w3) (outbox w3))
                 user_id doc kept) as [requests Hcommit];
      [reflexivity|exact Henc|].
    fold kept. rewrite Hcommit.
    exists (requests ++ [GET RawContent; GET RawContent]).
    f_equal. simpl. f_equal.
    - now rewrite !insert_insert_eq, delete_insert_eq.
    - now rewrite <- app_assoc.
    - now rewrite <- !app_assoc. }
  destruct Hrun as [requests Hrun]. unfold after. rewrite Hrun. simpl.
  repeat (split; [reflexivity|]). split.
  - erewrite load_users_on_store; [reflexivity|reflexivity|].
    apply JsonFacts.loads_dumps. now apply wf_filter.
  - apply filter_has_username_none.
Qed.

Lemma filter_none_equal (target : pyval) (users : list pyval) :
  existsb (fun user => py_eq user target) users = false ->
  List.filter (fun user => negb (py_eq user target)) users = users.
Proof.
  induction users as [|x users IH]; [reflexivity|]. simpl.
  intros [Hx Hrest]%orb_false_elim. rewrite Hx. simpl. now rewrite IH.
Qed.

(** X27: when the stored collection holds no record equal to the one
    selected for removal (it was changed since the selection) and its JSON
    text can be encoded in UTF-8, the confirmation saves the collection as
    loaded and still reports that the user was removed. *)
Theorem vanished_record_removal_reports_success
    (w : @world (DocStore.env hash)) (user_id : Z)
    (entry : gmap string pyval) (doc : string) (users : list pyval)
    (target : pyval) :
  user_states w !! user_id = Some entry ->
  entry !! "state" = Some (PyStr "confirm_remove_single") ->
  entry !! "remove_user" = Some target ->
  remote w = Some doc ->
  Json.loads doc = Ret (PyList users) ->
  existsb (fun user => py_eq user target) users = false ->
  Utf8.has_surrogate (Json.dumps (PyList users)) = false ->
  let after := snd (handle_confirm_callback "confirm_remove" user_id w) in
  fst (handle_confirm_callback "confirm_remove" user_id w) = Ret tt
  /\ outbox after = outbox w ++ [UserRemoved]
  /\ remote after = Some (Json.dumps (PyList users))
  /\ user_states after = delete user_id (user_states w).
Proof.
  intros Ht Hs Hr Hrem Hdoc Hnone Henc after.
  assert (Hl : load_users w =
               (Ret (PyList users),
                @World (DocStore.env hash) (user_states w) (Some doc)
                  (GET RawContent :: trace w) (clock w) (outbox w)))
    by (now apply load_users_on_store).
  assert (Hl' : fst (load_users w) = Ret (PyList users)) by now rewrite Hl.
  unfold after.
  rewrite (confirm_remove_run w user_id entry target users Ht Hs Hr Hl').
  rewrite Hl. simpl snd. rewrite (filter_none_equal _ _ Hnone).
  edestruct (commit_on_store hash
               (@World (DocStore.env hash) (user_states w) (Some doc)
                  (GET RawContent :: trace w) (clock w) (outbox w))
               user_id doc users) as [requests Hcommit];
    [reflexivity|exact Henc|].
  rewrite Hcommit. simpl. auto.
Qed.

(** X24: on the document store, the same conversation with a username and
    password that a stored record has leaves the document untouched and
    waits; [add_anyway] then, when the JSON text of the collection with the
    new record can be encoded in UTF-8, ends the conversation and leaves the
    collection followed by the new record as the document. *)
Theorem duplicate_conversation_appends (w : @world (DocStore.env hash))
    (user_id : Z) (doc : string) (users : list pyval)
    (device_id username password expires data : string)
    (allowOffline : bool) (date : Calendar.date) :
  remote w = Some doc ->
  Json.loads doc = Ret (PyList users) ->
  forallb is_dict users = true ->
  wf (PyList users) = true ->
  let expiresAt :=
    if String.eqb (strip expires) "" then "2025-12-12"
    else strip expires in
  strptime expiresAt = Some date ->
  offline_choice data = Some allowOffline ->
  existsb (same_credentials (PyStr (strip username))
             (PyStr (strip password))) users = true ->
  let collection :=
    add_user_command user_id ;;;
    handle_message user_id device_id ;;;
    handle_message user_id username ;;;
    handle_message user_id password ;;;
    handle_message user_id expires ;;;
    handle_offline_callback data user_id in
  let new_user :=
    record_of (PyStr (strip device_id)) (PyStr (strip username))
      (PyStr (strip password)) (PyStr expiresAt) (PyBool allowOffline) in
  Utf8.has_surrogate (Json.dumps (PyList (users ++ [new_user]))) = false ->
  let waiting := snd (collection w) in
  let after := snd (handle_confirm_callback "add_anyway" user_id waiting) in
  fst (collection w) = Ret tt
  /\ remote waiting = Some doc
  /\ outbox waiting =
     outbox w ++ [AskDeviceIdCommand; AskUsername; AskPassword; AskExpiration;
                  AskOffline; DuplicateWarning]
  /\ fst (handle_confirm_callback "add_anyway" user_id waiting) = Ret tt
  /\ user_states after = delete user_id (user_states w)
  /\ remote after = Some (Json.dumps (PyList (users ++ [new_user])))
  /\ outbox after = outbox waiting ++ [AccountCreatedAnyway new_user].
Proof.
  intros Hr Hdoc Hd Hwf expiresAt Hdate Hc Hdup collection new_user Henc
    waiting after.
  set (entry := collected_entry (strip device_id) (strip username)
                  (strip password)).
  set (entry4 := <["state" := PyStr "awaiting_offline"]>
                   (<["expiresAt" := PyStr expiresAt]> entry)).
  set (entry5 := <["state" := PyStr "confirm_duplicate"]>
                   (<["allowOffline" := PyBool allowOffline]> entry4)).
  assert (Hrun : exists requests,
             collection w =
             (Ret tt,
              @World (DocStore.env hash) (<[user_id := entry5]> (user_states w))
                (Some doc) (requests ++ trace w) (clock w)
                (outbox w ++ [AskDeviceIdCommand; AskUsername; AskPassword;
                              AskExpiration; AskOffline; DuplicateWarning]))).
  { unfold collection, add_user_command, set_entry. mpure.
    rewrite collect_three_then by (simpl; apply lookup_insert_eq).
    set (w3 := World _ _ _ _ _). fold entry in w3.
    assert (Ht3 : @user_states (DocStore.env hash) w3 !! user_id = Some entry)
      by (simpl; rewrite insert_insert_eq; apply lookup_insert_eq).
    assert (Hs3 : entry !! "state" = Some (PyStr "awaiting_expiration"))
      by reflexivity.
    rewrite (bind_run _ _ _ _ _
               (expiration_accepted_run w3 user_id entry expires date Ht3
                  Hs3 Hdate)).
    fold expiresAt. fold entry4. set (w4 := with_reply _ _).
    assert (Ht4 : @user_states (DocStore.env hash) w4 !! user_id = Some entry4)
      by (simpl; apply lookup_insert_eq).
    assert (Hl4 : load_users w4 =
                  (Ret (PyList users),
                   @World (DocStore.env hash) (user_states w4) (Some doc)
                     (GET RawContent :: trace w4) (clock w4) (outbox w4)))
      by (now apply load_users_on_store).
    rewrite (offline_duplicate_run w4 user_id entry4 data allowOffline
               (PyStr (strip username)) (PyStr (strip password))
               users Ht4);
      try reflexivity; try assumption; [|now rewrite Hl4].
    rewrite Hl4. simpl snd. exists [GET RawContent].
    f_equal. unfold with_reply, with_states. simpl. f_equal.
    - now rewrite !insert_insert_eq.
    - now rewrite <- !app_assoc. }
  destruct Hrun as [requests Hrun].
  unfold after, waiting. rewrite Hrun. simpl fst. simpl snd.
  set (w5 := World _ _ _ _ _).
  split; [reflexivity|]. split; [reflexivity|]. split; [reflexivity|].
  assert (Ht5 : @user_states (DocStore.env hash) w5 !! user_id = Some entry5)
    by (simpl; apply lookup_insert_eq).
  assert (Hl5 : load_users w5 =
                (Ret (PyList users),
                 @World (DocStore.env hash) (user_states w5) (Some doc)
                   (GET RawContent :: trace w5) (clock w5) (outbox w5)))
    by (now apply load_users_on_store).
  assert (Hl5' : fst (load_users w5) = Ret (PyList users)) by now rewrite Hl5.
  rewrite (add_anyway_run w5 user_id entry5
             (PyStr (strip device_id)) (PyStr (strip username))
             (PyStr (strip password)) (PyStr expiresAt)
             (PyBool allowOffline) users Ht5); try reflexivity; try assumption.
  rewrite Hl5. simpl snd.
  edestruct (commit_on_store hash
               (@World (DocStore.env hash) (user_states w5) (Some doc)
                  (GET RawContent :: trace w5) (clock w5) (outbox w5))
               user_id doc (users ++ [new_user])) as [requests' Hcommit];
    [reflexivity|exact Henc|].
  fold new_user. rewrite Hcommit. simpl.
  split; [reflexivity|]. split; [now rewrite delete_insert_eq|]. auto.
Qed.

(** X22: on the document store, the command [/debug] on a stored
    non-empty collection of well-formed values whose JSON text can be
    encoded in UTF-8 reports success and leaves a document that loads as the
    same collection; when that text holds a surrogate, the save test is
    reported as failed and the document stays as it was. *)
Theorem debug_rewrites_same_collection (w : @world (DocStore.env hash))
    (doc : string) (users : list pyval) :
  remote w = Some doc ->
  Json.loads doc = Ret (PyList users) ->
  users <> [] ->
  wf (PyList users) = true ->
  let after := snd (debug_command Message w) in
  let encodable := negb (Utf8.has_surrogate (Json.dumps (PyList users))) in
  fst (debug_command Message w)
  = Ret (DebugInfo true 200 (Z.of_nat (length users)) encodable
           (Z.of_nat (size (user_states w))))
  /\ remote after = Some (if encodable then Json.dumps (PyList users) else doc)
  /\ (encodable = true -> fst (load_users after) = Ret (PyList users)).
Proof.
  intros Hr Hdoc Hne Hwf after encodable. unfold after. clear after.
  rewrite debug_command_run, debug_text_run. cbv zeta. rewrite http_run.
  change (@respond (DocStore.env hash)) with (DocStore.respond_to hash).
  change (@remote_state (DocStore.env hash)) with (option string) in *.
  rewrite Hr. simpl DocStore.respond_to. cbv iota. simpl fst. simpl snd.
  set (w1 := World _ _ _ _ _).
  assert (Hl1 : load_users w1 =
                (Ret (PyList users),
                 @World (DocStore.env hash) (user_states w1) (Some doc)
                   (GET RawContent :: trace w1) (clock w1) (outbox w1)))
    by (now apply load_users_on_store).
  rewrite Hl1. simpl fst. simpl snd. simpl py_len. cbv iota.
  destruct users as [|u0 users0]; [congruence|].
  set (users := u0 :: users0) in *.
  change (py_truthy (PyList users)) with true. cbv iota.
  assert (Hlen : length users = S (length users0)) by reflexivity.
  clearbody users.
  rewrite save_users_on_store. cbn [remote]. unfold encodable.
  destruct (Utf8.has_surrogate (Json.dumps (PyList users))); cbn [fst snd negb remote].
  - split; [reflexivity|]. split; [reflexivity|]. discriminate.
  - split; [reflexivity|]. split; [reflexivity|]. intros _.
    erewrite load_users_on_store; [reflexivity|reflexivity|].
    now apply JsonFacts.loads_dumps.
Qed.

End More_on_store.

(** ** The consistency of the table *)

Section Safety.
Context {E : Env} {L : Library}.

(** *** Consistent tables *)

Lemma table_ok_insert (t : gmap Z (gmap string pyval)) (u : Z)
    (entry : gmap string pyval) :
  table_ok t -> entry_ok entry -> table_ok (<[u := entry]> t).
Proof.
  intros Ht He u' e'. destruct (decide (u' = u)) as [->|Hne].
  - rewrite lookup_insert_eq. now intros [= <-].
  - rewrite lookup_insert_ne by congruence. apply Ht.
Qed.

Lemma table_ok_delete (t : gmap Z (gmap string pyval)) (u : Z) :
  table_ok t -> table_ok (delete u t).
Proof.
  intros Ht u' e' H. apply lookup_delete_Some in H as [_ H]. now apply (Ht u').
Qed.

Lemma entry_ok_fresh (label : string) :
  required_fields label = [] -> entry_ok {["state" := PyStr label]}.
Proof.
  intros Hreq. exists label. split; [apply lookup_singleton_eq|].
  rewrite Hreq. split; [intros key []|].
  intros ->. discriminate.
Qed.

(** The entry after a write of its state. *)
Lemma entry_ok_state (entry : gmap string pyval) (label : string) :
  (forall key, In key (required_fields label) -> is_Some (entry !! key)) ->
  (label = "awaiting_remove_choice" ->
   exists candidates,
     entry !! "matching_users" = Some (PyList candidates)
     /\ forallb is_dict candidates = true) ->
  entry_ok (<["state" := PyStr label]> entry).
Proof.
  intros Hreq Hcand. exists label. split; [apply lookup_insert_eq|]. split.
  - intros key Hin. destruct (decide (key = "state")) as [->|Hne].
    + rewrite lookup_insert_eq. eauto.
    + rewrite lookup_insert_ne by congruence. now apply Hreq.
  - intros Hl. destruct (Hcand Hl) as (l & Hm & Hd). exists l. split; [|exact Hd].
    now rewrite lookup_insert_ne by discriminate.
Qed.

(** Solves the presence of a field in an entry built by writes. *)
Ltac present Hreq :=
  let key := fresh "key" in
  let Hin := fresh "Hin" in
  intros key Hin; simpl in Hin;
  repeat (destruct Hin as [<-|Hin]);
  try contradiction;
  repeat first [ rewrite lookup_insert_eq | rewrite lookup_insert_ne by discriminate ];
  first [ eexists; reflexivity | apply Hreq; simpl; tauto ].

(** *** What a handler does, by its result *)

Lemma safe_returns (h : M unit) (w w' : world) :
  h w = (Ret tt, w') -> table_ok (user_states w') -> safe_step h w.
Proof. intros H Hok. unfold safe_step. rewrite H. simpl. auto. Qed.

Lemma safe_raises (h : M unit) (w w' : world) :
  h w = (Raise AttributeError, w') ->
  table_ok (user_states w') ->
  (forall users, fst (load_users w) = Ret (PyList users) ->
                 forallb is_dict users = true -> False) ->
  safe_step h w.
Proof.
  intros H Hok Hno. unfold safe_step. rewrite H. simpl.
  split; [exact Hok|]. split; [now right|].
  intros users Hl Hd. destruct (Hno users Hl Hd).
Qed.

(** The comprehensions, on any list. *)
Lemma select_username_is_cases (username : pyval) (l : list pyval) :
  (exists matching,
      select (username_is username) l = Ret matching
      /\ forallb is_dict matching = true /\ forallb is_dict l = true)
  \/ (select (username_is username) l = Raise AttributeError
      /\ forallb is_dict l = false).
Proof.
  induction l as [|x l IH].
  - left. exists []. auto.
  - simpl. destruct x as [| | | | |d];
      try (right; split; reflexivity).
    simpl. destruct IH as [(m & -> & Hm & Hl)|[-> Hl]].
    + left. simpl. destruct (py_eq _ username); eexists; (split; [reflexivity|]).
      * simpl. auto.
      * auto.
    + right. auto.
Qed.

Lemma select_username_is_not_cases (username : pyval) (l : list pyval) :
  (exists kept,
      select (username_is_not username) l = Ret kept
      /\ forallb is_dict l = true)
  \/ (select (username_is_not username) l = Raise AttributeError
      /\ forallb is_dict l = false).
Proof.
  induction l as [|x l IH].
  - left. exists []. auto.
  - simpl. destruct x as [| | | | |d];
      try (right; split; reflexivity).
    simpl. destruct IH as [(m & -> & Hl)|[-> Hl]].
    + left. simpl. destruct (negb _); eexists; (split; [reflexivity|]); auto.
    + right. auto.
Qed.

Lemma py_iter_sized (v : pyval) :
  sized v = true -> exists l, py_iter v = Ret l.
Proof. destruct v; try discriminate; simpl; eauto. Qed.

(** *** The starts *)

Lemma button_handler_safe (data : menu_button) (user_id : Z) (w : world) :
  table_ok (user_states w) -> safe_step (button_handler data user_id) w.
Proof.
  intros Hok. destruct data.
  - eapply safe_returns; [reflexivity|]. simpl.
    apply table_ok_insert; [exact Hok|]. now apply entry_ok_fresh.
  - eapply safe_returns; [reflexivity|]. simpl.
    apply table_ok_insert; [exact Hok|]. now apply entry_ok_fresh.
  - destruct (user_states w !! user_id) eqn:Ht.
    + eapply safe_returns;
        [unfold button_handler; mpure; rewrite Ht; reflexivity|].
      simpl. now apply table_ok_delete.
    + eapply safe_returns;
        [unfold button_handler; mpure; rewrite Ht; reflexivity|].
      exact Hok.
Qed.

Lemma add_user_command_safe (user_id : Z) (w : world) :
  table_ok (user_states w) -> safe_step (add_user_command user_id) w.
Proof.
  intros Hok. eapply safe_returns; [reflexivity|]. simpl.
  apply table_ok_insert; [exact Hok|]. now apply entry_ok_fresh.
Qed.

Lemma remove_user_command_safe (user_id : Z) (w : world) :
  table_ok (user_states w) -> safe_step (remove_user_command user_id) w.
Proof.
  intros Hok. eapply safe_returns; [reflexivity|]. simpl.
  apply table_ok_insert; [exact Hok|]. now apply entry_ok_fresh.
Qed.

(** *** Free text *)

(** The username to remove, whatever the load returns. *)
Lemma remove_username_any_run (w : world) (user_id : Z)
    (entry : gmap string pyval) (update_text : string)
    (users : pyval) (all_users : list pyval) :
  user_states w !! user_id = Some entry ->
  entry !! "state" = Some (PyStr "awaiting_remove_username") ->
  fst (load_users w) = Ret users ->
  py_iter users = Ret all_users ->
  let username := strip update_text in
  let w1 := snd (load_users w) in
  handle_message user_id update_text w =
  if negb (py_truthy users) then
    (Ret tt,
     with_states (with_reply w1 NoUsersFound) (delete user_id (user_states w)))
  else
    match select (username_is (PyStr username)) all_users with
    | Raise e => (Raise e, w1)
    | Ret [] =>
        (Ret tt,
         with_states (with_reply w1 (UsernameNotFound username))
           (delete user_id (user_states w)))
    | Ret [user] =>
        (Ret tt,
         with_reply
           (with_states w1
              (<[user_id := <["state" := PyStr "confirm_remove_single"]>
                              (<["remove_user" := user]> entry)]> (user_states w)))
           (FoundUser user))
    | Ret matching =>
        (Ret tt,
         with_reply
           (with_states w1
              (<[user_id := <["state" := PyStr "awaiting_remove_choice"]>
                              (<["matching_users" := PyList matching]>
                                 (<["remove_username" := PyStr username]> entry))]>
                 (user_states w)))
           (ChooseMatch username matching))
    end.
Proof.
  intros Ht Hs Hl Hi. cbv zeta.
  set (username := strip update_text). set (w1 := snd (load_users w)).
  destruct (load_users_frame w) as (Hst & _). fold w1 in Hst.
  unfold handle_message. fold username. mpure. rewrite Ht.
  unfold item. rewrite Hs. mpure. eval_labels.
  rewrite (bind_load_users _ _ _ Hl). fold w1.
  destruct (negb (py_truthy users)).
  { unfold pop_entry. mpure. unfold set_states.
    now rewrite with_reply_states, Hst. }
  rewrite Hi. mpure.
  destruct (select (username_is (PyStr username)) all_users)
    as [[|u [|u2 rest]]|e]; mpure.
  - unfold pop_entry. mpure. unfold set_states.
    now rewrite with_reply_states, Hst.
  - change (1 <? Z.of_nat (length [u])) with false. cbv iota.
    rewrite <- Hst in Ht. set_items. mpure. now rewrite Hst.
  - replace (1 <? Z.of_nat (length (u :: u2 :: rest))) with true
      by (symmetry; apply Z.ltb_lt; simpl length; lia).
    rewrite <- Hst in Ht. set_items. mpure. now rewrite Hst.
  - reflexivity.
Qed.

(** A text keeps the table consistent.  It returns, or raises the
    [AttributeError] of a collection that holds something else than
    records, or, in the state [awaiting_remove_choice], raises the
    [ValueError] of [int] on a text that [isdigit] accepts and [int] cannot
    read, the world being then as it was. *)
Lemma handle_message_safe (user_id : Z) (update_text : string) (w : world) :
  table_ok (user_states w) ->
  safe_step (handle_message user_id update_text) w
  \/ (handle_message user_id update_text w = (Raise ValueError, w)
      /\ unreadable_choice update_text
      /\ in_state (user_states w) user_id "awaiting_remove_choice" = true).
Proof.
  intros Hok.
  destruct (user_states w !! user_id) as [entry|] eqn:Ht.
  2: { left. apply safe_returns with (with_reply w MenuHint); [|exact Hok].
       unfold handle_message. mpure. now rewrite Ht. }
  destruct (Hok _ _ Ht) as (label & Hs & Hreq & Hcand).
  destruct (collect_step_run w user_id entry update_text Ht) as (H1 & H2 & H3).
  destruct (String.eqb label "awaiting_device_id") eqn:E1.
  { apply String.eqb_eq in E1. subst label. left.
    eapply safe_returns; [exact (H1 Hs)|]. simpl.
    apply table_ok_insert; [exact Hok|].
    apply entry_ok_state; [present Hreq|discriminate]. }
  destruct (String.eqb label "awaiting_username") eqn:E2.
  { apply String.eqb_eq in E2. subst label. left.
    eapply safe_returns; [exact (H2 Hs)|]. simpl.
    apply table_ok_insert; [exact Hok|].
    apply entry_ok_state; [present Hreq|discriminate]. }
  destruct (String.eqb label "awaiting_password") eqn:E3.
  { apply String.eqb_eq in E3. subst label. left.
    eapply safe_returns; [exact (H3 Hs)|]. simpl.
    apply table_ok_insert; [exact Hok|].
    apply entry_ok_state; [present Hreq|discriminate]. }
  clear H1 H2 H3.
  destruct (String.eqb label "awaiting_expiration") eqn:E4.
  { apply String.eqb_eq in E4. subst label. left.
    pose proof (expiration_run w user_id entry update_text Ht Hs) as Hrun.
    cbv zeta in Hrun.
    destruct (strptime _) as [date|].
    - eapply safe_returns; [exact Hrun|].
      simpl. apply table_ok_insert; [exact Hok|].
      apply entry_ok_state; [present Hreq|discriminate].
    - eapply safe_returns; [exact Hrun|]. exact Hok. }
  destruct (String.eqb label "awaiting_remove_username") eqn:E5.
  { apply String.eqb_eq in E5. subst label. left.
    destruct (load_users_returns w) as [users Hl].
    destruct (py_iter_sized users (load_users_sized w users Hl)) as [all_users Hi].
    destruct (load_users_frame w) as (Hst & _).
    pose proof (remove_username_any_run w user_id entry update_text users
                  all_users Ht Hs Hl Hi) as Hrun.
    cbv zeta in Hrun.
    destruct (negb (py_truthy users)) eqn:Hempty.
    { eapply safe_returns; [exact Hrun|]. simpl. now apply table_ok_delete. }
    destruct (select_username_is_cases (PyStr (strip update_text)) all_users)
      as [(matching & Hsel & Hm & Hall)|[Hsel Hall]]; rewrite Hsel in Hrun.
    - destruct matching as [|u [|u2 rest]].
      + eapply safe_returns; [exact Hrun|]. simpl. now apply table_ok_delete.
      + eapply safe_returns; [exact Hrun|]. simpl.
        apply table_ok_insert; [exact Hok|].
        apply entry_ok_state; [present Hreq|discriminate].
      + eapply safe_returns; [exact Hrun|]. simpl.
        apply table_ok_insert; [exact Hok|].
        apply entry_ok_state; [present Hreq|].
        intros _. exists (u :: u2 :: rest). split; [|exact Hm].
        apply lookup_insert_eq.
    - eapply safe_raises; [exact Hrun|now rewrite Hst|].
      intros users' Hl' Hd'. rewrite Hl in Hl'. injection Hl' as ->.
      simpl in Hi. injection Hi as <-. congruence. }
  destruct (String.eqb label "awaiting_remove_choice") eqn:E6.
  { apply String.eqb_eq in E6. subst label.
    destruct (Hcand eq_refl) as (candidates & Hm & Hd).
    destruct (Hreq "remove_username" ltac:(simpl; tauto)) as [username Hu].
    set (choice := lower (strip update_text)).
    destruct (String.eqb choice "all") eqn:Hall.
    { apply String.eqb_eq in Hall. left.
      eapply safe_returns;
        [exact (remove_choice_all_run w user_id entry update_text username
                  Ht Hs Hu Hall)|].
      simpl. apply table_ok_insert; [exact Hok|].
      apply entry_ok_state; [present Hreq|discriminate]. }
    apply String.eqb_neq in Hall.
    destruct (isdigit choice) eqn:Hdigit.
    2: { left. eapply safe_returns;
           [exact (invalid_input_run w user_id entry update_text Ht Hs Hdigit Hall)|].
         exact Hok. }
    destruct (int choice) as [number|] eqn:Hint.
    2: { right. split; [|split].
         - apply unreadable_choice_run with entry; [exact Ht|exact Hs|].
           now split.
         - now split.
         - now apply in_state_true with entry. }
    left.
    destruct (Z_lt_dec number 1) as [Hlow|Hlow].
    { eapply safe_returns;
        [exact (invalid_choice_run w user_id entry update_text candidates number
                  Ht Hs Hm Hall Hdigit Hint (or_introl Hlow))|].
      exact Hok. }
    destruct (Z_lt_dec (Z.of_nat (length candidates)) number) as [Hhigh|Hhigh].
    { eapply safe_returns;
        [exact (invalid_choice_run w user_id entry update_text candidates number
                  Ht Hs Hm Hall Hdigit Hint (or_intror Hhigh))|].
      exact Hok. }
    destruct (nth_error candidates (Z.to_nat (number - 1)))
      as [user|] eqn:Hnth.
    2: { apply nth_error_None in Hnth. lia. }
    assert (Hdict : is_dict user = true).
    { apply nth_error_In in Hnth. rewrite forallb_forall in Hd. now apply Hd. }
    eapply safe_returns;
      [exact (remove_choice_index_run w user_id entry update_text candidates
                user Ht Hs Hm Hall Hdigit number Hint ltac:(lia) Hnth Hdict)|].
    simpl. apply table_ok_insert; [exact Hok|].
    apply entry_ok_state; [present Hreq|discriminate]. }
  left. eapply safe_returns; [|exact Hok].
  apply ignored_text_run with entry label; [exact Ht|exact Hs|].
  unfold awaits_text. simpl. now rewrite E1, E2, E3, E4, E5, E6.
Qed.

(** *** The offline choice *)

(** The ways the offline choice can end. *)
Lemma handle_offline_callback_cases (data : string) (user_id : Z) (w : world) :
  handle_offline_callback data user_id w = (Ret tt, w)
  \/ (exists entry allowOffline,
        user_states w !! user_id = Some entry
        /\ entry !! "state" = Some (PyStr "awaiting_offline")
        /\ fst (handle_offline_callback data user_id w) = Ret tt
        /\ (user_states (snd (handle_offline_callback data user_id w))
            = delete user_id (user_states w)
            \/ user_states (snd (handle_offline_callback data user_id w))
               = <[user_id := <["state" := PyStr "confirm_duplicate"]>
                               (<["allowOffline" := PyBool allowOffline]> entry)]>
                   (user_states w))).
Proof.
  destruct (user_states w !! user_id) as [entry|] eqn:Ht.
  2: { left. unfold handle_offline_callback. mpure. now rewrite Ht. }
  destruct (state_is (entry_get entry "state") "awaiting_offline") eqn:Hs.
  2: { left. unfold handle_offline_callback. mpure. now rewrite Ht, Hs. }
  destruct (offline_choice data) as [allowOffline|] eqn:Hc.
  2: { left. unfold handle_offline_callback. mpure. now rewrite Ht, Hs, Hc. }
  right. exists entry, allowOffline.
  apply state_is_true in Hs. unfold entry_get in Hs.
  destruct (entry !! "state") as [v|] eqn:Hv; [|discriminate]. subst v.
  split; [reflexivity|]. split; [reflexivity|].
  exact (offline_choice_ends w user_id entry data allowOffline Ht Hv Hc).
Qed.

Lemma handle_offline_callback_safe (data : string) (user_id : Z) (w : world) :
  table_ok (user_states w) ->
  safe_step (handle_offline_callback data user_id) w
  /\ fst (handle_offline_callback data user_id w) = Ret tt.
Proof.
  intros Hok.
  destruct (handle_offline_callback_cases data user_id w)
    as [Hrun|(entry & allowOffline & Ht & Hs & Hret & Hstates)].
  - split; [eapply safe_returns; [exact Hrun|exact Hok]|now rewrite Hrun].
  - split; [|exact Hret]. unfold safe_step. rewrite Hret.
    split; [|auto].
    destruct (Hok _ _ Ht) as (label & Hs' & Hreq & _).
    rewrite Hs in Hs'. injection Hs' as <-.
    destruct Hstates as [->| ->]; [now apply table_ok_delete|].
    apply table_ok_insert; [exact Hok|].
    apply entry_ok_state; [present Hreq|discriminate].
Qed.

(** *** The confirmations *)

Lemma in_state_label (t : gmap Z (gmap string pyval)) (user_id : Z)
    (label : string) :
  table_ok t ->
  in_state t user_id label = true ->
  exists entry,
    t !! user_id = Some entry
    /\ entry !! "state" = Some (PyStr label)
    /\ (forall key, In key (required_fields label) -> is_Some (entry !! key)).
Proof.
  intros Hok Hin. unfold in_state in Hin.
  destruct (t !! user_id) as [entry|] eqn:Ht; [|discriminate].
  destruct (Hok _ _ Ht) as (label' & Hs & Hreq & _).
  unfold entry_get in Hin. rewrite Hs, state_is_str in Hin.
  apply String.eqb_eq in Hin. subst label'. eauto.
Qed.

(** The confirmation of a single removal, whatever the load returns. *)
Lemma confirm_remove_any_run (w : world) (user_id : Z)
    (entry : gmap string pyval) (target users : pyval) (all_users : list pyval) :
  user_states w !! user_id = Some entry ->
  entry !! "state" = Some (PyStr "confirm_remove_single") ->
  entry !! "remove_user" = Some target ->
  fst (load_users w) = Ret users ->
  py_iter users = Ret all_users ->
  handle_confirm_callback "confirm_remove" user_id w =
  (saved <- save_users
              (PyList (List.filter (fun user => negb (py_eq user target)) all_users)) ;;
   send (if saved then UserRemoved else RemoveFailed) ;;; pop_entry user_id)
    (snd (load_users w)).
Proof.
  intros Ht Hs Hr Hl Hi. unfold handle_confirm_callback. mstep. eval_strings.
  rewrite (in_state_true _ _ _ _ Ht Hs).
  rewrite (bind_get_item _ _ _ _ _ _ Ht Hr), (bind_load_users _ _ _ Hl).
  rewrite Hi. reflexivity.
Qed.

(** The confirmation of the removal of every match, whatever the load
    returns. *)
Lemma confirm_remove_all_any_run (w : world) (user_id : Z)
    (entry : gmap string pyval) (username users : pyval)
    (all_users : list pyval) :
  user_states w !! user_id = Some entry ->
  entry !! "state" = Some (PyStr "confirm_remove_all") ->
  entry !! "remove_username" = Some username ->
  fst (load_users w) = Ret users ->
  py_iter users = Ret all_users ->
  handle_confirm_callback "confirm_remove_all" user_id w =
  match select (username_is_not username) all_users with
  | Ret kept =>
      (saved <- save_users (PyList kept) ;;
       send (if saved then AllRemoved username else RemoveAllFailed) ;;;
       pop_entry user_id)
        (snd (load_users w))
  | Raise e => (Raise e, snd (load_users w))
  end.
Proof.
  intros Ht Hs Hr Hl Hi. unfold handle_confirm_callback. mstep. eval_strings.
  rewrite (in_state_true _ _ _ _ Ht Hs).
  rewrite (bind_get_item _ _ _ _ _ _ Ht Hr), (bind_load_users _ _ _ Hl).
  rewrite Hi. mpure.
  destruct (select (username_is_not username) all_users); reflexivity.
Qed.

(** The confirmation of a duplicate on a loaded value that is not a list. *)
Lemma add_anyway_not_list_run (w : world) (user_id : Z)
    (entry : gmap string pyval) (users : pyval) :
  user_states w !! user_id = Some entry ->
  entry !! "state" = Some (PyStr "confirm_duplicate") ->
  fst (load_users w) = Ret users ->
  (forall l, users <> PyList l) ->
  handle_confirm_callback "add_anyway" user_id w
  = (Raise AttributeError, snd (load_users w)).
Proof.
  intros Ht Hs Hl Hno. unfold handle_confirm_callback. mstep. eval_strings.
  rewrite (in_state_true _ _ _ _ Ht Hs). rewrite Ht. mstep.
  rewrite (bind_load_users _ _ _ Hl).
  destruct users as [| | | |l|]; try reflexivity. now destruct (Hno l).
Qed.

(** A commit keeps the table consistent and returns. *)
Lemma commit_safe (h : M unit) (w : world) (user_id : Z) (users : pyval)
    (done failed : reply) :
  table_ok (user_states w) ->
  h w =
  (saved <- save_users users ;;
   send (if saved then done else failed) ;;; pop_entry user_id)
    (snd (load_users w)) ->
  safe_step h w.
Proof.
  intros Hok Hrun. destruct (load_users_frame w) as (Hst & _).
  destruct (commit_end user_id users done failed (snd (load_users w)))
    as (Hret & Hstates & _).
  unfold safe_step. rewrite Hrun, Hret, Hstates, Hst.
  split; [now apply table_ok_delete|]. auto.
Qed.

Lemma handle_confirm_callback_safe (data : string) (user_id : Z) (w : world) :
  table_ok (user_states w) ->
  safe_step (handle_confirm_callback data user_id) w.
Proof.
  intros Hok.
  destruct (load_users_returns w) as [users Hl].
  destruct (py_iter_sized users (load_users_sized w users Hl)) as [all_users Hi].
  destruct (load_users_frame w) as (Hst & _).
  destruct (String.eqb data "confirm_remove") eqn:D1.
  { apply String.eqb_eq in D1. subst data.
    destruct (in_state (user_states w) user_id "confirm_remove_single") eqn:Hin.
    - destruct (in_state_label _ _ _ Hok Hin) as (entry & Ht & Hs & Hreq).
      destruct (Hreq "remove_user" ltac:(simpl; tauto)) as [target Hr].
      eapply commit_safe; [exact Hok|].
      exact (confirm_remove_any_run w user_id entry target users all_users
               Ht Hs Hr Hl Hi).
    - eapply safe_returns; [|exact Hok].
      unfold handle_confirm_callback. mpure. eval_strings. now rewrite Hin. }
  destruct (String.eqb data "confirm_remove_all") eqn:D2.
  { apply String.eqb_eq in D2. subst data.
    destruct (in_state (user_states w) user_id "confirm_remove_all") eqn:Hin.
    - destruct (in_state_label _ _ _ Hok Hin) as (entry & Ht & Hs & Hreq).
      destruct (Hreq "remove_username" ltac:(simpl; tauto)) as [username Hr].
      pose proof (confirm_remove_all_any_run w user_id entry username users
                    all_users Ht Hs Hr Hl Hi) as Hrun.
      destruct (select_username_is_not_cases username all_users)
        as [(kept & Hsel & Hall)|[Hsel Hall]]; rewrite Hsel in Hrun.
      + eapply commit_safe; [exact Hok|exact Hrun].
      + eapply safe_raises; [exact Hrun|now rewrite Hst|].
        intros users' Hl' Hd'. rewrite Hl in Hl'. injection Hl' as ->.
        simpl in Hi. injection Hi as <-. congruence.
    - eapply safe_returns; [|exact Hok].
      unfold handle_confirm_callback. mpure. eval_strings. now rewrite Hin. }
  destruct (String.eqb data "add_anyway") eqn:D3.
  { apply String.eqb_eq in D3. subst data.
    destruct (in_state (user_states w) user_id "confirm_duplicate") eqn:Hin.
    - destruct (in_state_label _ _ _ Hok Hin) as (entry & Ht & Hs & Hreq).
      destruct (Hreq "device_id" ltac:(simpl; tauto)) as [device_id H1].
      destruct (Hreq "username" ltac:(simpl; tauto)) as [username H2].
      destruct (Hreq "password" ltac:(simpl; tauto)) as [password H3].
      destruct (Hreq "expiresAt" ltac:(simpl; tauto)) as [expiresAt H4].
      destruct (Hreq "allowOffline" ltac:(simpl; tauto)) as [allowOffline H5].
      destruct users as [| | | |l|];
        try (eapply safe_raises;
             [apply (add_anyway_not_list_run w user_id entry _ Ht Hs Hl);
              intros l; discriminate
             |now rewrite Hst
             |intros users' Hl'; rewrite Hl in Hl'; discriminate]).
      eapply commit_safe; [exact Hok|].
      exact (add_anyway_run w user_id entry device_id username password
               expiresAt allowOffline l Ht Hs H1 H2 H3 H4 H5 Hl).
    - eapply safe_returns; [|exact Hok].
      unfold handle_confirm_callback. mpure. eval_strings. now rewrite Hin. }
  destruct (String.eqb data "menu") eqn:D4.
  { apply String.eqb_eq in D4. subst data.
    eapply safe_returns; [apply menu_run|]. simpl. now apply table_ok_delete. }
  eapply safe_returns; [|exact Hok].
  unfold handle_confirm_callback. mpure. now rewrite D1, D2, D3, D4.
Qed.

(** *** The two statements *)

Lemma table_ok_empty : table_ok ∅.
Proof. intros user_id entry H. now rewrite lookup_empty in H. Qed.

Lemma table_ok_singleton (user_id : Z) (entry : gmap string pyval) :
  entry_ok entry -> table_ok {[user_id := entry]}.
Proof.
  intros He u e [<- <-]%lookup_singleton_Some. exact He.
Qed.

(** X11: the table of conversations stays consistent: it is when the
    process starts, and every handler, whatever its input and whatever the
    store answers, leaves each entry with a state label, with the fields that
    the handlers read in that state, and, while a choice among candidates is
    awaited, with candidates that are a list of records. *)
Theorem table_stays_consistent :
  table_ok ∅
  /\ forall (w : world) (user_id : Z),
       table_ok (user_states w) ->
       (forall data, table_ok (user_states (snd (button_handler data user_id w))))
       /\ table_ok (user_states (snd (add_user_command user_id w)))
       /\ table_ok (user_states (snd (remove_user_command user_id w)))
       /\ (forall update_text,
             table_ok (user_states (snd (handle_message user_id update_text w))))
       /\ (forall data,
             table_ok (user_states (snd (handle_offline_callback data user_id w))))
       /\ (forall data,
             table_ok (user_states (snd (handle_confirm_callback data user_id w)))).
Proof.
  split; [exact table_ok_empty|].
  intros w user_id Hok. repeat split.
  - intros data. apply (button_handler_safe data user_id w Hok).
  - apply (add_user_command_safe user_id w Hok).
  - apply (remove_user_command_safe user_id w Hok).
  - intros update_text.
    destruct (handle_message_safe user_id update_text w Hok) as [H|[-> _]];
      [apply H|exact Hok].
  - intros data. apply (handle_offline_callback_safe data user_id w Hok).
  - intros data. apply (handle_confirm_callback_safe data user_id w Hok).
Qed.

(** X12: on a consistent table no handler fails on the table.  The starts
    (the commands and the [add_user] and [remove_user] buttons), the cancel
    and the offline choice always return.  A confirmation returns or raises
    [AttributeError], and returns whenever the store holds a list of
    records.  So does a text, with one exception: in the state
    [awaiting_remove_choice], a text that is not [all], that [isdigit]
    accepts and that [int] cannot read raises the [ValueError] of [int],
    and leaves the world as it was. *)
Theorem handlers_raise_only_on_malformed_input (w : world) (user_id : Z) :
  table_ok (user_states w) ->
  let returns_on_records (h : M unit) :=
    (fst (h w) = Ret tt \/ fst (h w) = Raise AttributeError)
    /\ (forall users,
          fst (load_users w) = Ret (PyList users) ->
          forallb is_dict users = true ->
          fst (h w) = Ret tt) in
  (forall data, fst (button_handler data user_id w) = Ret tt)
  /\ fst (add_user_command user_id w) = Ret tt
  /\ fst (remove_user_command user_id w) = Ret tt
  /\ (forall data, fst (handle_offline_callback data user_id w) = Ret tt)
  /\ (forall update_text,
        returns_on_records (handle_message user_id update_text)
        \/ (handle_message user_id update_text w = (Raise ValueError, w)
            /\ unreadable_choice update_text
            /\ in_state (user_states w) user_id "awaiting_remove_choice" = true))
  /\ (forall update_text entry,
        user_states w !! user_id = Some entry ->
        entry !! "state" = Some (PyStr "awaiting_remove_choice") ->
        unreadable_choice update_text ->
        handle_message user_id update_text w = (Raise ValueError, w))
  /\ (forall data, returns_on_records (handle_confirm_callback data user_id)).
Proof.
  intros Hok. cbv zeta beta.
  split.
  { intros [| |]; try reflexivity.
    unfold button_handler. mpure. now destruct (user_states w !! user_id). }
  split; [reflexivity|].
  split; [reflexivity|].
  split; [intros data; apply (handle_offline_callback_safe data user_id w Hok)|].
  split; [|split].
  - intros update_text.
    destruct (handle_message_safe user_id update_text w Hok) as [H|H];
      [left; apply H|right; exact H].
  - intros update_text entry Ht Hs Hbad.
    now apply unreadable_choice_run with entry.
  - intros data. apply (handle_confirm_callback_safe data user_id w Hok).
Qed.

End Safety.

(** ** Instances of the further statements *)

Section More_instances.
Import Example.

#[local] Existing Instance Example.env.
#[local] Existing Instance Example.library.

(** The content uploaded for one record reads back as that record. *)
Lemma saved_content_decodes_witness :
  Json.loads (Json.dumps (PyList [alice])) = Ret (PyList [alice]).
Proof.
  refine (proj2 (saved_content_decodes (PyList [alice])
                   (DocStore.start hash (store_of [])) _ _ eq_refl eq_refl _)).
  vm_compute. reflexivity.
Defined.

(** A text sent while the offline choice is awaited changes nothing. *)
Lemma text_ignored_while_button_awaited_witness :
  handle_message 7 "hello" (world_with None collected)
  = (Ret tt, world_with None collected).
Proof.
  apply (proj1 (text_ignored_while_button_awaited (world_with None collected) 7
                  collected "awaiting_offline" "hello"
                  ltac:(vm_compute; reflexivity) ltac:(vm_compute; reflexivity)
                  eq_refl)).
Defined.

(** With two candidates, the choice [3] is rejected as a choice and the
    text [x] as an input; the superscript two, which [isdigit] accepts, makes
    [int] raise. *)
Lemma remove_choice_rejects_witness :
  handle_message 7 " 3 " (world_with None choosing)
  = (Ret tt, with_reply (world_with None choosing) InvalidChoice)
  /\ handle_message 7 "x" (world_with None choosing)
     = (Ret tt, with_reply (world_with None choosing) InvalidInput)
  /\ @handle_message env library_with_superscript 7 superscript_two
       (world_with None choosing)
     = (Raise ValueError, world_with None choosing).
Proof.
  split; [|split].
  - apply (proj1 (remove_choice_rejects (world_with None choosing) 7 choosing
                    " 3 " [alice; alice_again]
                    ltac:(vm_compute; reflexivity) ltac:(vm_compute; reflexivity)
                    ltac:(vm_compute; reflexivity) ltac:(vm_compute; discriminate))
             ltac:(vm_compute; reflexivity) 3 ltac:(vm_compute; reflexivity)).
    right. vm_compute. reflexivity.
  - apply (proj1 (proj2 (remove_choice_rejects (world_with None choosing) 7
                           choosing "x" [alice; alice_again]
                           ltac:(vm_compute; reflexivity)
                           ltac:(vm_compute; reflexivity)
                           ltac:(vm_compute; reflexivity)
                           ltac:(vm_compute; discriminate)))).
    vm_compute. reflexivity.
  - apply (proj2 (proj2 (@remove_choice_rejects env library_with_superscript
                           (world_with None choosing) 7
                           choosing superscript_two [alice; alice_again]
                           ltac:(vm_compute; reflexivity)
                           ltac:(vm_compute; reflexivity)
                           ltac:(vm_compute; reflexivity)
                           ltac:(vm_compute; discriminate))));
      vm_compute; reflexivity.
Defined.

(** February 29th of a leap year is accepted, as a day of that month. *)
Lemma strptime_accepts_calendar_days_witness :
  1 <= 2024 <= 9999 /\ 1 <= 2 <= 12 /\ 1 <= 29 <= Datetime.days_in_month 2024 2.
Proof.
  apply (strptime_accepts_calendar_days "2024-02-29" 2024 2 29).
  vm_compute. reflexivity.
Defined.

(** On November 3rd, an expiry on December 12th has days left. *)
Lemma days_left_sign_witness :
  0 < get_days_left (2025, 11, 3) (PyStr "2025-12-12").
Proof.
  apply (proj1 (@days_left_sign library (2025, 11, 3) "2025-12-12"
                  (2025, 12, 12) eq_refl ltac:(vm_compute; reflexivity))).
  reflexivity.
Defined.

(** From February 29th to March 1st, one day more. *)
Lemma days_left_counts_days_witness :
  get_days_left (2025, 11, 3) (PyStr "2024-03-01")
  = get_days_left (2025, 11, 3) (PyStr "2024-02-29") + 1.
Proof.
  apply (@days_left_counts_days library (2025, 11, 3) "2024-02-29"
           "2024-03-01" (2024, 2, 29));
    vm_compute; reflexivity.
Defined.

(** Two stored records give two rows. *)
Lemma list_users_rows_witness :
  exists rows,
    fst (list_users_command (2025, 11, 3)
           (DocStore.start hash (store_of [alice; bob])))
    = Ret (ApprovedUsers 2 rows)
    /\ length rows = 2%nat.
Proof.
  destruct (list_users_rows (2025, 11, 3)
              (DocStore.start hash (store_of [alice; bob])) [alice; bob]
              eq_refl ltac:(vm_compute; reflexivity) eq_refl)
    as (rows & Hrows & Hlen & _).
  exists rows. split; [exact Hrows|exact Hlen].
Defined.

(** A stored array of numbers cannot be listed. *)
Lemma list_users_needs_records_witness :
  fst (list_users_command (2025, 11, 3) (DocStore.start hash (Some "[1]")))
  = Raise AttributeError.
Proof.
  apply (list_users_needs_records (2025, 11, 3)
           (DocStore.start hash (Some "[1]")) [PyInt 1]);
    vm_compute; reflexivity.
Defined.

(** The debug view of a store that holds one record. *)
Lemma debug_rewrites_same_collection_witness :
  fst (debug_command Message (DocStore.start hash (store_of [alice])))
  = Ret (DebugInfo true 200 1 true 0).
Proof.
  apply (proj1 (debug_rewrites_same_collection hash
                  (DocStore.start hash (store_of [alice]))
                  (Json.dumps (PyList [alice])) [alice]
                  eq_refl ltac:(vm_compute; reflexivity)
                  ltac:(discriminate) eq_refl)).
Defined.

(** A whole add conversation on a store that holds [alice]. *)
Lemma add_conversation_appends_witness :
  fst (load_users
         (snd ((add_user_command 7 ;;;
                handle_message 7 " dev3 " ;;;
                handle_message 7 "bob" ;;;
                handle_message 7 "secret" ;;;
                handle_message 7 "" ;;;
                handle_offline_callback "offline_no" 7)
                 (DocStore.start hash (store_of [alice])))))
  = Ret (PyList [alice; bob]).
Proof.
  apply (add_conversation_appends hash
           (DocStore.start hash (store_of [alice])) 7
           (Json.dumps (PyList [alice])) [alice]
           " dev3 " "bob" "secret" "" "offline_no" false (2025, 12, 12)
           eq_refl ltac:(vm_compute; reflexivity) eq_refl eq_refl
           ltac:(vm_compute; reflexivity) eq_refl eq_refl
           ltac:(vm_compute; reflexivity)).
Defined.

(** The same with the username and password of [alice]: the record goes in
    after the confirmation. *)
Lemma duplicate_conversation_appends_witness :
  remote
    (snd (handle_confirm_callback "add_anyway" 7
            (snd ((add_user_command 7 ;;;
                   handle_message 7 "dev1" ;;;
                   handle_message 7 "alice" ;;;
                   handle_message 7 "pw" ;;;
                   handle_message 7 "2025-12-12" ;;;
                   handle_offline_callback "offline_yes" 7)
                    (DocStore.start hash (store_of [alice]))))))
  = Some (Json.dumps (PyList [alice; alice])).
Proof.
  apply (duplicate_conversation_appends hash
           (DocStore.start hash (store_of [alice])) 7
           (Json.dumps (PyList [alice])) [alice]
           "dev1" "alice" "pw" "2025-12-12" "offline_yes" true (2025, 12, 12)
           eq_refl ltac:(vm_compute; reflexivity) eq_refl eq_refl
           ltac:(vm_compute; reflexivity) eq_refl
           ltac:(vm_compute; reflexivity) ltac:(vm_compute; reflexivity)).
Defined.

(** A whole remove conversation: [bob] goes, [alice] stays. *)
Lemma remove_conversation_removes_witness :
  fst (load_users
         (snd ((remove_user_command 7 ;;;
                handle_message 7 " bob " ;;;
                handle_confirm_callback "confirm_remove" 7)
                 (DocStore.start hash (store_of [alice; bob])))))
  = Ret (PyList [alice]).
Proof.
  apply (remove_conversation_removes hash
           (DocStore.start hash (store_of [alice; bob])) 7
           (Json.dumps (PyList [alice; bob])) [alice; bob] " bob " bob
           eq_refl ltac:(vm_compute; reflexivity) eq_refl eq_refl
           ltac:(vm_compute; reflexivity) ltac:(vm_compute; reflexivity)).
Defined.

(** Both records of [alice] go with the choice [all]. *)
Lemma remove_all_conversation_removes_witness :
  fst (load_users
         (snd ((remove_user_command 7 ;;;
                handle_message 7 "alice" ;;;
                handle_message 7 " ALL " ;;;
                handle_confirm_callback "confirm_remove_all" 7)
                 (DocStore.start hash (store_of [alice; bob; alice_again])))))
  = Ret (PyList [bob]).
Proof.
  apply (remove_all_conversation_removes hash
           (DocStore.start hash (store_of [alice; bob; alice_again])) 7
           (Json.dumps (PyList [alice; bob; alice_again]))
           [alice; bob; alice_again] "alice" " ALL "
           eq_refl ltac:(vm_compute; reflexivity) eq_refl eq_refl
           ltac:(vm_compute; lia) ltac:(vm_compute; reflexivity)
           ltac:(vm_compute; reflexivity)).
Defined.

(** [bob] was selected, but the store now holds [alice] alone: the removal
    is reported and the store still holds [alice]. *)
Lemma vanished_record_removal_reports_success_witness :
  outbox
    (snd (handle_confirm_callback "confirm_remove" 7
            (world_with (store_of [alice])
               (<["remove_user" := bob]> (entry_in "confirm_remove_single")))))
  = [UserRemoved].
Proof.
  apply (vanished_record_removal_reports_success hash
           (world_with (store_of [alice])
              (<["remove_user" := bob]> (entry_in "confirm_remove_single")))
           7
           (<["remove_user" := bob]> (entry_in "confirm_remove_single"))
           (Json.dumps (PyList [alice])) [alice] bob
           ltac:(vm_compute; reflexivity) ltac:(vm_compute; reflexivity)
           ltac:(vm_compute; reflexivity) eq_refl
           ltac:(vm_compute; reflexivity) ltac:(vm_compute; reflexivity)
           ltac:(vm_compute; reflexivity)).
Defined.

(** With the fields collected, the offline choice returns even on a store
    that holds numbers; while a choice among two candidates is awaited, the
    superscript two makes the handler raise and changes nothing. *)
Lemma handlers_raise_only_on_malformed_input_witness :
  fst (handle_offline_callback "offline_yes" 7
         (world_with (Some "[1]") collected))
  = Ret tt
  /\ @handle_message env library_with_superscript 7 superscript_two
       (world_with None choosing)
     = (Raise ValueError, world_with None choosing).
Proof.
  split.
  - apply (handlers_raise_only_on_malformed_input
             (world_with (Some "[1]") collected) 7).
    apply table_ok_singleton. exists "awaiting_offline".
    split; [vm_compute; reflexivity|]. split; [|discriminate].
    intros key Hin. simpl in Hin.
    repeat (destruct Hin as [<-|Hin]); try contradiction;
      eexists; vm_compute; reflexivity.
  - refine (proj1 (proj2 (proj2 (proj2 (proj2 (proj2
             (@handlers_raise_only_on_malformed_input env
                library_with_superscript (world_with None choosing) 7 _))))))
             superscript_two choosing _ _ _).
    + apply table_ok_singleton. exists "awaiting_remove_choice".
      split; [vm_compute; reflexivity|]. split.
      * intros key Hin. simpl in Hin.
        repeat (destruct Hin as [<-|Hin]); try contradiction;
          eexists; vm_compute; reflexivity.
      * intros _. exists [alice; alice_again]. split; vm_compute; reflexivity.
    + vm_compute. reflexivity.
    + vm_compute. reflexivity.
    + split; [vm_compute; discriminate|]. split; vm_compute; reflexivity.
Defined.

End More_instances.
